(** * VeoVerse: a shallow embedding of the video-generation client

    The development follows the Python sources file by file:
    [config.py] (constants), [utils.py] (naming, path resolution, the
    long-running-operation poller, download, parameter validation),
    [veo_generator.py] (single-video and image-to-video generation),
    [veo_extension.py] (scene chains and scene files) and
    [model_discovery.py] (the model catalog).  Python values that the
    code treats dynamically are embedded as [PyVal]; exceptions are
    values of type [exn]; code that talks to the provider or to the local
    machine runs in a state and exception monad over a [World]. *)

From stdpp Require Import gmap strings list pretty.
From Stdlib Require Import ZArith Ascii.

Open Scope Z_scope.

(** ** Python values *)

Module Py.

(** The scalar values a generation parameter can hold (the values of a
    JSON scene file, and the arguments the type hints of the sources
    allow).  Floats, lists and nested dictionaries are outside the model. *)
Inductive PyVal : Type :=
| PyNone
| PyBool (b : bool)
| PyInt (z : Z)
| PyStr (s : string).

(** Truth value testing: [None], [False], [0] and the empty string are
    false, everything else is true. *)
Definition truthy (v : PyVal) : bool :=
  match v with
  | PyNone => false
  | PyBool b => b
  | PyInt z => negb (z =? 0)
  | PyStr s => negb (String.eqb s EmptyString)
  end.

(** [bool] is a subclass of [int]: [True == 1] and [False == 0]. *)
Definition as_int (v : PyVal) : option Z :=
  match v with
  | PyBool b => Some (if b then 1 else 0)
  | PyInt z => Some z
  | _ => None
  end.

(** [a == b] *)
Definition py_eq (a b : PyVal) : bool :=
  match a, b with
  | PyNone, PyNone => true
  | PyStr s, PyStr t => String.eqb s t
  | _, _ =>
      match as_int a, as_int b with
      | Some x, Some y => x =? y
      | _, _ => false
      end
  end.

(** [v in l] *)
Definition py_in (v : PyVal) (l : list PyVal) : bool :=
  existsb (py_eq v) l.

(** [a or b] *)
Definition py_or (a b : PyVal) : PyVal :=
  if truthy a then a else b.

(** [str(v)] *)
Definition py_str (v : PyVal) : string :=
  match v with
  | PyNone => "None"
  | PyBool true => "True"
  | PyBool false => "False"
  | PyInt z => pretty z
  | PyStr s => s
  end.

(** [isinstance(v, str)] *)
Definition is_str (v : PyVal) : bool :=
  match v with PyStr _ => true | _ => false end.

(** [not s] for an [Optional[str]]. *)
Definition opt_str_falsy (o : option string) : bool :=
  match o with
  | None => true
  | Some s => String.eqb s EmptyString
  end.

(** *** Exceptions

    The exception classes the sources raise or let through.  The
    failure taxonomy of the design reads [ValueError] as InvalidParameter,
    [TimeoutError] as Timeout, [RuntimeError] as RemoteError and
    [FileNotFoundError] as NotFound. *)
Inductive exn : Type :=
| ValueError (msg : string)
| TimeoutError (msg : string)
| RuntimeError (msg : string)
| FileNotFoundError (msg : string)
| TypeError (msg : string)
| AttributeError (msg : string)
| IndexError (msg : string)
| OtherException (cls msg : string).

(** [str(e)] *)
Definition exn_str (e : exn) : string :=
  match e with
  | ValueError m | TimeoutError m | RuntimeError m | FileNotFoundError m
  | TypeError m | AttributeError m | IndexError m | OtherException _ m => m
  end.

Definition is_ValueError (e : exn) : bool :=
  match e with ValueError _ => true | _ => false end.
Definition is_TimeoutError (e : exn) : bool :=
  match e with TimeoutError _ => true | _ => false end.
Definition is_RuntimeError (e : exn) : bool :=
  match e with RuntimeError _ => true | _ => false end.

Inductive Result (A : Type) : Type :=
| Ok (a : A)
| Raise (e : exn).
Arguments Ok {A} a.
Arguments Raise {A} e.

(** The outcome is a failure of the given class. *)
Definition fails_with {A} (cls : exn -> bool) (r : Result A) : bool :=
  match r with
  | Ok _ => false
  | Raise e => cls e
  end.

Definition is_Ok {A} (r : Result A) : bool :=
  match r with Ok _ => true | Raise _ => false end.

(** *** Code that only prints: lines written to standard output, then the
    outcome. *)
Definition Out (A : Type) : Type := list string * Result A.

Definition out_ret {A} (a : A) : Out A := ([], Ok a).
Definition out_raise {A} (e : exn) : Out A := ([], Raise e).
Definition out_print (line : string) : Out unit := ([line], Ok tt).
Definition out_bind {A B} (m : Out A) (k : A -> Out B) : Out B :=
  match m with
  | (l1, Ok a) => let '(l2, r) := k a in (l1 ++ l2, r)
  | (l1, Raise e) => (l1, Raise e)
  end.
(** [if c: body] *)
Definition out_when (c : bool) (body : Out unit) : Out unit :=
  if c then body else out_ret tt.

End Py.
Import Py.

#[global] Instance Out_ret : MRet Out := @out_ret.
#[global] Instance Out_bind : MBind Out := fun A B k m => out_bind m k.

(** ** config.py *)

Module Config.

Definition DEFAULT_MODEL : string := "veo-3.1-generate-preview".
Definition DEFAULT_ASPECT_RATIO : string := "16:9".
Definition DEFAULT_RESOLUTION : string := "720p".
Definition DEFAULT_DURATION_SECONDS : Z := 8.
Definition DEFAULT_NUMBER_OF_VIDEOS : Z := 1.

Definition SUPPORTED_MODELS : list PyVal :=
  [ PyStr "veo-3.1-generate-preview";
    PyStr "veo-3.1-fast-generate-preview";
    PyStr "veo-3.0-generate-001";
    PyStr "veo-3.0-fast-generate-001";
    PyStr "veo-2.0-generate-001" ].

Definition SUPPORTED_ASPECT_RATIOS : list PyVal := [PyStr "16:9"; PyStr "9:16"].
Definition SUPPORTED_RESOLUTIONS : list PyVal := [PyStr "720p"; PyStr "1080p"].
Definition SUPPORTED_DURATIONS : list PyVal := [PyInt 4; PyInt 6; PyInt 8].

(** [OUTPUT_DIR = Path("output")] *)
Definition OUTPUT_DIR : string := "output".

Definition POLL_INTERVAL_SECONDS : Z := 10.
Definition MAX_POLL_ATTEMPTS : nat := 180.

Definition EXTENSION_DURATION : Z := 7.
Definition MAX_EXTENSIONS : nat := 20.
Definition MAX_INPUT_VIDEO_LENGTH : Z := 141.

End Config.
Import Config.

(** ** utils.py: validate_parameters *)

Definition model_warning_1 (model : PyVal) : string :=
  "Warning: Model '" +:+ py_str model +:+
  "' is not in the known list of supported models.".

Definition model_warning_2 : string :=
  "Supported models: ['veo-3.1-generate-preview', 'veo-3.1-fast-generate-preview', 'veo-3.0-generate-001', 'veo-3.0-fast-generate-001', 'veo-2.0-generate-001']".

Definition portrait_1080p_warning : string :=
  "Warning: 1080p with 9:16 aspect ratio may have limited support".

Definition validate_parameters
    (aspect_ratio resolution duration_seconds model : PyVal) : Out unit :=
  out_when (truthy aspect_ratio && negb (py_in aspect_ratio SUPPORTED_ASPECT_RATIOS))
    (out_raise (ValueError
       "Invalid aspect_ratio. Must be one of: ['16:9', '9:16']")) ;;
  out_when (truthy resolution && negb (py_in resolution SUPPORTED_RESOLUTIONS))
    (out_raise (ValueError
       "Invalid resolution. Must be one of: ['720p', '1080p']")) ;;
  out_when (truthy duration_seconds && negb (py_in duration_seconds SUPPORTED_DURATIONS))
    (out_raise (ValueError
       "Invalid duration_seconds. Must be one of: [4, 6, 8]")) ;;
  out_when (truthy model && negb (py_in model SUPPORTED_MODELS))
    (out_print (model_warning_1 model) ;;
     out_print model_warning_2) ;;
  out_when (py_eq resolution (PyStr "1080p") && truthy duration_seconds
            && negb (py_eq duration_seconds (PyInt 8)))
    (out_raise (ValueError "1080p resolution only supports 8 second duration")) ;;
  out_when (py_eq resolution (PyStr "1080p") && py_eq aspect_ratio (PyStr "9:16"))
    (out_print portrait_1080p_warning).

(** ** Python strings

    A [string] is a sequence of code points below 256 (one [ascii] each);
    this covers ASCII and Latin-1 text. *)

Module Str.

Definition code (c : ascii) : Z := Z.of_N (N_of_ascii c).

Fixpoint replace_go (old new s : string) (skip : nat) : string :=
  match s with
  | EmptyString => EmptyString
  | String c s' =>
      match skip with
      | S k => replace_go old new s' k
      | O =>
          if String.prefix old s
          then new +:+ replace_go old new s' (String.length old - 1)
          else String c (replace_go old new s' 0)
      end
  end.

Fixpoint intersperse (new s : string) : string :=
  match s with
  | EmptyString => new
  | String c s' => new +:+ String c (intersperse new s')
  end.

(** [s.replace(old, new)]: every non-overlapping occurrence, scanning from
    the left. *)
Definition replace (old new s : string) : string :=
  match old with
  | EmptyString => intersperse new s
  | String _ _ => replace_go old new s 0
  end.

(** [s.lstrip(chars)] *)
Fixpoint lstrip (chars : list ascii) (s : string) : string :=
  match s with
  | EmptyString => EmptyString
  | String c s' =>
      if bool_decide (c ∈ chars) then lstrip chars s' else s
  end.

(** [c.isspace()] for a code point below 256. *)
Definition isspace (c : ascii) : bool :=
  let n := code c in
  ((9 <=? n) && (n <=? 13)) || ((28 <=? n) && (n <=? 32))
  || (n =? 133) || (n =? 160).

Fixpoint lstrip_space (s : string) : string :=
  match s with
  | EmptyString => EmptyString
  | String c s' => if isspace c then lstrip_space s' else s
  end.

(** [len(s.strip()) == 0]: nothing is left once whitespace is stripped
    from both ends, that is, once it is stripped from the left. *)
Definition strip_is_empty (s : string) : bool :=
  String.eqb (lstrip_space s) EmptyString.

(** [s[:n]] *)
Fixpoint take (n : nat) (s : string) : string :=
  match n, s with
  | S n', String c s' => String c (take n' s')
  | _, _ => EmptyString
  end.

(** [sep.join(l)] *)
Fixpoint join (sep : string) (l : list string) : string :=
  match l with
  | [] => EmptyString
  | [x] => x
  | x :: rest => x +:+ sep +:+ join sep rest
  end.

(** [s.encode('utf-8')] *)
Definition utf8_char (c : ascii) : list Z :=
  let n := code c in
  if n <? 128 then [n]
  else [Z.lor 192 (Z.shiftr n 6); Z.lor 128 (Z.land n 63)].

Fixpoint encode_utf8 (s : string) : list Z :=
  match s with
  | EmptyString => []
  | String c s' => utf8_char c ++ encode_utf8 s'
  end.

(** [s.split(sep)] on a one-character separator. *)
Fixpoint split (sep : ascii) (s : string) : list string :=
  match s with
  | EmptyString => [EmptyString]
  | String c s' =>
      if Ascii.eqb c sep then EmptyString :: split sep s'
      else
        match split sep s' with
        | x :: rest => String c x :: rest
        | [] => [String c EmptyString]
        end
  end.

(** [c in s] *)
Fixpoint has_char (c : ascii) (s : string) : bool :=
  match s with
  | EmptyString => false
  | String c' s' => Ascii.eqb c' c || has_char c s'
  end.

End Str.

(** ** hashlib: MD5 (RFC 1321) *)

Module hashlib.

Definition mask32 : Z := 0xffffffff.
Definition add32 (a b : Z) : Z := Z.land (a + b) mask32.
Definition not32 (a : Z) : Z := Z.lxor a mask32.
Definition rotl32 (x c : Z) : Z :=
  Z.lor (Z.land (Z.shiftl x c) mask32) (Z.shiftr x (32 - c)).

Definition shifts : list Z :=
  [7; 12; 17; 22; 7; 12; 17; 22; 7; 12; 17; 22; 7; 12; 17; 22;
   5; 9; 14; 20; 5; 9; 14; 20; 5; 9; 14; 20; 5; 9; 14; 20;
   4; 11; 16; 23; 4; 11; 16; 23; 4; 11; 16; 23; 4; 11; 16; 23;
   6; 10; 15; 21; 6; 10; 15; 21; 6; 10; 15; 21; 6; 10; 15; 21].

Definition sines : list Z :=
  [0xd76aa478; 0xe8c7b756; 0x242070db; 0xc1bdceee; 0xf57c0faf; 0x4787c62a;
   0xa8304613; 0xfd469501; 0x698098d8; 0x8b44f7af; 0xffff5bb1; 0x895cd7be;
   0x6b901122; 0xfd987193; 0xa679438e; 0x49b40821; 0xf61e2562; 0xc040b340;
   0x265e5a51; 0xe9b6c7aa; 0xd62f105d; 0x02441453; 0xd8a1e681; 0xe7d3fbc8;
   0x21e1cde6; 0xc33707d6; 0xf4d50d87; 0x455a14ed; 0xa9e3e905; 0xfcefa3f8;
   0x676f02d9; 0x8d2a4c8a; 0xfffa3942; 0x8771f681; 0x6d9d6122; 0xfde5380c;
   0xa4beea44; 0x4bdecfa9; 0xf6bb4b60; 0xbebfbc70; 0x289b7ec6; 0xeaa127fa;
   0xd4ef3085; 0x04881d05; 0xd9d4d039; 0xe6db99e5; 0x1fa27cf8; 0xc4ac5665;
   0xf4292244; 0x432aff97; 0xab9423a7; 0xfc93a039; 0x655b59c3; 0x8f0ccc92;
   0xffeff47d; 0x85845dd1; 0x6fa87e4f; 0xfe2ce6e0; 0xa3014314; 0x4e0811a1;
   0xf7537e82; 0xbd3af235; 0x2ad7d2bb; 0xeb86d391].

Definition state : Type := Z * Z * Z * Z.

Definition round (words : list Z) (st : state) (i : nat) : state :=
  let '(a, b, c, d) := st in
  let iz := Z.of_nat i in
  let '(f, g) :=
    if iz <? 16 then (Z.lor (Z.land b c) (Z.land (not32 b) d), iz)
    else if iz <? 32 then
      (Z.lor (Z.land d b) (Z.land (not32 d) c), (5 * iz + 1) mod 16)
    else if iz <? 48 then (Z.lxor b (Z.lxor c d), (3 * iz + 5) mod 16)
    else (Z.lxor c (Z.lor b (not32 d)), (7 * iz) mod 16) in
  let f' := add32 (add32 (add32 f a) (nth i sines 0))
                  (nth (Z.to_nat g) words 0) in
  (d, add32 b (rotl32 f' (nth i shifts 0)), b, c).

Definition block (st : state) (words : list Z) : state :=
  let '(a0, b0, c0, d0) := st in
  let '(a, b, c, d) := foldl (round words) st (seq 0 64) in
  (add32 a0 a, add32 b0 b, add32 c0 c, add32 d0 d).

Definition le_bytes (n : nat) (x : Z) : list Z :=
  map (fun i => Z.land (Z.shiftr x (8 * Z.of_nat i)) 255) (seq 0 n).

Definition pad (msg : list Z) : list Z :=
  let len := Z.of_nat (length msg) in
  msg ++ [128] ++ replicate (Z.to_nat ((55 - len) mod 64)) 0
      ++ le_bytes 8 (Z.land (8 * len) 0xffffffffffffffff).

Fixpoint le_words (bytes : list Z) : list Z :=
  match bytes with
  | b0 :: b1 :: b2 :: b3 :: rest =>
      (b0 + Z.shiftl b1 8 + Z.shiftl b2 16 + Z.shiftl b3 24) :: le_words rest
  | _ => []
  end.

Fixpoint blocks (fuel : nat) (words : list Z) : list (list Z) :=
  match fuel, words with
  | S fuel', _ :: _ => take 16 words :: blocks fuel' (drop 16 words)
  | _, _ => []
  end.

Definition digest (msg : list Z) : list Z :=
  let words := le_words (pad msg) in
  let '(a, b, c, d) :=
    foldl block (0x67452301, 0xefcdab89, 0x98badcfe, 0x10325476)
          (blocks (length words) words) in
  le_bytes 4 a ++ le_bytes 4 b ++ le_bytes 4 c ++ le_bytes 4 d.

Definition hex_digit (n : Z) : ascii :=
  ascii_of_N (Z.to_N (if n <? 10 then 48 + n else 87 + n)).

Fixpoint hex (bytes : list Z) : string :=
  match bytes with
  | [] => EmptyString
  | b :: rest =>
      String (hex_digit (Z.shiftr b 4)) (String (hex_digit (Z.land b 15)) (hex rest))
  end.

(** [hashlib.md5(data).hexdigest()] *)
Definition md5_hexdigest (data : list Z) : string := hex (digest data).

End hashlib.

(** ** pathlib, POSIX flavour

    A pure path is an anchor ([root]: empty, one slash or two) and the
    list of its components; empty components and single dots are dropped
    when a string is parsed, double dots are kept. *)

Module pathlib.

Record PurePath : Type := { root : string; parts : list string }.

Definition splitroot (s : string) : string :=
  if String.prefix "///" s then "/"
  else if String.prefix "//" s then "//"
  else if String.prefix "/" s then "/"
  else EmptyString.

Definition keep_part (x : string) : bool :=
  negb (String.eqb x EmptyString) && negb (String.eqb x ".").

(** [Path(s)] *)
Definition Path (s : string) : PurePath :=
  {| root := splitroot s; parts := List.filter keep_part (Str.split "/" s) |}.

(** [p.name]: the final component, the empty string when there is none. *)
Definition name (p : PurePath) : string := List.last (parts p) EmptyString.

(** [p / s] *)
Definition joinpath (p : PurePath) (s : string) : PurePath :=
  let q := Path s in
  if String.eqb (root q) EmptyString
  then {| root := root p; parts := parts p ++ parts q |}
  else q.

(** [str(p)] *)
Definition to_str (p : PurePath) : string :=
  match root p, parts p with
  | EmptyString, [] => "."
  | r, l => r +:+ Str.join "/" l
  end.

(** Walking the components of a relative path from a directory: does the
    walk ever step above the directory it started in? *)
Fixpoint stays_below (depth : nat) (l : list string) : bool :=
  match l with
  | [] => true
  | x :: rest =>
      if String.eqb x ".." then
        match depth with
        | O => false
        | S d => stays_below d rest
        end
      else stays_below (S depth) rest
  end.

(** [p] names a location inside the directory [base]. *)
Definition inside (base p : PurePath) : bool :=
  String.eqb (root p) (root base)
  && bool_decide (take (length (parts base)) (parts p) = parts base)
  && stays_below 0 (drop (length (parts base)) (parts p)).

End pathlib.

(** ** datetime *)

Record datetime : Type :=
  { year : Z; month : Z; day : Z; hour : Z; minute : Z; second : Z }.

Definition pad2 (n : Z) : string :=
  if n <? 10 then "0" +:+ pretty n else pretty n.

(** [t.strftime("%Y%m%d_%H%M%S")], for a year of four digits. *)
Definition strftime_stamp (t : datetime) : string :=
  pretty (year t) +:+ pad2 (month t) +:+ pad2 (day t) +:+ "_" +:+
  pad2 (hour t) +:+ pad2 (minute t) +:+ pad2 (second t).

(** ** The provider's objects *)

(** Modelled from the spec: the classes of the provider's client library
    (operation handle, response, video reference) are not among the
    sources.  The data model gives an operation handle a [done] flag, an
    optional error and an optional result, and a result a list of
    generated videos, each holding a video reference.  What the sources
    read from them is kept: [operation.done], [operation.error],
    [operation.response.generated_videos], [generated_video.video].  An
    error payload, a video reference and a generated video are objects,
    hence true when tested. *)
Record Video : Type := { uri : string }.
Record GeneratedVideo : Type := { video : option Video }.
Record GenerateVideosResponse : Type :=
  { generated_videos : option (list GeneratedVideo) }.
(** The provider's error payload, with its printed form [str(error)]. *)
Record OperationError : Type := { error_text : string }.
Record Operation : Type :=
  { op_name : string;
    done : bool;
    error : option OperationError;
    response : option GenerateVideosResponse }.

(** The arguments of one [client.models.generate_videos] call; [call_config]
    is the dictionary the configuration object is built from. *)
Record GenerateVideosCall : Type :=
  { call_model : PyVal;
    call_prompt : string;
    call_video : option Video;
    call_config : gmap string PyVal }.

(** Everything outside the program: the provider behind the client, the
    clock and the local file system.  Each operation may fail with an
    exception and changes the environment.  [Path_exists p] is the call
    [Path(p).exists()]: it answers, or it raises the [OSError] of the
    underlying [stat] call when that is not one of the errors [exists]
    takes for an absent file (a name too long, a permission denied). *)
Class Environment (E : Type) : Type :=
  { models_generate_videos : GenerateVideosCall -> E -> Result Operation * E;
    operations_get : Operation -> E -> Result Operation * E;
    files_download : Video -> E -> Result unit * E;
    video_save : Video -> string -> E -> Result unit * E;
    path_mkdir : string -> E -> Result unit * E;
    Path_exists : string -> E -> Result bool;
    time_sleep : Z -> E -> E;
    datetime_now : E -> datetime }.

(** The calls a run makes, in order. *)
Inductive Event : Type :=
| EvGenerateVideos (call : GenerateVideosCall)
| EvOperationsGet (operation : Operation)
| EvSleep (seconds : Z)
| EvFilesDownload (v : Video)
| EvSave (v : Video) (path : string)
| EvMkdir (path : string).

Definition is_remote_call (ev : Event) : bool :=
  match ev with
  | EvGenerateVideos _ | EvOperationsGet _ | EvFilesDownload _ => true
  | _ => false
  end.

Definition is_refresh (ev : Event) : bool :=
  match ev with EvOperationsGet _ => true | _ => false end.

(** The state of a run: the environment, the calls made so far and the
    lines written so far with [print].  The records the program emits
    through [logging] are not part of the model: [stdout] holds the
    [print] lines only, and no statement below speaks about log records. *)
Record World (E : Type) : Type :=
  { env : E; trace : list Event; stdout : list string }.
Arguments env {E} w.
Arguments trace {E} w.
Arguments stdout {E} w.
Arguments Build_World {E} env trace stdout.

(** The path is there: [Path(p).exists()] answers [True]. *)
Definition path_exists {E} `{Environment E} (path : string) (e : E) : bool :=
  match Path_exists path e with
  | Ok b => b
  | Raise _ => false
  end.

(** ** The state and exception monad *)

Definition M (E A : Type) : Type := World E -> Result A * World E.

#[global] Instance M_ret {E} : MRet (M E) := fun A a w => (Ok a, w).
#[global] Instance M_bind {E} : MBind (M E) := fun A B k m w =>
  match m w with
  | (Ok a, w') => k a w'
  | (Raise e, w') => (Raise e, w')
  end.

Definition raise {E A} (e : exn) : M E A := fun w => (Raise e, w).

(** [try: body  except Exception as e: handler e] *)
Definition try_except {E A} (body : M E A) (handler : exn -> M E A) : M E A :=
  fun w =>
    match body w with
    | (Ok a, w') => (Ok a, w')
    | (Raise e, w') => handler e w'
    end.

(** One call into the environment, recorded in the trace. *)
Definition call {E A} (ev : Event) (f : E -> Result A * E) : M E A :=
  fun w =>
    let '(r, e') := f (env w) in
    (r, {| env := e'; trace := trace w ++ [ev]; stdout := stdout w |}).

(** Running code that only prints. *)
Definition lift_out {E A} (o : Out A) : M E A :=
  fun w =>
    (o.2, {| env := env w; trace := trace w; stdout := stdout w ++ o.1 |}).

Definition sleep {E} `{Environment E} (seconds : Z) : M E unit :=
  call (EvSleep seconds) (fun e => (Ok tt, time_sleep seconds e)).

Definition now {E} `{Environment E} : M E datetime :=
  fun w => (Ok (datetime_now (env w)), w).

Definition exists_ {E} `{Environment E} (path : string) : M E bool :=
  fun w => (Path_exists path (env w), w).

(** ** utils.py *)

(** [generate_filename(prompt, model, extension)].  Nothing in the guarded
    block can fail in this model (the prompt is encodable text), so the
    handler that rewraps a failure as [ValueError] never runs. *)
Definition generate_filename {E} `{Environment E}
    (prompt model : PyVal) (extension : string) : M E string :=
  if negb (truthy prompt) || negb (is_str prompt) then
    raise (ValueError "Prompt must be a non-empty string")
  else if negb (truthy model) || negb (is_str model) then
    raise (ValueError "Model must be a non-empty string")
  else
    t ← now;
    let timestamp := strftime_stamp t in
    let prompt_hash :=
      Str.take 8 (hashlib.md5_hexdigest (Str.encode_utf8 (py_str prompt))) in
    let model_clean :=
      Str.replace "." "_"
        (Str.replace "-preview" EmptyString
           (Str.replace "-generate" EmptyString
              (Str.replace "veo-" EmptyString (py_str model)))) in
    let extension := Str.lstrip ["."%char] extension in
    mret (timestamp +:+ "_" +:+ model_clean +:+ "_" +:+ prompt_hash
          +:+ "." +:+ extension).

(** [get_output_path(filename)] *)
Definition get_output_path (filename : string) : Result pathlib.PurePath :=
  if String.eqb filename EmptyString then
    Raise (ValueError "Filename must be a non-empty string")
  else
    let filename := pathlib.name (pathlib.Path filename) in
    Ok (pathlib.joinpath (pathlib.Path OUTPUT_DIR) filename).

Definition timeout_message : string :=
  "Video generation timed out after " +:+
  pretty (Z.of_nat MAX_POLL_ATTEMPTS * POLL_INTERVAL_SECONDS) +:+ " seconds".

(** The [while not operation.done] loop of [poll_operation].  The counter
    [attempts] starts at 0 and grows by one per iteration; the recursion
    is on [left = MAX_POLL_ATTEMPTS - attempts], so the test
    [attempts >= MAX_POLL_ATTEMPTS] is the case [left = 0]. *)
Fixpoint poll_loop {E} `{Environment E}
    (left : nat) (operation : Operation) : M E Operation :=
  if negb (done operation) then
    match left with
    | O => raise (TimeoutError timeout_message)
    | S left' =>
        sleep POLL_INTERVAL_SECONDS;;
        operation ← try_except
          (call (EvOperationsGet operation) (operations_get operation))
          (fun e => raise (RuntimeError
                             ("Failed to poll operation: " +:+ exn_str e)));
        poll_loop left' operation
    end
  else mret operation.

(** [poll_operation(client, operation)].  The client and the operation are
    objects, so the two [None] guards pass. *)
Definition poll_operation {E} `{Environment E}
    (operation : Operation) : M E Operation :=
  try_except
    (operation ← poll_loop MAX_POLL_ATTEMPTS operation;
     match error operation with
     | Some err =>
         raise (RuntimeError ("Video generation failed: " +:+ error_text err))
     | None => mret operation
     end)
    (fun e =>
       if is_TimeoutError e || is_RuntimeError e then raise e
       else raise (RuntimeError ("Operation polling failed: " +:+ exn_str e))).

(** [download_video(client, video_object, output_path)] *)
Definition download_video {E} `{Environment E}
    (video_object : option Video) (output_path : pathlib.PurePath)
    : M E pathlib.PurePath :=
  match video_object with
  | None => raise (ValueError "Video object cannot be None")
  | Some v =>
      try_except
        (let parent := pathlib.to_str
           {| pathlib.root := pathlib.root output_path;
              pathlib.parts := removelast (pathlib.parts output_path) |} in
         call (EvMkdir parent) (path_mkdir parent);;
         call (EvFilesDownload v) (files_download v);;
         call (EvSave v (pathlib.to_str output_path))
              (video_save v (pathlib.to_str output_path));;
         created ← exists_ (pathlib.to_str output_path);
         if negb created then raise (RuntimeError "Video file was not created")
         else mret output_path)
        (fun e => raise (RuntimeError ("Video download failed: " +:+ exn_str e)))
  end.

(** Raising the failure of a pure computation. *)
Definition lift_result {E A} (r : Result A) : M E A := fun w => (r, w).

(** ** veo_generator.py *)

(** The dictionary [config_params] that [generate_video] builds: the three
    basic entries, the negative prompt when it is true, the seed when it
    is not [None], then [config_params.update(kwargs)]. *)
Definition video_config_params
    (aspect_ratio resolution duration_seconds negative_prompt seed : PyVal)
    (kwargs : gmap string PyVal) : gmap string PyVal :=
  let config_params : gmap string PyVal :=
    <["duration_seconds" := duration_seconds]>
      (<["resolution" := resolution]>
         (<["aspect_ratio" := aspect_ratio]> ∅)) in
  let config_params :=
    if truthy negative_prompt
    then <["negative_prompt" := negative_prompt]> config_params
    else config_params in
  let config_params :=
    match seed with
    | PyNone => config_params
    | _ => <["seed" := seed]> config_params
    end in
  kwargs ∪ config_params.

(** [VeoVideoGenerator.generate_video].  The configuration object is built
    from the dictionary [config_params]; the dictionary stands for it. *)
Definition generate_video {E} `{Environment E}
    (prompt model aspect_ratio resolution duration_seconds
     negative_prompt seed : PyVal)
    (output_filename : option string) (kwargs : gmap string PyVal)
    : M E pathlib.PurePath :=
  if negb (truthy prompt) || negb (is_str prompt) then
    raise (ValueError "Prompt must be a non-empty string")
  else if Str.strip_is_empty (py_str prompt) then
    raise (ValueError "Prompt cannot be empty or whitespace only")
  else
    let model := py_or model (PyStr DEFAULT_MODEL) in
    let aspect_ratio := py_or aspect_ratio (PyStr DEFAULT_ASPECT_RATIO) in
    let resolution := py_or resolution (PyStr DEFAULT_RESOLUTION) in
    let duration_seconds :=
      py_or duration_seconds (PyInt DEFAULT_DURATION_SECONDS) in
    lift_out (validate_parameters aspect_ratio resolution duration_seconds model);;
    try_except
      (let config_params :=
         video_config_params aspect_ratio resolution duration_seconds
                             negative_prompt seed kwargs in
       let request :=
         {| call_model := model; call_prompt := py_str prompt;
            call_video := None; call_config := config_params |} in
       operation ← call (EvGenerateVideos request) (models_generate_videos request);
       operation ← poll_operation operation;
       match response operation ≫= generated_videos with
       | None | Some [] =>
           raise (RuntimeError "API did not return any generated videos")
       | Some (generated_video :: _) =>
           output_filename ←
             (if opt_str_falsy output_filename
              then generate_filename prompt model "mp4"
              else mret (default EmptyString output_filename));
           output_path ← lift_result (get_output_path output_filename);
           download_video (video generated_video) output_path;;
           mret output_path
       end)
      (fun e =>
         if is_ValueError e || is_TimeoutError e || is_RuntimeError e
         then raise e
         else raise (RuntimeError ("Video generation failed: " +:+ exn_str e))).

(** ** veo_extension.py *)

(** A scene dictionary: the text under ["prompt"] (absent when the key is
    missing) and the dictionary under ["params"] (empty when missing). *)
Record Scene : Type :=
  { scene_prompt : option string;
    scene_params : gmap string PyVal }.

(** The dictionary [config_params] that [generate_scene] builds: the four
    basic entries, then [config_params.update(kwargs)]. *)
Definition scene_config_params
    (aspect_ratio resolution duration_seconds : PyVal)
    (kwargs : gmap string PyVal) : gmap string PyVal :=
  let config_params : gmap string PyVal :=
    <["number_of_videos" := PyInt 1]>
      (<["duration_seconds" := duration_seconds]>
         (<["resolution" := resolution]>
            (<["aspect_ratio" := aspect_ratio]> ∅))) in
  kwargs ∪ config_params.

(** [VeoVideoExtension.generate_scene] *)
Definition generate_scene {E} `{Environment E}
    (prompt : string) (previous_video : option Video)
    (model aspect_ratio resolution : PyVal) (kwargs : gmap string PyVal)
    : M E GeneratedVideo :=
  let model := py_or model (PyStr DEFAULT_MODEL) in
  let aspect_ratio := py_or aspect_ratio (PyStr DEFAULT_ASPECT_RATIO) in
  let resolution := py_or resolution (PyStr DEFAULT_RESOLUTION) in
  let '(resolution, duration_seconds) :=
    match previous_video with
    | Some _ => (PyStr "720p", PyInt 8)
    | None => (resolution, default (PyInt 8) (kwargs !! "duration_seconds"))
    end in
  lift_out (validate_parameters aspect_ratio resolution duration_seconds model);;
  let config_params :=
    scene_config_params aspect_ratio resolution duration_seconds kwargs in
  let request :=
    {| call_model := model; call_prompt := prompt;
       call_video := previous_video; call_config := config_params |} in
  operation ← call (EvGenerateVideos request) (models_generate_videos request);
  operation ← poll_operation operation;
  match response operation with
  | None =>
      raise (AttributeError "'NoneType' object has no attribute 'generated_videos'")
  | Some r =>
      match generated_videos r with
      | None => raise (TypeError "'NoneType' object is not subscriptable")
      | Some [] => raise (IndexError "list index out of range")
      | Some (generated_video :: _) => mret generated_video
      end
  end.

(** The call [self.generate_scene(prompt=..., previous_video=..., **params)]:
    the keys [model], [aspect_ratio] and [resolution] of [params] bind the
    parameters of these names, every other key goes to [kwargs], and a key
    that repeats an explicit keyword is a [TypeError]. *)
Definition generate_scene_with {E} `{Environment E}
    (prompt : string) (previous_video : option Video)
    (params : gmap string PyVal) : M E GeneratedVideo :=
  if bool_decide (is_Some (params !! "prompt")) then
    raise (TypeError "generate_scene() got multiple values for keyword argument 'prompt'")
  else if bool_decide (is_Some (params !! "previous_video")) then
    raise (TypeError "generate_scene() got multiple values for keyword argument 'previous_video'")
  else
    generate_scene prompt previous_video
      (default PyNone (params !! "model"))
      (default PyNone (params !! "aspect_ratio"))
      (default PyNone (params !! "resolution"))
      (delete "model" (delete "aspect_ratio" (delete "resolution" params))).

(** The [for scene in scenes] loop of [extend_from_scenes]. *)
Fixpoint scene_loop {E} `{Environment E}
    (scenes : list Scene) (video_object : option GeneratedVideo)
    (scene_number : nat) : M E (option GeneratedVideo) :=
  match scenes with
  | [] => mret video_object
  | scene :: rest =>
      let prompt := scene_prompt scene in
      if opt_str_falsy prompt then
        raise (ValueError ("Scene " +:+ pretty scene_number +:+
                           " is missing 'prompt' field"))
      else
        let params := scene_params scene in
        generated_video ←
          generate_scene_with (default EmptyString prompt)
            (match video_object with
             | Some g => video g
             | None => None
             end)
            params;
        scene_loop rest (Some generated_video) (S scene_number)
  end.

(** [VeoVideoExtension.extend_from_scenes] *)
Definition extend_from_scenes {E} `{Environment E}
    (scenes : list Scene) (output_filename : option string)
    : M E pathlib.PurePath :=
  match scenes with
  | [] => raise (ValueError "At least one scene is required")
  | _ :: _ =>
      if (MAX_EXTENSIONS + 1 <? length scenes)%nat then
        raise (ValueError
          ("Maximum " +:+ pretty (MAX_EXTENSIONS + 1)%nat +:+
           " scenes allowed (1 initial + " +:+ pretty MAX_EXTENSIONS +:+
           " extensions)"))
      else
        video_object ← scene_loop scenes None 1%nat;
        output_filename ←
          (if opt_str_falsy output_filename then
             let combined_prompt :=
               Str.join " -> "
                 (map (fun s => Str.take 30 (default EmptyString (scene_prompt s)))
                      (take 3 scenes)) in
             generate_filename (PyStr ("extended_" +:+ combined_prompt))
                               (PyStr DEFAULT_MODEL) "mp4"
           else mret (default EmptyString output_filename));
        output_path ← lift_result (get_output_path output_filename);
        match video_object with
        | None => raise (AttributeError "'NoneType' object has no attribute 'video'")
        | Some g => download_video (video g) output_path
        end;;
        mret output_path
  end.

(** ** A scripted environment

    A provider whose jobs all need the same number of status refreshes and
    all end the same way, a clock that stands still and a file system that
    stores what is saved.  It serves to run the code on concrete inputs. *)

Module Scripted.

Inductive Outcome : Type :=
| Videos (count : option nat)   (* a result with that many videos, or no list *)
| NoResponse                    (* done, with neither error nor result *)
| Failure (err : OperationError).

Record Script : Type :=
  { delay : nat;              (* refreshes a job needs before it is done *)
    outcome : Outcome;        (* how a finished job ends *)
    fault_at : option nat;    (* the refresh call, counted from 0, that raises *)
    pending : nat;            (* refreshes left for the job in flight *)
    submitted : nat;
    refreshed : nat;
    slept : Z;
    clock : datetime;
    saved : list string }.

Definition job_videos (job : string) (n : nat) : list GeneratedVideo :=
  map (fun i => {| video := Some {| uri := job +:+ "/video-" +:+ pretty i |} |})
      (seq 0 n).

Definition running (job : string) : Operation :=
  {| op_name := job; done := false; error := None; response := None |}.

Definition finished (job : string) (o : Outcome) : Operation :=
  match o with
  | Videos count =>
      {| op_name := job; done := true; error := None;
         response := Some {| generated_videos := job_videos job <$> count |} |}
  | NoResponse =>
      {| op_name := job; done := true; error := None; response := None |}
  | Failure err =>
      {| op_name := job; done := true; error := Some err; response := None |}
  end.

Definition submit (_ : GenerateVideosCall) (s : Script) : Result Operation * Script :=
  let job := "operations/" +:+ pretty (submitted s) in
  (Ok (if (delay s =? 0)%nat then finished job (outcome s) else running job),
   {| delay := delay s; outcome := outcome s; fault_at := fault_at s;
      pending := delay s; submitted := S (submitted s);
      refreshed := refreshed s; slept := slept s; clock := clock s;
      saved := saved s |}).

Definition refresh (operation : Operation) (s : Script) : Result Operation * Script :=
  let s' (left : nat) :=
    {| delay := delay s; outcome := outcome s; fault_at := fault_at s;
       pending := left; submitted := submitted s;
       refreshed := S (refreshed s); slept := slept s; clock := clock s;
       saved := saved s |} in
  if bool_decide (fault_at s = Some (refreshed s)) then
    (Raise (OtherException "ConnectionError" "connection reset"), s' (pending s))
  else if (pending s <=? 1)%nat then
    (Ok (finished (op_name operation) (outcome s)), s' O)
  else (Ok (running (op_name operation)), s' (Nat.pred (pending s))).

Definition save (_ : Video) (path : string) (s : Script) : Result unit * Script :=
  (Ok tt,
   {| delay := delay s; outcome := outcome s; fault_at := fault_at s;
      pending := pending s; submitted := submitted s;
      refreshed := refreshed s; slept := slept s; clock := clock s;
      saved := path :: saved s |}).

Definition wait (seconds : Z) (s : Script) : Script :=
  {| delay := delay s; outcome := outcome s; fault_at := fault_at s;
     pending := pending s; submitted := submitted s;
     refreshed := refreshed s; slept := slept s + seconds; clock := clock s;
     saved := saved s |}.

#[global] Instance environment : Environment Script :=
  {| models_generate_videos := submit;
     operations_get := refresh;
     files_download := fun _ s => (Ok tt, s);
     video_save := save;
     path_mkdir := fun _ s => (Ok tt, s);
     Path_exists := fun path s => Ok (bool_decide (path ∈ saved s));
     time_sleep := wait;
     datetime_now := clock |}.

Definition noon : datetime :=
  {| year := 2025; month := 3; day := 9; hour := 12; minute := 0; second := 5 |}.

(** A provider whose jobs are done after [n] refreshes and end as [o]. *)
Definition script (n : nat) (o : Outcome) : Script :=
  {| delay := n; outcome := o; fault_at := None; pending := n;
     submitted := O; refreshed := O; slept := 0; clock := noon; saved := [] |}.

(** The same, with the refresh call number [k] raising. *)
Definition faulty (n : nat) (o : Outcome) (k : nat) : Script :=
  {| delay := n; outcome := o; fault_at := Some k; pending := n;
     submitted := O; refreshed := O; slept := 0; clock := noon; saved := [] |}.

Definition start (s : Script) : World Script :=
  {| env := s; trace := []; stdout := [] |}.

End Scripted.

(** ** Definitions used to state the properties *)

Definition lion : string := "A cinematic shot of a lion".

(** [sub in s] *)
Fixpoint contains (sub s : string) : bool :=
  String.prefix sub s ||
  match s with
  | EmptyString => false
  | String _ s' => contains sub s'
  end.

(** The handles and the environment after [k] rounds of the polling
    protocol (wait, then one status refresh), none of which started from a
    finished handle or raised. *)
Fixpoint refreshes {E} `{Environment E}
    (k : nat) (operation : Operation) (e : E) : option (Operation * E) :=
  match k with
  | O => Some (operation, e)
  | S k' =>
      if done operation then None
      else
        match operations_get operation (time_sleep POLL_INTERVAL_SECONDS e) with
        | (Ok operation', e') => refreshes k' operation' e'
        | (Raise _, _) => None
        end
  end.

Definition refresh_calls (t : list Event) : nat :=
  length (List.filter is_refresh t).
Definition remote_calls (t : list Event) : nat :=
  length (List.filter is_remote_call t).

(** The world [w] after further events, in environment [e]. *)
Definition after {E} (w : World E) (e : E) (evs : list Event) : World E :=
  {| env := e; trace := trace w ++ evs; stdout := stdout w |}.

(** The world in which a request is answered with a handle: validation
    has printed [out], the request is recorded, the environment is [e]. *)
Definition submitted {E} (w : World E) (out : list string)
    (request : GenerateVideosCall) (e : E) : World E :=
  {| env := e; trace := trace w ++ [EvGenerateVideos request];
     stdout := stdout w ++ out |}.

Definition submitted_calls (t : list Event) : list GenerateVideosCall :=
  omap (fun ev => match ev with EvGenerateVideos c => Some c | _ => None end) t.

(** A chain of two scenes whose second scene asks for 1080p and 4 seconds. *)
Definition override_scenes : list Scene :=
  [ {| scene_prompt := Some "A futuristic city at night"; scene_params := ∅ |};
    {| scene_prompt := Some "Camera zooms into a window";
       scene_params :=
         <["duration_seconds" := PyInt 4]> (<["resolution" := PyStr "1080p"]> ∅) |} ].

Definition plain_scenes : list Scene :=
  [ {| scene_prompt := Some "A futuristic city at night"; scene_params := ∅ |};
    {| scene_prompt := Some "Camera zooms into a window"; scene_params := ∅ |} ].

(** Three scenes; the third asks for 1080p. *)
Definition three_scenes : list Scene :=
  plain_scenes ++
  [ {| scene_prompt := Some "Inside, a cat sleeps on a sofa";
       scene_params := <["resolution" := PyStr "1080p"]> ∅ |} ].

Definition quota_error : OperationError := {| error_text := "quota exceeded" |}.

(** One scene that asks for a duration of 0 seconds. *)
Definition zero_duration_scene : list Scene :=
  [ {| scene_prompt := Some "A futuristic city at night";
       scene_params := <["duration_seconds" := PyInt 0]> ∅ |} ].

(** One scene that asks for 1080p and a duration of 0 seconds. *)
Definition zero_duration_1080p_scene : list Scene :=
  [ {| scene_prompt := Some "A futuristic city at night";
       scene_params :=
         <["duration_seconds" := PyInt 0]> (<["resolution" := PyStr "1080p"]> ∅) |} ].

(** ** Local files, the image library and scene files *)

(** An image opened by the image library. *)
Record Image : Type := { image_source : string }.

(** A value of a decoded JSON file, as far as the scene loader looks at
    it: a scalar, a dictionary (only whether it is empty matters) or an
    array, whose items are scene dictionaries. *)
Inductive JsonValue : Type :=
| JsonScalar (v : PyVal)
| JsonObject (empty : bool)
| JsonArray (items : list Scene).

(** A decoded JSON file: a dictionary, with what it holds under
    ["scenes"], or some other value. *)
Inductive JsonDocument : Type :=
| DocDict (scenes : option JsonValue)
| DocOther.

Definition json_truthy (j : JsonValue) : bool :=
  match j with
  | JsonScalar v => truthy v
  | JsonObject empty => negb empty
  | JsonArray items => negb (bool_decide (items = []))
  end.

(** The rest of the local machine: file kinds, the optional image library,
    reading a JSON file, and the provider call that takes an image.
    [Path_is_file p] is the call [Path(p).is_file()], which answers or
    raises as [Path_exists] does. *)
Class LocalFiles (E : Type) : Type :=
  { Path_is_file : string -> E -> Result bool;
    image_library_installed : E -> bool;
    Image_open : string -> E -> Result Image * E;
    models_generate_videos_from_image :
      Image -> GenerateVideosCall -> E -> Result Operation * E;
    json_load : string -> E -> Result JsonDocument * E }.

(** A call into the environment that leaves no event in the trace. *)
Definition quiet_call {E A} (f : E -> Result A * E) : M E A :=
  fun w =>
    let '(r, e') := f (env w) in
    (r, {| env := e'; trace := trace w; stdout := stdout w |}).

(** The path is a regular file: [Path(p).is_file()] answers [True]. *)
Definition path_is_file {E} `{LocalFiles E} (path : string) (e : E) : bool :=
  match Path_is_file path e with
  | Ok b => b
  | Raise _ => false
  end.

Definition is_file_ {E} `{LocalFiles E} (path : string) : M E bool :=
  fun w => (Path_is_file path (env w), w).

Definition image_library_ {E} `{LocalFiles E} : M E bool :=
  fun w => (Ok (image_library_installed (env w)), w).

Definition is_FileNotFoundError (e : exn) : bool :=
  match e with FileNotFoundError _ => true | _ => false end.

(** [json.JSONDecodeError] *)
Definition is_JSONDecodeError (e : exn) : bool :=
  match e with
  | OtherException cls _ => String.eqb cls "JSONDecodeError"
  | _ => false
  end.

(** ** veo_generator.py: image-to-video *)

(** [VeoVideoGenerator.generate_video_with_image] *)
Definition generate_video_with_image {E} `{Environment E} `{LocalFiles E}
    (prompt image_path model aspect_ratio resolution duration_seconds : PyVal)
    (output_filename : option string) (kwargs : gmap string PyVal)
    : M E pathlib.PurePath :=
  if negb (truthy prompt) || negb (is_str prompt)
     || Str.strip_is_empty (py_str prompt) then
    raise (ValueError "Prompt must be a non-empty string")
  else if negb (truthy image_path) || negb (is_str image_path) then
    raise (ValueError "Image path must be a non-empty string")
  else
    let image_path_obj := pathlib.to_str (pathlib.Path (py_str image_path)) in
    found ← exists_ image_path_obj;
    if negb found then
      raise (FileNotFoundError ("Image file not found: " +:+ py_str image_path))
    else
      regular ← is_file_ image_path_obj;
      if negb regular then
        raise (ValueError ("Image path is not a file: " +:+ py_str image_path))
      else
        installed ← image_library_;
        if negb installed then
          raise (OtherException "ImportError"
                   "PIL/Pillow is required for image-to-video. Install with: pip install Pillow")
        else
          let model := py_or model (PyStr DEFAULT_MODEL) in
          let aspect_ratio := py_or aspect_ratio (PyStr DEFAULT_ASPECT_RATIO) in
          let resolution := py_or resolution (PyStr DEFAULT_RESOLUTION) in
          let duration_seconds :=
            py_or duration_seconds (PyInt DEFAULT_DURATION_SECONDS) in
          lift_out (validate_parameters aspect_ratio resolution duration_seconds model);;
          try_except
            (image ← quiet_call (Image_open (py_str image_path));
             let config_params : gmap string PyVal :=
               kwargs ∪
               <["duration_seconds" := duration_seconds]>
                 (<["resolution" := resolution]>
                    (<["aspect_ratio" := aspect_ratio]> ∅)) in
             let request :=
               {| call_model := model; call_prompt := py_str prompt;
                  call_video := None; call_config := config_params |} in
             operation ← call (EvGenerateVideos request)
                              (models_generate_videos_from_image image request);
             operation ← poll_operation operation;
             match response operation ≫= generated_videos with
             | None | Some [] =>
                 raise (RuntimeError "API did not return any generated videos")
             | Some (generated_video :: _) =>
                 output_filename ←
                   (if opt_str_falsy output_filename
                    then generate_filename (PyStr ("img2vid_" +:+ py_str prompt))
                                           model "mp4"
                    else mret (default EmptyString output_filename));
                 output_path ← lift_result (get_output_path output_filename);
                 download_video (video generated_video) output_path;;
                 mret output_path
             end)
            (fun e =>
               if is_ValueError e || is_FileNotFoundError e
                  || is_TimeoutError e || is_RuntimeError e
               then raise e
               else raise (RuntimeError
                             ("Image-to-video generation failed: " +:+ exn_str e))).

(** ** veo_extension.py: scene files *)

(** [VeoVideoExtension.extend_from_scenes_file] *)
Definition extend_from_scenes_file {E} `{Environment E} `{LocalFiles E}
    (scenes_file : PyVal) (output_filename : option string)
    : M E pathlib.PurePath :=
  if negb (truthy scenes_file) || negb (is_str scenes_file) then
    raise (ValueError "Scenes file path must be a non-empty string")
  else
    let scenes_path := pathlib.to_str (pathlib.Path (py_str scenes_file)) in
    found ← exists_ scenes_path;
    if negb found then
      raise (FileNotFoundError ("Scenes file not found: " +:+ py_str scenes_file))
    else
      regular ← is_file_ scenes_path;
      if negb regular then
        raise (ValueError ("Scenes path is not a file: " +:+ py_str scenes_file))
      else
        data ← try_except
          (quiet_call (json_load scenes_path))
          (fun e =>
             if is_JSONDecodeError e then
               raise (ValueError ("Invalid JSON in scenes file: " +:+ exn_str e))
             else
               raise (RuntimeError ("Failed to read scenes file: " +:+ exn_str e)));
        match data with
        | DocOther =>
            raise (ValueError
                     "Scenes file must contain a JSON object with a 'scenes' array")
        | DocDict entry =>
            let scenes := default (JsonArray []) entry in
            if negb (json_truthy scenes) then
              raise (ValueError
                       "No scenes found in the file. Expected a 'scenes' array.")
            else
              match scenes with
              | JsonArray items => extend_from_scenes items output_filename
              | _ => raise (ValueError "'scenes' must be an array of scene objects")
              end
        end.

(** ** model_discovery.py *)

Module model_discovery.

Record ModelInfo : Type :=
  { name : string;
    description : string;
    supported_modalities : list string;
    resolution : string;
    duration : string;
    audio : bool;
    status : string }.

Definition KNOWN_MODELS : list ModelInfo :=
  [ {| name := "veo-3.1-generate-preview";
       description := "Veo 3.1 Preview - State-of-the-art video generation with audio, supports video extension and reference images";
       supported_modalities := ["Text-to-Video"; "Image-to-Video"; "Video-to-Video"];
       resolution := "720p & 1080p (8s only)";
       duration := "4s, 6s, 8s";
       audio := true;
       status := "Preview" |};
    {| name := "veo-3.1-fast-generate-preview";
       description := "Veo 3.1 Fast Preview - Optimized for speed while maintaining high quality, ideal for rapid content generation";
       supported_modalities := ["Text-to-Video"; "Image-to-Video"; "Video-to-Video"];
       resolution := "720p & 1080p (8s only)";
       duration := "4s, 6s, 8s";
       audio := true;
       status := "Preview" |};
    {| name := "veo-3.0-generate-001";
       description := "Veo 3 Stable - High-quality video generation with native audio support";
       supported_modalities := ["Text-to-Video"; "Image-to-Video"];
       resolution := "720p & 1080p (16:9 only)";
       duration := "4s, 6s, 8s";
       audio := true;
       status := "Stable" |};
    {| name := "veo-3.0-fast-generate-001";
       description := "Veo 3 Fast Stable - Speed-optimized version for business use cases";
       supported_modalities := ["Text-to-Video"; "Image-to-Video"];
       resolution := "720p & 1080p (16:9 only)";
       duration := "4s, 6s, 8s";
       audio := true;
       status := "Stable" |};
    {| name := "veo-2.0-generate-001";
       description := "Veo 2 Stable - Previous generation model, silent videos only";
       supported_modalities := ["Text-to-Video"; "Image-to-Video"];
       resolution := "720p";
       duration := "5s, 6s, 8s";
       audio := false;
       status := "Stable" |} ].

(** [list_available_models(api_key)]: the key is not used. *)
Definition list_available_models (api_key : option string) : list ModelInfo :=
  KNOWN_MODELS.

(** The [for model in models] search of [get_model_info]. *)
Fixpoint first_named (model_name : string) (models : list ModelInfo)
    : option ModelInfo :=
  match models with
  | [] => None
  | model :: rest =>
      if String.eqb (name model) model_name then Some model
      else first_named model_name rest
  end.

(** [get_model_info(model_name, api_key)] *)
Definition get_model_info (model_name : string) (api_key : option string)
    : option ModelInfo :=
  first_named model_name (list_available_models api_key).

Definition recommendations : gmap string string :=
  <["general" := "veo-3.1-generate-preview"]>
    (<["fast" := "veo-3.1-fast-generate-preview"]>
       (<["quality" := "veo-3.1-generate-preview"]>
          (<["extension" := "veo-3.1-generate-preview"]>
             (<["stable" := "veo-3.0-generate-001"]> ∅)))).

(** [get_recommended_model(use_case)] *)
Definition get_recommended_model (use_case : string) : option ModelInfo :=
  let model_name :=
    default "veo-3.1-generate-preview" (recommendations !! use_case) in
  get_model_info model_name None.

End model_discovery.

(** ** A scripted local machine

    A scripted provider together with a table of regular files (each with
    its decoded JSON content, or none when it does not decode), a list of
    directories, a list of paths the file system refuses to look up
    (they lie below a directory that may not be searched) and the image
    library present or not. *)

Module Desk.

Record Desk : Type :=
  { provider : Scripted.Script;
    documents : list (string * option JsonDocument);
    directories : list string;
    locked : list string;
    pillow : bool }.

Definition with_provider (d : Desk) (s : Scripted.Script) : Desk :=
  {| provider := s; documents := documents d; directories := directories d;
     locked := locked d; pillow := pillow d |}.

Definition lift {A} (f : Scripted.Script -> Result A * Scripted.Script)
    (d : Desk) : Result A * Desk :=
  let '(r, s) := f (provider d) in (r, with_provider d s).

Definition is_regular (path : string) (d : Desk) : bool :=
  bool_decide (path ∈ map fst (documents d))
  || bool_decide (path ∈ Scripted.saved (provider d)).

(** A lookup: refused for a locked path, answered otherwise. *)
Definition stat (answer : string -> Desk -> bool) (path : string) (d : Desk)
    : Result bool :=
  if bool_decide (path ∈ locked d) then
    Raise (OtherException "PermissionError"
             ("[Errno 13] Permission denied: '" +:+ path +:+ "'"))
  else Ok (answer path d).

Fixpoint content (path : string) (docs : list (string * option JsonDocument))
    : option (option JsonDocument) :=
  match docs with
  | [] => None
  | (p, c) :: rest => if String.eqb p path then Some c else content path rest
  end.

Definition load (path : string) (d : Desk) : Result JsonDocument * Desk :=
  match content path (documents d) with
  | Some (Some doc) => (Ok doc, d)
  | Some None =>
      (Raise (OtherException "JSONDecodeError"
                "Expecting value: line 1 column 1 (char 0)"), d)
  | None => (Raise (OtherException "PermissionError" "Permission denied"), d)
  end.

#[global] Instance environment : Environment Desk :=
  {| models_generate_videos := fun c => lift (Scripted.submit c);
     operations_get := fun o => lift (Scripted.refresh o);
     files_download := fun _ d => (Ok tt, d);
     video_save := fun v path => lift (Scripted.save v path);
     path_mkdir := fun _ d => (Ok tt, d);
     Path_exists :=
       stat (fun path d => is_regular path d || bool_decide (path ∈ directories d));
     time_sleep := fun seconds d =>
       with_provider d (Scripted.wait seconds (provider d));
     datetime_now := fun d => Scripted.clock (provider d) |}.

#[global] Instance local_files : LocalFiles Desk :=
  {| Path_is_file := stat is_regular;
     image_library_installed := pillow;
     Image_open := fun path d => (Ok {| image_source := path |}, d);
     models_generate_videos_from_image := fun _ c => lift (Scripted.submit c);
     json_load := load |}.

Definition start (d : Desk) : World Desk :=
  {| env := d; trace := []; stdout := [] |}.

End Desk.

Definition three_classes (e : exn) : bool :=
  is_ValueError e || is_TimeoutError e || is_RuntimeError e.

Definition four_classes (e : exn) : bool :=
  is_ValueError e || is_FileNotFoundError e || is_TimeoutError e || is_RuntimeError e.

(** The outcome is a success, or a failure of the given class. *)
Definition raises_only {A} (cls : exn -> bool) (r : Result A) : bool :=
  match r with
  | Ok _ => true
  | Raise e => cls e
  end.

(** Every character of [s] satisfies [p]. *)
Fixpoint all_chars (p : ascii -> bool) (s : string) : bool :=
  match s with
  | EmptyString => true
  | String c s' => p c && all_chars p s'
  end.

(** [c] is one of [0123456789abcdef]. *)
Definition is_lower_hex (c : ascii) : bool :=
  let n := Str.code c in
  ((48 <=? n) && (n <=? 57)) || ((97 <=? n) && (n <=? 102)).

(** [n] dots. *)
Fixpoint dots (n : nat) : string :=
  match n with
  | O => EmptyString
  | S n' => String "."%char (dots n')
  end.

(** The events of polling rounds: for each handle refreshed, one wait of
    the polling interval and then the refresh call. *)
Definition poll_rounds (handles : list Operation) : list Event :=
  flat_map (fun operation =>
              [EvSleep POLL_INTERVAL_SECONDS; EvOperationsGet operation]) handles.

Definition is_download (ev : Event) : bool :=
  match ev with EvFilesDownload _ => true | _ => false end.

Definition is_save (ev : Event) : bool :=
  match ev with EvSave _ _ => true | _ => false end.

(** How many generation requests, downloads and saves a trace holds. *)
Definition submit_count (t : list Event) : nat := length (submitted_calls t).
Definition download_count (t : list Event) : nat :=
  length (List.filter is_download t).
Definition save_count (t : list Event) : nat :=
  length (List.filter is_save t).

(** The parent directory of a path, as text. *)
Definition parent_str (p : pathlib.PurePath) : string :=
  pathlib.to_str
    {| pathlib.root := pathlib.root p;
       pathlib.parts := removelast (pathlib.parts p) |}.

(** The outcome and final world of running [m] from [w] satisfy [Q]. *)
Definition sat {E A} (m : M E A) (w : World E)
    (Q : Result A -> World E -> Prop) : Prop :=
  Q (m w).1 (m w).2.

(** From [w] to [w'] the trace has only grown. *)
Definition grows {E} (w w' : World E) : Prop :=
  exists evs, trace w' = trace w ++ evs.

(** The calls of one download, in order. *)
Definition download_steps (v : Video) (output_path : pathlib.PurePath)
    : list Event :=
  [EvMkdir (parent_str output_path); EvFilesDownload v;
   EvSave v (pathlib.to_str output_path)].

(** The calls of one generation step: the request, then the rounds of its
    poll. *)
Definition step_calls (step : GenerateVideosCall * list Operation) : list Event :=
  EvGenerateVideos step.1 :: poll_rounds step.2.

(** The calls a delivery leaves behind: none, or the first calls of one
    download. *)
Definition delivery (tail : list Event) : Prop :=
  tail = [] \/ exists v output_path, tail `prefix_of` download_steps v output_path.

(** The calls of a run that makes at most one generation step and then
    delivers: none, or one request, the rounds of its poll and then the
    calls of a delivery. *)
Definition single_run (evs : list Event) : Prop :=
  evs = [] \/ exists step tail, evs = step_calls step ++ tail /\ delivery tail.

(** The run [m] from [w] fails with [e] before any call: the trace and
    the environment are as they were. *)
Definition refused {E A} (m : M E A) (w : World E) (e : exn) : Prop :=
  (m w).1 = Raise e /\ trace (m w).2 = trace w /\ env (m w).2 = env w.

(** Between [w] and [w'] the trace has gained [s] generation requests, [d]
    downloads and [v] saves. *)
Definition effects {E} (w w' : World E) (s d v : nat) : Prop :=
  submit_count (trace w') = (submit_count (trace w) + s)%nat
  /\ download_count (trace w') = (download_count (trace w) + d)%nat
  /\ save_count (trace w') = (save_count (trace w) + v)%nat.

(** Why a run of image-to-video generation may fail with [e]: one of the
    four classes the function names, the fault of one of the two lookups
    of the image path, which are not guarded, or the missing library. *)
Definition image_failure {E} `{Environment E} `{LocalFiles E}
    (image_path : PyVal) (w : World E) (e : exn) : Prop :=
  let location := pathlib.to_str (pathlib.Path (py_str image_path)) in
  four_classes e = true
  \/ Path_exists location (env w) = Raise e
  \/ Path_is_file location (env w) = Raise e
  \/ (image_library_installed (env w) = false
      /\ e = OtherException "ImportError"
               "PIL/Pillow is required for image-to-video. Install with: pip install Pillow").

(** ** Scripted machines used in the examples *)

(** The scenes a decoded file offers: a non-empty array under ["scenes"]
    of a dictionary, and nothing else. *)
Definition usable_scenes (doc : JsonDocument) : option (list Scene) :=
  match doc with
  | DocDict (Some (JsonArray (scene :: rest))) => Some (scene :: rest)
  | _ => None
  end.

(** A machine with one image file, one directory, one path that may not be
    looked up and the image library. *)
Definition demo_desk : Desk.Desk :=
  {| Desk.provider := Scripted.script 1 (Scripted.Videos (Some 1%nat));
     Desk.documents := [("frames/first.png", None)];
     Desk.directories := ["frames"];
     Desk.locked := ["vault/first.png"];
     Desk.pillow := true |}.

(** A machine with a scene file, a scene file without scenes, a file that
    is not JSON and one path that may not be looked up. *)
Definition scenes_desk : Desk.Desk :=
  {| Desk.provider := Scripted.script 1 (Scripted.Videos (Some 1%nat));
     Desk.documents :=
       [("scenes.json", Some (DocDict (Some (JsonArray plain_scenes))));
        ("empty.json", Some (DocDict (Some (JsonArray []))));
        ("notes.txt", None)];
     Desk.directories := ["drafts"];
     Desk.locked := ["vault/scenes.json"];
     Desk.pillow := false |}.

(** * Properties *)

(** ** Parameter validation *)

Ltac unfold_out :=
  unfold mbind, Out_bind, out_bind, out_when, out_raise, out_print, out_ret in *.

Lemma validate_duration_rule (a r d m : PyVal) :
  truthy d = true ->
  py_in d SUPPORTED_DURATIONS = false ->
  fails_with is_ValueError (validate_parameters a r d m).2 = true.
Proof.
  intros Ht Hin. unfold validate_parameters. unfold_out.
  destruct (truthy a && negb (py_in a SUPPORTED_ASPECT_RATIOS)); [reflexivity|].
  destruct (truthy r && negb (py_in r SUPPORTED_RESOLUTIONS)); [reflexivity|].
  rewrite Ht, Hin. reflexivity.
Qed.

Lemma validate_1080p_rule (a d m : PyVal) :
  truthy d = true ->
  py_eq d (PyInt 8) = false ->
  fails_with is_ValueError (validate_parameters a (PyStr "1080p") d m).2 = true.
Proof.
  intros Ht Hne. unfold validate_parameters. unfold_out.
  destruct (truthy a && negb (py_in a SUPPORTED_ASPECT_RATIOS)); [reflexivity|].
  rewrite Ht, Hne.
  destruct (py_in d SUPPORTED_DURATIONS); [|reflexivity].
  destruct (truthy m && negb (py_in m SUPPORTED_MODELS)); reflexivity.
Qed.

Lemma py_in_durations_int (d : Z) :
  d <> 4 -> d <> 6 -> d <> 8 -> py_in (PyInt d) SUPPORTED_DURATIONS = false.
Proof.
  intros H4 H6 H8. unfold py_in, SUPPORTED_DURATIONS. simpl.
  rewrite !orb_false_iff, !Z.eqb_neq. auto.
Qed.

Lemma truthy_int (d : Z) : d <> 0 -> truthy (PyInt d) = true.
Proof. intros Hd. simpl. apply negb_true_iff, Z.eqb_neq, Hd. Qed.

(** The model and the warnings never decide the outcome: an unknown model
    adds its two warning lines in front of whatever else is printed. *)
Lemma validate_unknown_model (a r d m : PyVal) (out : list string) :
  truthy m = true ->
  py_in m SUPPORTED_MODELS = false ->
  validate_parameters a r d PyNone = (out, Ok tt) ->
  validate_parameters a r d m
  = (model_warning_1 m :: model_warning_2 :: out, Ok tt).
Proof.
  intros Ht Hin. unfold validate_parameters. unfold_out.
  rewrite Ht, Hin.
  destruct (truthy a && negb (py_in a SUPPORTED_ASPECT_RATIOS)); [discriminate|].
  destruct (truthy r && negb (py_in r SUPPORTED_RESOLUTIONS)); [discriminate|].
  destruct (truthy d && negb (py_in d SUPPORTED_DURATIONS)); [discriminate|].
  destruct (py_eq r (PyStr "1080p") && truthy d && negb (py_eq d (PyInt 8)));
    [discriminate|].
  destruct (py_eq r (PyStr "1080p") && py_eq a (PyStr "9:16"));
    simpl; intros [= <-]; reflexivity.
Qed.

Lemma validate_portrait_1080p (d m : PyVal) :
  truthy d = false \/ d = PyInt 8 ->
  (validate_parameters (PyStr "9:16") (PyStr "1080p") d m).2 = Ok tt
  /\ portrait_1080p_warning ∈ (validate_parameters (PyStr "9:16") (PyStr "1080p") d m).1.
Proof.
  intros Hd. unfold validate_parameters. unfold_out.
  set (c3 := truthy d && negb (py_in d SUPPORTED_DURATIONS)).
  set (c5 := py_eq (PyStr "1080p") (PyStr "1080p") && truthy d
             && negb (py_eq d (PyInt 8))).
  assert (H3 : c3 = false).
  { subst c3. destruct Hd as [Hf | ->]; [rewrite Hf|]; reflexivity. }
  assert (H5 : c5 = false).
  { subst c5. destruct Hd as [Hf | ->]; [rewrite Hf|]; reflexivity. }
  rewrite H3, H5.
  destruct (truthy m && negb (py_in m SUPPORTED_MODELS)); simpl;
    (split; [reflexivity | apply list_elem_of_In; simpl; tauto]).
Qed.


(** ** File names *)

Lemma prefix_append (sub rest : string) : String.prefix sub (sub +:+ rest) = true.
Proof.
  induction sub as [|c sub IH]; simpl.
  - destruct rest; reflexivity.
  - destruct (ascii_dec c c); [exact IH | congruence].
Qed.

Lemma contains_prefix (sub s : string) :
  String.prefix sub s = true -> contains sub s = true.
Proof. intros Hp. destruct s; cbn [contains]; rewrite Hp; reflexivity. Qed.

Lemma contains_append (front sub rest : string) :
  contains sub (front +:+ sub +:+ rest) = true.
Proof.
  induction front as [|c front IH].
  - change (contains sub (sub +:+ rest) = true).
    apply contains_prefix, prefix_append.
  - change (String c front +:+ sub +:+ rest)
      with (String c (front +:+ sub +:+ rest)).
    cbn [contains]. rewrite IH. apply orb_true_r.
Qed.

Lemma default_model_tag :
  Str.replace "." "_"
    (Str.replace "-preview" EmptyString
       (Str.replace "-generate" EmptyString
          (Str.replace "veo-" EmptyString DEFAULT_MODEL))) = "3_1".
Proof. reflexivity. Qed.

Lemma lion_hash :
  Str.take 8 (hashlib.md5_hexdigest (Str.encode_utf8 lion)) = "7404b88c".
Proof. vm_compute. reflexivity. Qed.

(** C2 (as amended): for the prompt "A cinematic shot of a lion" and the
    default model, the generated file name is the timestamp, the model tag
    [3_1] (the [-generate] part of the model name is stripped as well) and
    the eight hexadecimal characters [7404b88c] of the prompt hash:
    [<timestamp>_3_1_7404b88c.mp4]. *)
Theorem generate_filename_lion_default_model
    {E} `{Environment E} (w : World E) :
  generate_filename (PyStr lion) (PyStr DEFAULT_MODEL) "mp4" w
  = (Ok (strftime_stamp (datetime_now (env w)) +:+ "_3_1_7404b88c.mp4"), w).
Proof.
  unfold generate_filename.
  change (negb (truthy (PyStr lion)) || negb (is_str (PyStr lion))) with false.
  change (negb (truthy (PyStr DEFAULT_MODEL)) || negb (is_str (PyStr DEFAULT_MODEL)))
    with false.
  cbv iota. unfold mbind, M_bind, now, mret, M_ret.
  change (py_str (PyStr lion)) with lion.
  change (py_str (PyStr DEFAULT_MODEL)) with DEFAULT_MODEL.
  rewrite default_model_tag, lion_hash. reflexivity.
Qed.

(** C2 as stated fails: on a run at 2025-03-09 12:00:05 the generated name
    is not of the form [<timestamp>_3_1_generate_<hash>.mp4], whatever the
    timestamp and hash texts are. *)
Lemma generate_filename_lion_has_no_generate_tag :
  ~ exists stamp hash : string,
      (generate_filename (PyStr lion) (PyStr DEFAULT_MODEL) "mp4"
         (Scripted.start (Scripted.script 0 (Scripted.Videos (Some 1%nat))))).1
      = Ok (stamp +:+ "_3_1_generate_" +:+ hash +:+ ".mp4").
Proof.
  intros (stamp & hash & Heq).
  assert (Hrun :
    (generate_filename (PyStr lion) (PyStr DEFAULT_MODEL) "mp4"
       (Scripted.start (Scripted.script 0 (Scripted.Videos (Some 1%nat))))).1
    = Ok "20250309_120005_3_1_7404b88c.mp4") by (vm_compute; reflexivity).
  rewrite Hrun in Heq. injection Heq as Heq.
  pose proof (contains_append stamp "_3_1_generate_" (hash +:+ ".mp4")) as Hc.
  rewrite <- Heq in Hc. vm_compute in Hc. discriminate.
Qed.

(** The whole single-video run with that prompt and every parameter left
    unset, on a provider that finishes after two refreshes. *)
Example generate_video_lion_end_to_end :
  let run := generate_video (PyStr lion) PyNone PyNone PyNone PyNone PyNone PyNone
               None ∅ (Scripted.start (Scripted.script 2 (Scripted.Videos (Some 1%nat)))) in
  (pathlib.to_str <$> match run.1 with Ok p => Some p | Raise _ => None end)
  = Some "output/20250309_120005_3_1_7404b88c.mp4"
  /\ Scripted.saved (env run.2) = ["output/20250309_120005_3_1_7404b88c.mp4"].
Proof. vm_compute. split; reflexivity. Qed.

(** ** Output paths *)

Lemma split_nonempty (sep : ascii) (s : string) : Str.split sep s <> [].
Proof.
  induction s as [|c s IH]; simpl; [discriminate|].
  destruct (Ascii.eqb c sep); [discriminate|].
  destruct (Str.split sep s); discriminate.
Qed.

Lemma split_parts_no_sep (sep : ascii) (s x : string) :
  In x (Str.split sep s) -> Str.has_char sep x = false.
Proof.
  revert x. induction s as [|c s IH]; simpl; intros x Hx.
  - destruct Hx as [<- | []]. reflexivity.
  - destruct (Ascii.eqb c sep) eqn:Hc.
    + destruct Hx as [<- | Hx]; [reflexivity | auto].
    + destruct (Str.split sep s) as [|y rest] eqn:Hs.
      * destruct Hx as [<- | []]. simpl. rewrite Hc. reflexivity.
      * destruct Hx as [<- | Hx].
        -- simpl. rewrite Hc. apply IH. left. reflexivity.
        -- apply IH. right. exact Hx.
Qed.

Lemma split_no_sep (sep : ascii) (x : string) :
  Str.has_char sep x = false -> Str.split sep x = [x].
Proof.
  induction x as [|c x IH]; simpl; intros Hx; [reflexivity|].
  apply orb_false_iff in Hx as [Hc Hx].
  rewrite Hc, (IH Hx). reflexivity.
Qed.

Lemma last_default_or_in {A} (l : list A) (d : A) :
  List.last l d = d \/ In (List.last l d) l.
Proof.
  induction l as [|a l IH]; [left; reflexivity|].
  destruct l as [|b l]; [right; left; reflexivity|].
  destruct IH as [IH | IH].
  - change (List.last (a :: b :: l) d) with (List.last (b :: l) d).
    destruct l; simpl in IH |- *; [subst; auto | auto].
  - right. right. exact IH.
Qed.

(** The name of a parsed path is empty, or a component without separator
    that is neither empty nor a single dot. *)
Lemma name_of_Path (s : string) :
  let n := pathlib.name (pathlib.Path s) in
  n = EmptyString
  \/ (pathlib.keep_part n = true /\ Str.has_char "/" n = false).
Proof.
  intros n. subst n. unfold pathlib.name, pathlib.Path. simpl pathlib.parts.
  destruct (last_default_or_in (List.filter pathlib.keep_part (Str.split "/" s))
                               EmptyString) as [Hd | Hin]; [left; exact Hd|].
  right. apply filter_In in Hin as [Hin Hk].
  split; [exact Hk | eapply split_parts_no_sep; exact Hin].
Qed.

Lemma Path_of_component (n : string) :
  pathlib.keep_part n = true -> Str.has_char "/" n = false ->
  pathlib.Path n = {| pathlib.root := EmptyString; pathlib.parts := [n] |}.
Proof.
  intros Hk Hs. unfold pathlib.Path.
  rewrite (split_no_sep _ _ Hs). simpl List.filter. rewrite Hk.
  f_equal. destruct n as [|c n]; [reflexivity|].
  simpl in Hs. apply orb_false_iff in Hs as [Hc _].
  unfold pathlib.splitroot. cbn [String.prefix].
  destruct (ascii_dec "/" c) as [<- | _]; [discriminate | reflexivity].
Qed.

(** What [get_output_path] returns: the output directory followed by the
    final component of the given name, when it has one. *)
Lemma get_output_path_shape (filename : string) :
  filename <> EmptyString ->
  let n := pathlib.name (pathlib.Path filename) in
  get_output_path filename
  = Ok {| pathlib.root := EmptyString;
          pathlib.parts :=
            OUTPUT_DIR :: (if String.eqb n EmptyString then [] else [n]) |}.
Proof.
  intros Hne n. unfold get_output_path.
  destruct (String.eqb_spec filename EmptyString) as [? | _]; [contradiction|].
  fold n. f_equal.
  destruct (name_of_Path filename) as [Hn | [Hk Hs]]; fold n in Hn || fold n in Hk, Hs.
  - rewrite Hn. reflexivity.
  - unfold pathlib.joinpath. rewrite (Path_of_component n Hk Hs). simpl.
    destruct (String.eqb_spec n EmptyString) as [-> | _]; [discriminate|].
    reflexivity.
Qed.

(** The returned path stays inside the output directory exactly when the
    final component of the given name is not a double dot. *)
Lemma get_output_path_inside (filename : string) (p : pathlib.PurePath) :
  get_output_path filename = Ok p ->
  pathlib.inside (pathlib.Path OUTPUT_DIR) p
  = negb (String.eqb (pathlib.name (pathlib.Path filename)) "..").
Proof.
  intros Hp.
  assert (Hne : filename <> EmptyString).
  { intros ->. discriminate Hp. }
  rewrite (get_output_path_shape filename Hne) in Hp.
  injection Hp as <-.
  destruct (String.eqb_spec (pathlib.name (pathlib.Path filename)) EmptyString)
    as [-> | _]; [reflexivity|].
  unfold pathlib.inside. simpl.
  destruct (String.eqb _ ".."); reflexivity.
Qed.

(** C9: the documented example is resolved inside the output directory,
    but a file name whose final component is a double dot is not
    sanitised: [get_output_path("..")] is [output/..], the parent of the
    output directory. *)
Theorem get_output_path_dotdot_escapes :
  (exists p, get_output_path "../../etc/passwd" = Ok p
             /\ pathlib.to_str p = "output/passwd"
             /\ pathlib.inside (pathlib.Path OUTPUT_DIR) p = true)
  /\ (exists p, get_output_path ".." = Ok p
                /\ pathlib.to_str p = "output/.."
                /\ pathlib.inside (pathlib.Path OUTPUT_DIR) p = false)
  /\ (exists p, get_output_path "reports/.." = Ok p
                /\ pathlib.to_str p = "output/.."
                /\ pathlib.inside (pathlib.Path OUTPUT_DIR) p = false).
Proof.
  split; [|split]; eexists; (split; [reflexivity | split; reflexivity]).
Qed.

(** ** Defaults in single-video generation *)

Lemma validate_default_aspect_ratio (r d m : PyVal) :
  validate_parameters (PyStr DEFAULT_ASPECT_RATIO) r d m
  = validate_parameters PyNone r d m.
Proof. reflexivity. Qed.

Lemma validate_default_resolution (a d m : PyVal) :
  validate_parameters a (PyStr DEFAULT_RESOLUTION) d m
  = validate_parameters a PyNone d m.
Proof. reflexivity. Qed.

Lemma validate_default_duration (a r m : PyVal) :
  validate_parameters a r (PyInt DEFAULT_DURATION_SECONDS) m
  = validate_parameters a r PyNone m.
Proof.
  unfold validate_parameters.
  change (truthy (PyInt DEFAULT_DURATION_SECONDS)
          && negb (py_in (PyInt DEFAULT_DURATION_SECONDS) SUPPORTED_DURATIONS))
    with false.
  change (truthy PyNone && negb (py_in PyNone SUPPORTED_DURATIONS)) with false.
  destruct (py_eq r (PyStr "1080p")); reflexivity.
Qed.

Lemma validate_default_model (a r d : PyVal) :
  validate_parameters a r d (PyStr DEFAULT_MODEL)
  = validate_parameters a r d PyNone.
Proof. reflexivity. Qed.


(** ** Scene chains: preconditions *)

(** C7: an empty scene list, and a list of more than MAX_EXTENSIONS + 1 =
    21 scenes, fail with [ValueError] (InvalidParameter) and leave the
    world as it was: no call of any kind is made. *)
Theorem extend_from_scenes_preconditions
    {E} `{Environment E}
    (scenes : list Scene) (output_filename : option string) (w : World E) :
  scenes = [] \/ (MAX_EXTENSIONS + 1 < length scenes)%nat ->
  (MAX_EXTENSIONS + 1 = 21)%nat
  /\ exists msg,
       extend_from_scenes scenes output_filename w = (Raise (ValueError msg), w)
       /\ remote_calls (trace (extend_from_scenes scenes output_filename w).2)
          = remote_calls (trace w).
Proof.
  intros Hpre. split; [reflexivity|].
  unfold extend_from_scenes.
  destruct scenes as [|scene rest].
  - eexists. split; reflexivity.
  - destruct Hpre as [Hnil | Hlen]; [discriminate|].
    apply Nat.ltb_lt in Hlen. rewrite Hlen.
    eexists. split; reflexivity.
Qed.

Lemma extend_from_scenes_preconditions_witness :
  (MAX_EXTENSIONS + 1 = 21)%nat
  /\ exists msg,
       extend_from_scenes
         (replicate 22 {| scene_prompt := Some "A street"; scene_params := ∅ |})
         None (Scripted.start (Scripted.script 1 (Scripted.Videos (Some 1%nat))))
       = (Raise (ValueError msg),
          Scripted.start (Scripted.script 1 (Scripted.Videos (Some 1%nat))))
       /\ remote_calls
            (trace
               (extend_from_scenes
                  (replicate 22 {| scene_prompt := Some "A street"; scene_params := ∅ |})
                  None
                  (Scripted.start (Scripted.script 1 (Scripted.Videos (Some 1%nat))))).2)
          = remote_calls
              (trace (Scripted.start (Scripted.script 1 (Scripted.Videos (Some 1%nat))))).
Proof.
  apply (extend_from_scenes_preconditions
           (replicate 22 {| scene_prompt := Some "A street"; scene_params := ∅ |})
           None (Scripted.start (Scripted.script 1 (Scripted.Videos (Some 1%nat))))).
  right. simpl. lia.
Defined.

(** ** The poller *)

Section Poller.
Context {E : Type} `{Environment E}.

Lemma after_nil (w : World E) : after w (env w) [] = w.
Proof. destruct w. unfold after. simpl. rewrite app_nil_r. reflexivity. Qed.

Lemma after_after (w : World E) (e1 e2 : E) (evs1 evs2 : list Event) :
  after (after w e1 evs1) e2 evs2 = after w e2 (evs1 ++ evs2).
Proof. unfold after. simpl. rewrite app_assoc. reflexivity. Qed.

Lemma refresh_calls_app (t1 t2 : list Event) :
  refresh_calls (t1 ++ t2) = (refresh_calls t1 + refresh_calls t2)%nat.
Proof. unfold refresh_calls. rewrite List.filter_app, length_app. reflexivity. Qed.

Lemma poll_loop_done (left : nat) (operation : Operation) (w : World E) :
  done operation = true -> poll_loop left operation w = (Ok operation, w).
Proof. intros Hd. destruct left; simpl; rewrite Hd; reflexivity. Qed.

Lemma poll_loop_exhausted (operation : Operation) (w : World E) :
  done operation = false ->
  poll_loop 0 operation w = (Raise (TimeoutError timeout_message), w).
Proof. intros Hd. simpl. rewrite Hd. reflexivity. Qed.

(** One iteration: wait, refresh once, and go on or stop on a fault. *)
Lemma poll_loop_round (left : nat) (operation : Operation) (w : World E) :
  done operation = false ->
  poll_loop (S left) operation w
  = match operations_get operation (time_sleep POLL_INTERVAL_SECONDS (env w)) with
    | (Ok operation', e') =>
        poll_loop left operation'
          (after w e' [EvSleep POLL_INTERVAL_SECONDS; EvOperationsGet operation])
    | (Raise x, e') =>
        (Raise (RuntimeError ("Failed to poll operation: " +:+ exn_str x)),
         after w e' [EvSleep POLL_INTERVAL_SECONDS; EvOperationsGet operation])
    end.
Proof.
  intros Hd. cbn [poll_loop]. rewrite Hd. cbn [negb].
  unfold mbind, M_bind, sleep, try_except, call, raise, after. cbn [env trace stdout].
  destruct (operations_get operation (time_sleep POLL_INTERVAL_SECONDS (env w)))
    as [[operation' | x] e']; rewrite <- app_assoc; reflexivity.
Qed.

(** [k] rounds of the protocol are [k] iterations of the loop, and make
    exactly [k] refresh calls. *)
Lemma poll_loop_refreshes (k left : nat) (operation final : Operation)
      (w : World E) (e' : E) :
  refreshes k operation (env w) = Some (final, e') ->
  exists evs,
    refresh_calls evs = k
    /\ poll_loop (k + left) operation w = poll_loop left final (after w e' evs).
Proof.
  revert operation w. induction k as [|k IH]; intros operation w Hk.
  - injection Hk as <- <-. exists []. rewrite after_nil. split; reflexivity.
  - cbn [refreshes] in Hk.
    destruct (done operation) eqn:Hd; [discriminate|].
    change (S k + left)%nat with (S (k + left)).
    rewrite (poll_loop_round _ _ _ Hd).
    destruct (operations_get operation (time_sleep POLL_INTERVAL_SECONDS (env w)))
      as [[operation' | x] e1]; [|discriminate].
    destruct (IH operation'
                (after w e1 [EvSleep POLL_INTERVAL_SECONDS; EvOperationsGet operation])
                Hk) as (evs & Hcount & Hloop).
    exists ([EvSleep POLL_INTERVAL_SECONDS; EvOperationsGet operation] ++ evs).
    split.
    + rewrite refresh_calls_app, Hcount. reflexivity.
    + rewrite Hloop, after_after. reflexivity.
Qed.

(** The part of [poll_operation] after the loop. *)
Lemma poll_operation_unfold (operation : Operation) (w : World E) :
  poll_operation operation w
  = match poll_loop MAX_POLL_ATTEMPTS operation w with
    | (Ok final, w') =>
        match error final with
        | Some err =>
            (Raise (RuntimeError ("Video generation failed: " +:+ error_text err)), w')
        | None => (Ok final, w')
        end
    | (Raise e, w') =>
        if is_TimeoutError e || is_RuntimeError e then (Raise e, w')
        else (Raise (RuntimeError ("Operation polling failed: " +:+ exn_str e)), w')
    end.
Proof.
  unfold poll_operation, try_except, mbind, M_bind, raise, mret, M_ret.
  destruct (poll_loop MAX_POLL_ATTEMPTS operation w) as [[final | e] w'].
  - destruct (error final); reflexivity.
  - destruct (is_TimeoutError e || is_RuntimeError e); reflexivity.
Qed.

(** C5: one refresh call per iteration.  If after [k <= 180] rounds of
    wait-and-refresh the handle is done with no error, [poll_operation]
    returns that handle having made exactly [k] refresh calls (the
    claim's [k < 180] included); if after 180 rounds it is still not
    done, [poll_operation] fails with [TimeoutError] after exactly 180
    refresh calls. *)
Theorem poll_operation_refresh_count
    (w : World E) (operation final : Operation) (e' : E) (k : nat) :
  (k <= MAX_POLL_ATTEMPTS)%nat ->
  refreshes k operation (env w) = Some (final, e') ->
  exists w',
    env w' = e' /\ stdout w' = stdout w
    /\ refresh_calls (trace w') = (refresh_calls (trace w) + k)%nat
    /\ (done final = true -> error final = None ->
        poll_operation operation w = (Ok final, w'))
    /\ (done final = false -> k = MAX_POLL_ATTEMPTS ->
        poll_operation operation w = (Raise (TimeoutError timeout_message), w')).
Proof.
  intros Hk Href.
  destruct (poll_loop_refreshes k (MAX_POLL_ATTEMPTS - k) _ _ _ _ Href)
    as (evs & Hcount & Hloop).
  replace (k + (MAX_POLL_ATTEMPTS - k))%nat with MAX_POLL_ATTEMPTS in Hloop by lia.
  exists (after w e' evs). split; [reflexivity|]. split; [reflexivity|].
  split; [cbn [after trace]; rewrite refresh_calls_app, Hcount; reflexivity|].
  split.
  - intros Hdone Herr. rewrite poll_operation_unfold, Hloop.
    rewrite (poll_loop_done _ _ _ Hdone), Herr. reflexivity.
  - intros Hdone ->. rewrite poll_operation_unfold, Hloop.
    rewrite Nat.sub_diag, (poll_loop_exhausted _ _ Hdone). reflexivity.
Qed.

(** C6: a finished handle is judged by its error field alone: with an
    error the poll fails with [RuntimeError] carrying the printed
    payload, without one the handle is returned.  A refresh call that
    raises ends the poll with [RuntimeError] at once: that call is the
    last one made. *)
Theorem poll_operation_error_field_and_fault
    (w : World E) (operation last : Operation) (e' : E) (k : nat) :
  (k <= MAX_POLL_ATTEMPTS)%nat ->
  refreshes k operation (env w) = Some (last, e') ->
  exists w',
    env w' = e'
    /\ refresh_calls (trace w') = (refresh_calls (trace w) + k)%nat
    /\ (done last = true ->
        poll_operation operation w
        = (match error last with
           | Some err =>
               Raise (RuntimeError
                        ("Video generation failed: " +:+ error_text err))
           | None => Ok last
           end, w'))
    /\ (done last = false -> (k < MAX_POLL_ATTEMPTS)%nat ->
        forall (x : exn) (e2 : E),
          operations_get last (time_sleep POLL_INTERVAL_SECONDS e') = (Raise x, e2) ->
          exists w2,
            env w2 = e2
            /\ refresh_calls (trace w2) = (refresh_calls (trace w) + k + 1)%nat
            /\ poll_operation operation w
               = (Raise (RuntimeError
                           ("Failed to poll operation: " +:+ exn_str x)), w2)).
Proof.
  intros Hk Href.
  destruct (poll_loop_refreshes k (MAX_POLL_ATTEMPTS - k) _ _ _ _ Href)
    as (evs & Hcount & Hloop).
  replace (k + (MAX_POLL_ATTEMPTS - k))%nat with MAX_POLL_ATTEMPTS in Hloop by lia.
  exists (after w e' evs). split; [reflexivity|].
  split; [cbn [after trace]; rewrite refresh_calls_app, Hcount; reflexivity|].
  split.
  - intros Hdone. rewrite poll_operation_unfold, Hloop.
    rewrite (poll_loop_done _ _ _ Hdone). destruct (error last); reflexivity.
  - intros Hdone Hlt x e2 Hget.
    exists (after (after w e' evs) e2
                  [EvSleep POLL_INTERVAL_SECONDS; EvOperationsGet last]).
    split; [reflexivity|]. split.
    + cbn [after trace]. rewrite !refresh_calls_app, Hcount. reflexivity.
    + rewrite poll_operation_unfold, Hloop.
      destruct (MAX_POLL_ATTEMPTS - k)%nat as [|left] eqn:Hleft; [lia|].
      rewrite (poll_loop_round _ _ _ Hdone). cbn [after env].
      rewrite Hget. reflexivity.
Qed.

End Poller.

Lemma poll_operation_refresh_count_witness :
  let w := Scripted.start (Scripted.script 200 Scripted.NoResponse) in
  let run := poll_operation (Scripted.running "operations/0") w in
  run.1 = Raise (TimeoutError "Video generation timed out after 1800 seconds")
  /\ refresh_calls (trace run.2) = 180%nat
  /\ Scripted.slept (env run.2) = 1800.
Proof.
  intros w run.
  assert (Hk : (180 <= MAX_POLL_ATTEMPTS)%nat) by (unfold MAX_POLL_ATTEMPTS; lia).
  assert (Href : refreshes 180 (Scripted.running "operations/0") (env w)
                 = Some (Scripted.running "operations/0",
                         Scripted.wait 1800
                           {| Scripted.delay := 200;
                              Scripted.outcome := Scripted.NoResponse;
                              Scripted.fault_at := None; Scripted.pending := 20;
                              Scripted.submitted := 0; Scripted.refreshed := 180;
                              Scripted.slept := 0; Scripted.clock := Scripted.noon;
                              Scripted.saved := [] |}))
    by (vm_compute; reflexivity).
  destruct (poll_operation_refresh_count w _ _ _ 180 Hk Href)
    as (w' & Henv & _ & Hcalls & _ & Htimeout).
  subst run. rewrite (Htimeout eq_refl eq_refl). cbn [fst snd].
  split; [reflexivity|]. split; [exact Hcalls|].
  rewrite Henv. reflexivity.
Defined.

(** A handle that is done after three refreshes is returned after three
    refresh calls. *)
Example poll_operation_three_refreshes :
  let w := Scripted.start (Scripted.script 3 (Scripted.Videos (Some 1%nat))) in
  let run := poll_operation (Scripted.running "operations/0") w in
  run.1 = Ok (Scripted.finished "operations/0" (Scripted.Videos (Some 1%nat)))
  /\ refresh_calls (trace run.2) = 3%nat.
Proof. vm_compute. split; reflexivity. Qed.

Lemma poll_operation_error_field_and_fault_witness :
  let w := Scripted.start (Scripted.script 2 (Scripted.Failure quota_error)) in
  let run := poll_operation (Scripted.running "operations/0") w in
  run.1 = Raise (RuntimeError "Video generation failed: quota exceeded")
  /\ refresh_calls (trace run.2) = 2%nat.
Proof.
  intros w run.
  assert (Hk : (2 <= MAX_POLL_ATTEMPTS)%nat) by (unfold MAX_POLL_ATTEMPTS; lia).
  assert (Href : refreshes 2 (Scripted.running "operations/0") (env w)
                 = Some (Scripted.finished "operations/0" (Scripted.Failure quota_error),
                         {| Scripted.delay := 2;
                            Scripted.outcome := Scripted.Failure quota_error;
                            Scripted.fault_at := None; Scripted.pending := 0;
                            Scripted.submitted := 0; Scripted.refreshed := 2;
                            Scripted.slept := 20; Scripted.clock := Scripted.noon;
                            Scripted.saved := [] |}))
    by (vm_compute; reflexivity).
  destruct (poll_operation_error_field_and_fault w _ _ _ 2 Hk Href)
    as (w' & _ & Hcalls & Hdone & _).
  subst run. rewrite (Hdone eq_refl). cbn [fst snd].
  split; [reflexivity | exact Hcalls].
Defined.

(** A refresh call that raises is the last call of the poll: the second
    refresh fails, and two refresh calls were made. *)
Example poll_operation_fault_aborts :
  let w := Scripted.start (Scripted.faulty 5 (Scripted.Videos (Some 1%nat)) 1) in
  let run := poll_operation (Scripted.running "operations/0") w in
  run.1 = Raise (RuntimeError "Failed to poll operation: connection reset")
  /\ refresh_calls (trace run.2) = 2%nat.
Proof. vm_compute. split; reflexivity. Qed.

(** ** What a generation step does in any environment *)

Section Steps.
Context {E : Type} `{Environment E}.

Lemma poll_loop_extends (left : nat) (operation : Operation) (w : World E) :
  exists e evs, (poll_loop left operation w).2 = after w e evs.
Proof.
  revert operation w. induction left as [|left IH]; intros operation w;
    destruct (done operation) eqn:Hd.
  - rewrite (poll_loop_done _ _ _ Hd). exists (env w), []. symmetry. apply after_nil.
  - rewrite (poll_loop_exhausted _ _ Hd). exists (env w), []. symmetry. apply after_nil.
  - rewrite (poll_loop_done _ _ _ Hd). exists (env w), []. symmetry. apply after_nil.
  - rewrite (poll_loop_round _ _ _ Hd).
    destruct (operations_get operation (time_sleep POLL_INTERVAL_SECONDS (env w)))
      as [[operation' | x] e1].
    + destruct (IH operation'
                  (after w e1 [EvSleep POLL_INTERVAL_SECONDS; EvOperationsGet operation]))
        as (e & evs & Heq).
      rewrite Heq, after_after. eauto.
    + eauto.
Qed.

(** Polling only adds events to the trace. *)
Lemma poll_operation_extends (operation : Operation) (w : World E) :
  exists e evs, (poll_operation operation w).2 = after w e evs.
Proof.
  destruct (poll_loop_extends MAX_POLL_ATTEMPTS operation w) as (e & evs & Heq).
  exists e, evs. rewrite poll_operation_unfold.
  destruct (poll_loop MAX_POLL_ATTEMPTS operation w) as [[final | x] w'];
    simpl in Heq; subst w'.
  - destruct (error final); reflexivity.
  - destruct (is_TimeoutError x || is_RuntimeError x); reflexivity.
Qed.

(** A scene step, once its request is accepted, is the poll followed by
    the unguarded read of the first generated video. *)
Lemma generate_scene_unfold
    (prompt : string) (previous_video : option Video)
    (model aspect_ratio resolution : PyVal) (kwargs : gmap string PyVal)
    (w : World E) (out : list string) (operation : Operation) (e : E) :
  let model' := py_or model (PyStr DEFAULT_MODEL) in
  let aspect_ratio' := py_or aspect_ratio (PyStr DEFAULT_ASPECT_RATIO) in
  let resolution' :=
    match previous_video with
    | Some _ => PyStr "720p"
    | None => py_or resolution (PyStr DEFAULT_RESOLUTION)
    end in
  let duration_seconds :=
    match previous_video with
    | Some _ => PyInt 8
    | None => default (PyInt 8) (kwargs !! "duration_seconds")
    end in
  let request :=
    {| call_model := model'; call_prompt := prompt;
       call_video := previous_video;
       call_config :=
         scene_config_params aspect_ratio' resolution' duration_seconds kwargs |} in
  validate_parameters aspect_ratio' resolution' duration_seconds model' = (out, Ok tt) ->
  models_generate_videos request (env w) = (Ok operation, e) ->
  generate_scene prompt previous_video model aspect_ratio resolution kwargs w
  = match poll_operation operation (submitted w out request e) with
    | (Ok final, w') =>
        match response final with
        | None =>
            (Raise (AttributeError
                      "'NoneType' object has no attribute 'generated_videos'"), w')
        | Some r =>
            match generated_videos r with
            | None => (Raise (TypeError "'NoneType' object is not subscriptable"), w')
            | Some [] => (Raise (IndexError "list index out of range"), w')
            | Some (generated_video :: _) => (Ok generated_video, w')
            end
        end
    | (Raise x, w') => (Raise x, w')
    end.
Proof.
  intros model' aspect_ratio' resolution' duration_seconds request Hval Hsub.
  unfold generate_scene.
  fold model'. fold aspect_ratio'.
  assert (Hpair :
    match previous_video with
    | Some _ => (PyStr "720p", PyInt 8)
    | None => (py_or resolution (PyStr DEFAULT_RESOLUTION),
               default (PyInt 8) (kwargs !! "duration_seconds"))
    end = (resolution', duration_seconds)).
  { subst resolution' duration_seconds. destruct previous_video; reflexivity. }
  rewrite Hpair. fold request.
  unfold mbind, M_bind, lift_out, call. rewrite Hval. cbn [fst snd env trace stdout].
  rewrite Hsub. fold (submitted w out request e).
  destruct (poll_operation operation (submitted w out request e)) as [[final | x] w'];
    [|reflexivity].
  destruct (response final) as [r|]; [|reflexivity].
  destruct (generated_videos r) as [[|g l]|]; reflexivity.
Qed.

(** An extension step submits the previous video as seed with resolution
    720p; its duration is 8 unless the scene parameters name one. *)
Lemma generate_scene_with_extension_request
    (prompt : string) (v : Video) (params : gmap string PyVal) (w : World E) :
  params !! "prompt" = None -> params !! "previous_video" = None ->
  (validate_parameters
     (py_or (default PyNone (params !! "aspect_ratio")) (PyStr DEFAULT_ASPECT_RATIO))
     (PyStr "720p") (PyInt 8)
     (py_or (default PyNone (params !! "model")) (PyStr DEFAULT_MODEL))).2 = Ok tt ->
  exists c rest,
    trace (generate_scene_with prompt (Some v) params w).2
    = trace w ++ EvGenerateVideos c :: rest
    /\ call_prompt c = prompt
    /\ call_video c = Some v
    /\ call_config c !! "resolution" = Some (PyStr "720p")
    /\ call_config c !! "duration_seconds"
       = Some (default (PyInt 8) (params !! "duration_seconds")).
Proof.
  intros Hp Hv Hval.
  unfold generate_scene_with. rewrite Hp, Hv.
  rewrite !bool_decide_eq_false_2 by (intros [? ?]; discriminate).
  set (kwargs := delete "model" (delete "aspect_ratio" (delete "resolution" params))).
  unfold generate_scene.
  set (request := {| call_model := _; call_prompt := prompt |}).
  exists request.
  assert (Hres : call_config request !! "resolution" = Some (PyStr "720p")).
  { subst request kwargs. cbn [call_config]. unfold scene_config_params.
    rewrite lookup_union, !lookup_delete_ne, lookup_delete_eq by discriminate.
    reflexivity. }
  assert (Hdur : call_config request !! "duration_seconds"
                 = Some (default (PyInt 8) (params !! "duration_seconds"))).
  { subst request kwargs. cbn [call_config]. unfold scene_config_params.
    rewrite lookup_union, !lookup_delete_ne by discriminate.
    destruct (params !! "duration_seconds"); reflexivity. }
  unfold mbind, M_bind, lift_out, call.
  destruct (validate_parameters _ (PyStr "720p") (PyInt 8) _) as [out [[]|x]];
    [|discriminate Hval].
  cbn [fst snd env trace stdout].
  destruct (models_generate_videos request (env w)) as [[operation | x] e].
  - destruct (poll_operation_extends operation
                {| env := e; trace := trace w ++ [EvGenerateVideos request];
                   stdout := stdout w ++ out |}) as (e' & evs & Hext).
    exists evs.
    destruct (poll_operation operation _) as [[final | x] w']; simpl in Hext; subst w'.
    + split; [|auto].
      destruct (response final) as [r|];
        [destruct (generated_videos r) as [[|g l]|]|];
        unfold raise, mret, M_ret; cbn [snd after trace];
        rewrite <- app_assoc; reflexivity.
    + split; [|auto]. cbn [snd after trace]. rewrite <- app_assoc. reflexivity.
  - exists []. auto.
Qed.

(** Single-video generation, once its request is accepted and the poll
    has succeeded, fails with [RuntimeError] when the finished handle has
    no response, no list of videos or an empty list. *)
Lemma generate_video_requires_artifact
    (prompt model aspect_ratio resolution duration_seconds negative_prompt
     seed : PyVal)
    (output_filename : option string) (kwargs : gmap string PyVal)
    (w w' : World E) (out : list string) (operation final : Operation) (e : E) :
  let model' := py_or model (PyStr DEFAULT_MODEL) in
  let aspect_ratio' := py_or aspect_ratio (PyStr DEFAULT_ASPECT_RATIO) in
  let resolution' := py_or resolution (PyStr DEFAULT_RESOLUTION) in
  let duration_seconds' := py_or duration_seconds (PyInt DEFAULT_DURATION_SECONDS) in
  let request :=
    {| call_model := model'; call_prompt := py_str prompt; call_video := None;
       call_config :=
         video_config_params aspect_ratio' resolution' duration_seconds'
                             negative_prompt seed kwargs |} in
  truthy prompt = true -> is_str prompt = true ->
  Str.strip_is_empty (py_str prompt) = false ->
  validate_parameters aspect_ratio' resolution' duration_seconds' model' = (out, Ok tt) ->
  models_generate_videos request (env w) = (Ok operation, e) ->
  poll_operation operation (submitted w out request e) = (Ok final, w') ->
  response final ≫= generated_videos = None
  \/ response final ≫= generated_videos = Some [] ->
  generate_video prompt model aspect_ratio resolution duration_seconds
                 negative_prompt seed output_filename kwargs w
  = (Raise (RuntimeError "API did not return any generated videos"), w').
Proof.
  intros model' aspect_ratio' resolution' duration_seconds' request
         Ht Hs Hstrip Hval Hsub Hpoll Hnone.
  unfold generate_video. rewrite Ht, Hs, Hstrip. cbn [negb orb].
  fold model'. fold aspect_ratio'. fold resolution'. fold duration_seconds'.
  fold request.
  unfold mbind at 1. unfold M_bind at 1. unfold lift_out. rewrite Hval.
  cbn [fst snd env trace stdout].
  unfold try_except, mbind, M_bind, call. cbn [env trace stdout].
  rewrite Hsub. fold (submitted w out request e). rewrite Hpoll.
  unfold mbind in Hnone. destruct Hnone as [-> | ->]; reflexivity.
Qed.

End Steps.

(** ** Scene chains: the requests *)

(** One turn of the scene loop: the scene is generated from the video of
    the previous result, and the loop goes on with the new result only
    when that step has returned. *)
Lemma scene_loop_step {E} `{Environment E}
    (scene : Scene) (rest : list Scene) (video_object : option GeneratedVideo)
    (scene_number : nat) (prompt : string) (w : World E) :
  scene_prompt scene = Some prompt -> prompt <> EmptyString ->
  scene_loop (scene :: rest) video_object scene_number w
  = match generate_scene_with prompt (video_object ≫= video) (scene_params scene) w with
    | (Ok generated_video, w') =>
        scene_loop rest (Some generated_video) (S scene_number) w'
    | (Raise x, w') => (Raise x, w')
    end.
Proof.
  intros Hp Hne. cbn [scene_loop]. rewrite Hp. cbn [opt_str_falsy default].
  destruct (String.eqb_spec prompt EmptyString) as [? | _]; [contradiction|].
  unfold mbind at 1. unfold M_bind.
  destruct video_object; reflexivity.
Qed.

(** Three scenes make three requests, each after the first seeded with
    the video of the previous one and sent with 720p and 8 seconds (no
    scene names a duration), and one file is saved. *)
Example extend_from_scenes_three_scenes :
  let run := extend_from_scenes three_scenes None
               (Scripted.start (Scripted.script 1 (Scripted.Videos (Some 1%nat)))) in
  let calls := submitted_calls (trace run.2) in
  is_Ok run.1 = true
  /\ map call_video calls
     = [None; Some {| uri := "operations/0/video-0" |};
        Some {| uri := "operations/1/video-0" |}]
  /\ map (fun c => call_config c !! "resolution") calls
     = [Some (PyStr "720p"); Some (PyStr "720p"); Some (PyStr "720p")]
  /\ map (fun c => call_config c !! "duration_seconds") calls
     = [Some (PyInt 8); Some (PyInt 8); Some (PyInt 8)]
  /\ length (Scripted.saved (env run.2)) = 1%nat.
Proof. vm_compute. repeat split. Qed.


(** C1: in a chain whose second scene asks for 1080p and 4 seconds, the
    first request carries no seed video and the second carries the video
    of the first scene and the forced resolution 720p, but its duration is
    the scene's own 4 seconds, not the forced 8: the forced value is
    overwritten when the remaining scene parameters are merged in. *)
Theorem extend_from_scenes_duration_override_wins :
  let run := extend_from_scenes override_scenes None
               (Scripted.start (Scripted.script 1 (Scripted.Videos (Some 1%nat)))) in
  is_Ok run.1 = true
  /\ exists first second,
       submitted_calls (trace run.2) = [first; second]
       /\ call_video first = None
       /\ call_config first !! "duration_seconds" = Some (PyInt 8)
       /\ call_video second = Some {| uri := "operations/0/video-0" |}
       /\ call_config second !! "resolution" = Some (PyStr "720p")
       /\ call_config second !! "duration_seconds" = Some (PyInt 4).
Proof.
  vm_compute. split; [reflexivity|].
  do 2 eexists. split; [reflexivity|]. repeat split.
Qed.

(** ** Result artifacts *)

(** C4: when a finished job carries an empty list of videos, single-video
    generation fails with [RuntimeError] (RemoteError), but a scene step
    has no such check: it fails with [IndexError] on reading the first
    video.  The chain stops there, after one request. *)
Theorem generate_scene_empty_result_is_index_error :
  let w := Scripted.start (Scripted.script 1 (Scripted.Videos (Some 0%nat))) in
  let single := generate_video (PyStr lion) PyNone PyNone PyNone PyNone PyNone PyNone
                  None ∅ w in
  let chain := extend_from_scenes plain_scenes None w in
  single.1 = Raise (RuntimeError "API did not return any generated videos")
  /\ chain.1 = Raise (IndexError "list index out of range")
  /\ fails_with is_RuntimeError chain.1 = false
  /\ length (submitted_calls (trace chain.2)) = 1%nat.
Proof. vm_compute. repeat split. Qed.

(** ** Reasoning about runs *)

Section Reasoning.
Context {E : Type} `{Environment E}.

Lemma sat_ret {A} (a : A) (w : World E) (Q : Result A -> World E -> Prop) :
  Q (Ok a) w -> sat (mret a) w Q.
Proof. exact (fun H => H). Qed.

Lemma sat_raise {A} (e : exn) (w : World E) (Q : Result A -> World E -> Prop) :
  Q (Raise e) w -> sat (raise e) w Q.
Proof. exact (fun H => H). Qed.

Lemma sat_bind {A B} (m : M E A) (k : A -> M E B) (w : World E)
      (Q : Result B -> World E -> Prop) :
  sat m w (fun r w1 =>
             match r with
             | Ok a => sat (k a) w1 Q
             | Raise e => Q (Raise e) w1
             end) ->
  sat (m ≫= k) w Q.
Proof.
  unfold sat, mbind, M_bind. destruct (m w) as [[a | e] w1]; exact (fun H => H).
Qed.

Lemma sat_try_except {A} (body : M E A) (handler : exn -> M E A) (w : World E)
      (Q : Result A -> World E -> Prop) :
  sat body w (fun r w1 =>
                match r with
                | Ok a => Q (Ok a) w1
                | Raise e => sat (handler e) w1 Q
                end) ->
  sat (try_except body handler) w Q.
Proof.
  unfold sat, try_except. destruct (body w) as [[a | e] w1]; exact (fun H => H).
Qed.

Lemma sat_weaken {A} (m : M E A) (w : World E)
      (Q Q' : Result A -> World E -> Prop) :
  sat m w Q -> (forall r w', Q r w' -> Q' r w') -> sat m w Q'.
Proof. unfold sat. auto. Qed.

Lemma sat_call {A} (ev : Event) (f : E -> Result A * E) (w : World E)
      (Q : Result A -> World E -> Prop) :
  (forall r e, f (env w) = (r, e) -> Q r (after w e [ev])) ->
  sat (call ev f) w Q.
Proof.
  intros HQ. unfold sat, call.
  destruct (f (env w)) as [r e] eqn:Hf. apply (HQ r e eq_refl).
Qed.

Lemma sat_lift_out {A} (o : Out A) (w : World E)
      (Q : Result A -> World E -> Prop) :
  Q o.2 {| env := env w; trace := trace w; stdout := stdout w ++ o.1 |} ->
  sat (lift_out o) w Q.
Proof. exact (fun H => H). Qed.

Lemma sat_lift_result {A} (r : Result A) (w : World E)
      (Q : Result A -> World E -> Prop) :
  Q r w -> sat (lift_result r) w Q.
Proof. exact (fun H => H). Qed.

Lemma sat_exists_ (path : string) (w : World E)
      (Q : Result bool -> World E -> Prop) :
  Q (Path_exists path (env w)) w -> sat (exists_ path) w Q.
Proof. exact (fun H => H). Qed.

Lemma grows_refl (w : World E) : grows w w.
Proof. exists []. symmetry. apply app_nil_r. Qed.

Lemma grows_trans (w w1 w2 : World E) : grows w w1 -> grows w1 w2 -> grows w w2.
Proof.
  intros [evs1 H1] [evs2 H2]. exists (evs1 ++ evs2).
  rewrite H2, H1, app_assoc. reflexivity.
Qed.

Lemma grows_after (w : World E) (e : E) (evs : list Event) : grows w (after w e evs).
Proof. exists evs. reflexivity. Qed.

Lemma grows_same_trace (w w' : World E) : trace w' = trace w -> grows w w'.
Proof. intros Ht. exists []. rewrite Ht. symmetry. apply app_nil_r. Qed.

(** If a step only adds to the trace and so does what follows it, so
    does the sequence. *)
Lemma sat_grows_bind {A B} (m : M E A) (k : A -> M E B) (w : World E) :
  sat m w (fun _ w1 => grows w w1) ->
  (forall a w1, sat (k a) w1 (fun _ w2 => grows w1 w2)) ->
  sat (m ≫= k) w (fun _ w2 => grows w w2).
Proof.
  intros Hm Hk. apply sat_bind. eapply sat_weaken; [exact Hm|].
  intros [a | e] w1 Hw1; [|exact Hw1].
  eapply sat_weaken; [apply Hk|]. intros r w2 Hw2.
  exact (grows_trans _ _ _ Hw1 Hw2).
Qed.

Lemma sat_grows_poll_operation (operation : Operation) (w : World E) :
  sat (poll_operation operation) w (fun _ w' => grows w w').
Proof.
  unfold sat. destruct (poll_operation_extends operation w) as (e & evs & ->).
  apply grows_after.
Qed.

(** Naming a file does not touch the world. *)
Lemma generate_filename_world (prompt model : PyVal) (extension : string)
      (w : World E) :
  (generate_filename prompt model extension w).2 = w.
Proof.
  unfold generate_filename.
  destruct (negb (truthy prompt) || negb (is_str prompt)); [reflexivity|].
  destruct (negb (truthy model) || negb (is_str model)); reflexivity.
Qed.

Lemma sat_grows_download_video (video_object : option Video)
      (output_path : pathlib.PurePath) (w : World E) :
  sat (download_video video_object output_path) w (fun _ w' => grows w w').
Proof.
  destruct video_object as [v|]; [|apply sat_raise, grows_refl].
  unfold download_video. apply sat_try_except.
  assert (Hbody :
    sat (call (EvMkdir (parent_str output_path)) (path_mkdir (parent_str output_path));;
         call (EvFilesDownload v) (files_download v);;
         call (EvSave v (pathlib.to_str output_path))
              (video_save v (pathlib.to_str output_path));;
         created ← exists_ (pathlib.to_str output_path);
         if negb created then raise (RuntimeError "Video file was not created")
         else mret output_path) w (fun _ w' => grows w w')).
  { apply sat_grows_bind.
    { apply sat_call. intros r e _. apply grows_after. }
    intros _ w1. apply sat_grows_bind.
    { apply sat_call. intros r e _. apply grows_after. }
    intros _ w2. apply sat_grows_bind.
    { apply sat_call. intros r e _. apply grows_after. }
    intros _ w3. apply sat_bind, sat_exists_.
    destruct (Path_exists _ (env w3)) as [[|]|x]; apply grows_refl. }
  eapply sat_weaken; [exact Hbody|].
  intros [p | e] w' Hg; exact Hg.
Qed.

(** After a successful poll, naming the file and downloading only add to
    the trace. *)
Lemma sat_grows_deliver (name_step : M E string) (g : GeneratedVideo)
      (output_filename : option string) (w : World E) :
  (forall w0, (name_step w0).2 = w0) ->
  sat (output_filename' ←
         (if opt_str_falsy output_filename then name_step
          else mret (default EmptyString output_filename));
       output_path ← lift_result (get_output_path output_filename');
       download_video (video g) output_path;;
       mret output_path) w
      (fun _ w' => grows w w').
Proof.
  intros Hname. apply sat_grows_bind.
  { destruct (opt_str_falsy output_filename); [|apply grows_refl].
    unfold sat. rewrite Hname. apply grows_refl. }
  intros name w1. apply sat_grows_bind; [apply grows_refl|].
  intros output_path w2. apply sat_grows_bind; [apply sat_grows_download_video|].
  intros _ w3. apply grows_refl.
Qed.

End Reasoning.

(** ** The request a run submits *)

Section Requests.
Context {E : Type} `{Environment E}.

Lemma submitted_then_grows (w w1 w2 : World E) (request : GenerateVideosCall) :
  trace w1 = trace w ++ [EvGenerateVideos request] -> grows w1 w2 ->
  exists rest, trace w2 = trace w ++ EvGenerateVideos request :: rest.
Proof.
  intros H1 [evs H2]. exists evs. rewrite H2, H1, <- app_assoc. reflexivity.
Qed.

(** Single-video generation, once the prompt and the effective parameters
    have passed the checks, submits its request with these parameters;
    whatever follows only adds to the trace. *)
Lemma generate_video_submits
    (prompt model aspect_ratio resolution duration_seconds negative_prompt
     seed : PyVal)
    (output_filename : option string) (kwargs : gmap string PyVal)
    (w : World E) :
  let model' := py_or model (PyStr DEFAULT_MODEL) in
  let aspect_ratio' := py_or aspect_ratio (PyStr DEFAULT_ASPECT_RATIO) in
  let resolution' := py_or resolution (PyStr DEFAULT_RESOLUTION) in
  let duration_seconds' := py_or duration_seconds (PyInt DEFAULT_DURATION_SECONDS) in
  let request :=
    {| call_model := model'; call_prompt := py_str prompt; call_video := None;
       call_config :=
         video_config_params aspect_ratio' resolution' duration_seconds'
                             negative_prompt seed kwargs |} in
  truthy prompt = true -> is_str prompt = true ->
  Str.strip_is_empty (py_str prompt) = false ->
  (validate_parameters aspect_ratio' resolution' duration_seconds' model').2 = Ok tt ->
  exists rest,
    trace (generate_video prompt model aspect_ratio resolution duration_seconds
                          negative_prompt seed output_filename kwargs w).2
    = trace w ++ EvGenerateVideos request :: rest.
Proof.
  intros model' aspect_ratio' resolution' duration_seconds' request
         Ht Hs Hstrip Hval.
  change (sat (generate_video prompt model aspect_ratio resolution duration_seconds
                              negative_prompt seed output_filename kwargs) w
              (fun _ w' => exists rest,
                   trace w' = trace w ++ EvGenerateVideos request :: rest)).
  unfold generate_video. rewrite Ht, Hs, Hstrip. cbn [negb orb].
  fold model'. fold aspect_ratio'. fold resolution'. fold duration_seconds'.
  fold request.
  apply sat_bind, sat_lift_out.
  destruct (validate_parameters aspect_ratio' resolution' duration_seconds' model')
    as [out [[] | x]]; [|discriminate Hval].
  cbn [fst snd].
  set (w0 := {| env := env w; trace := trace w; stdout := stdout w ++ out |}).
  apply sat_try_except.
  eapply (sat_weaken _ _ (fun _ w' => exists rest,
                              trace w' = trace w ++ EvGenerateVideos request :: rest)).
  2:{ intros [p | e] w' Hw'; [exact Hw'|].
      destruct (is_ValueError e || is_TimeoutError e || is_RuntimeError e);
        exact Hw'. }
  apply sat_bind, sat_call. intros r e1 _.
  assert (H1 : trace (after w0 e1 [EvGenerateVideos request])
               = trace w ++ [EvGenerateVideos request]) by reflexivity.
  destruct r as [operation | x]; [|exists []; exact H1].
  eapply sat_weaken.
  2:{ intros r w2 Hg. exact (submitted_then_grows _ _ _ _ H1 Hg). }
  apply sat_grows_bind; [apply sat_grows_poll_operation|].
  intros final w2.
  destruct (response final ≫= generated_videos) as [[|g l]|];
    [apply grows_refl | | apply grows_refl].
  apply sat_grows_deliver. intros w3. apply generate_filename_world.
Qed.

(** A first scene, once its effective parameters have passed validation,
    submits its request with these parameters; whatever follows only adds
    to the trace. *)
Lemma generate_scene_first_request
    (prompt : string) (model aspect_ratio resolution : PyVal)
    (kwargs : gmap string PyVal) (w : World E) :
  let model' := py_or model (PyStr DEFAULT_MODEL) in
  let aspect_ratio' := py_or aspect_ratio (PyStr DEFAULT_ASPECT_RATIO) in
  let resolution' := py_or resolution (PyStr DEFAULT_RESOLUTION) in
  let duration_seconds := default (PyInt 8) (kwargs !! "duration_seconds") in
  let request :=
    {| call_model := model'; call_prompt := prompt; call_video := None;
       call_config :=
         scene_config_params aspect_ratio' resolution' duration_seconds kwargs |} in
  (validate_parameters aspect_ratio' resolution' duration_seconds model').2 = Ok tt ->
  exists rest,
    trace (generate_scene prompt None model aspect_ratio resolution kwargs w).2
    = trace w ++ EvGenerateVideos request :: rest.
Proof.
  intros model' aspect_ratio' resolution' duration_seconds request Hval.
  change (sat (generate_scene prompt None model aspect_ratio resolution kwargs) w
              (fun _ w' => exists rest,
                   trace w' = trace w ++ EvGenerateVideos request :: rest)).
  unfold generate_scene.
  fold model'. fold aspect_ratio'. fold resolution'. fold duration_seconds.
  fold request.
  apply sat_bind, sat_lift_out.
  destruct (validate_parameters aspect_ratio' resolution' duration_seconds model')
    as [out [[] | x]]; [|discriminate Hval].
  cbn [fst snd].
  set (w0 := {| env := env w; trace := trace w; stdout := stdout w ++ out |}).
  apply sat_bind, sat_call. intros r e1 _.
  assert (H1 : trace (after w0 e1 [EvGenerateVideos request])
               = trace w ++ [EvGenerateVideos request]) by reflexivity.
  destruct r as [operation | x]; [|exists []; exact H1].
  eapply sat_weaken.
  2:{ intros r w2 Hg. exact (submitted_then_grows _ _ _ _ H1 Hg). }
  apply sat_grows_bind; [apply sat_grows_poll_operation|].
  intros final w2.
  destruct (response final) as [r|]; [|apply grows_refl].
  destruct (generated_videos r) as [[|g l]|]; apply grows_refl.
Qed.

End Requests.

(** ** Durations of zero *)

Lemma validate_zero_duration_as_absent (a r m : PyVal) :
  validate_parameters a r (PyInt 0) m = validate_parameters a r PyNone m.
Proof. reflexivity. Qed.

(** What the first scene of a chain submits when its parameters are
    [params], none of which names the prompt or the previous video. *)
Lemma generate_scene_with_first_request {E} `{Environment E}
    (prompt : string) (params : gmap string PyVal) (w : World E) :
  let kwargs := delete "model" (delete "aspect_ratio" (delete "resolution" params)) in
  let model := py_or (default PyNone (params !! "model")) (PyStr DEFAULT_MODEL) in
  let aspect_ratio :=
    py_or (default PyNone (params !! "aspect_ratio")) (PyStr DEFAULT_ASPECT_RATIO) in
  let resolution :=
    py_or (default PyNone (params !! "resolution")) (PyStr DEFAULT_RESOLUTION) in
  let duration_seconds := default (PyInt 8) (kwargs !! "duration_seconds") in
  params !! "prompt" = None -> params !! "previous_video" = None ->
  (validate_parameters aspect_ratio resolution duration_seconds model).2 = Ok tt ->
  exists rest,
    trace (generate_scene_with prompt None params w).2
    = trace w ++
      EvGenerateVideos
        {| call_model := model; call_prompt := prompt; call_video := None;
           call_config :=
             scene_config_params aspect_ratio resolution duration_seconds kwargs |}
      :: rest.
Proof.
  intros kwargs model aspect_ratio resolution duration_seconds Hp Hv Hval.
  unfold generate_scene_with. rewrite Hp, Hv.
  rewrite !bool_decide_eq_false_2 by (intros [? ?]; discriminate).
  apply generate_scene_first_request. exact Hval.
Qed.

(** C3: a non-zero duration outside {4, 6, 8}, negative ones included,
    makes [validate_parameters] fail with [ValueError], but the duration
    0, which is not in the table either, is never checked: validation
    treats it as an absent duration and passes, and a first scene that
    asks for 0 seconds is submitted to the provider with a duration of 0,
    in every environment. *)
Theorem validate_parameters_zero_duration_unchecked {E} `{Environment E} :
  (forall (a r m : PyVal) (d : Z),
      d <> 0 -> d <> 4 /\ d <> 6 /\ d <> 8 ->
      fails_with is_ValueError (validate_parameters a r (PyInt d) m).2 = true)
  /\ py_in (PyInt 0) SUPPORTED_DURATIONS = false
  /\ (forall a r m : PyVal,
        validate_parameters a r (PyInt 0) m = validate_parameters a r PyNone m)
  /\ validate_parameters (PyStr "16:9") (PyStr "720p") (PyInt 0)
                         (PyStr DEFAULT_MODEL) = ([], Ok tt)
  /\ (forall (prompt : string) (w : World E),
        exists request rest,
          trace (generate_scene_with prompt None
                   (<["duration_seconds" := PyInt 0]> ∅) w).2
          = trace w ++ EvGenerateVideos request :: rest
          /\ call_prompt request = prompt
          /\ call_video request = None
          /\ call_config request !! "duration_seconds" = Some (PyInt 0))
  /\ (let run := extend_from_scenes zero_duration_scene None
                   (Scripted.start
                      (Scripted.script 1 (Scripted.Videos (Some 1%nat)))) in
      is_Ok run.1 = true
      /\ exists request,
           submitted_calls (trace run.2) = [request]
           /\ call_config request !! "duration_seconds" = Some (PyInt 0)).
Proof.
  split; [|split; [reflexivity|split; [|split; [reflexivity|split]]]].
  - intros a r m d H0 (H4 & H6 & H8).
    apply validate_duration_rule.
    + apply truthy_int, H0.
    + apply py_in_durations_int; assumption.
  - apply validate_zero_duration_as_absent.
  - intros prompt w.
    destruct (generate_scene_with_first_request prompt
                (<["duration_seconds" := PyInt 0]> ∅) w) as [rest Hrest];
      [reflexivity | reflexivity | reflexivity |].
    eexists _, rest. split; [exact Hrest|].
    split; [reflexivity|]. split; [reflexivity|]. vm_compute. reflexivity.
  - vm_compute. split; [reflexivity|].
    eexists. split; [reflexivity|]. reflexivity.
Qed.

Lemma validate_parameters_zero_duration_unchecked_witness :
  fails_with is_ValueError
    (validate_parameters (PyStr "16:9") (PyStr "720p") (PyInt (-4))
                         (PyStr DEFAULT_MODEL)).2 = true.
Proof.
  destruct (@validate_parameters_zero_duration_unchecked Scripted.Script _)
    as [Hrejected _].
  apply Hrejected; lia.
Defined.

(** C8: with resolution 1080p a non-zero duration other than 8 fails with
    [ValueError]; a model outside the catalog never turns a success into
    a failure and only adds its warning; 1080p with 9:16 succeeds and
    prints the advisory.  But a supplied duration of 0, which differs
    from 8, passes the 1080p rule as an absent duration does, and a first
    scene that asks for 1080p and 0 seconds is submitted to the provider
    as such, in every environment. *)
Theorem validate_parameters_1080p_zero_duration_unchecked {E} `{Environment E} :
  (forall (a m : PyVal) (d : Z),
      d <> 0 -> d <> 8 ->
      fails_with is_ValueError
        (validate_parameters a (PyStr "1080p") (PyInt d) m).2 = true)
  /\ (forall (a r d m : PyVal) (out : list string),
        truthy m = true -> py_in m SUPPORTED_MODELS = false ->
        validate_parameters a r d PyNone = (out, Ok tt) ->
        validate_parameters a r d m
        = (model_warning_1 m :: model_warning_2 :: out, Ok tt))
  /\ (forall (d m : PyVal),
        truthy d = false \/ d = PyInt 8 ->
        (validate_parameters (PyStr "9:16") (PyStr "1080p") d m).2 = Ok tt
        /\ portrait_1080p_warning
             ∈ (validate_parameters (PyStr "9:16") (PyStr "1080p") d m).1)
  /\ (forall a m : PyVal,
        validate_parameters a (PyStr "1080p") (PyInt 0) m
        = validate_parameters a (PyStr "1080p") PyNone m)
  /\ validate_parameters (PyStr "16:9") (PyStr "1080p") (PyInt 0)
                         (PyStr DEFAULT_MODEL) = ([], Ok tt)
  /\ (forall (prompt : string) (w : World E),
        exists request rest,
          trace (generate_scene_with prompt None
                   (<["duration_seconds" := PyInt 0]>
                      (<["resolution" := PyStr "1080p"]> ∅)) w).2
          = trace w ++ EvGenerateVideos request :: rest
          /\ call_prompt request = prompt
          /\ call_config request !! "resolution" = Some (PyStr "1080p")
          /\ call_config request !! "duration_seconds" = Some (PyInt 0))
  /\ (let run := extend_from_scenes zero_duration_1080p_scene None
                   (Scripted.start
                      (Scripted.script 1 (Scripted.Videos (Some 1%nat)))) in
      is_Ok run.1 = true
      /\ exists request,
           submitted_calls (trace run.2) = [request]
           /\ call_config request !! "resolution" = Some (PyStr "1080p")
           /\ call_config request !! "duration_seconds" = Some (PyInt 0)).
Proof.
  split; [|split; [|split; [|split; [|split; [reflexivity|split]]]]].
  - intros a m d H0 H8. apply validate_1080p_rule.
    + apply truthy_int, H0.
    + simpl. apply Z.eqb_neq, H8.
  - apply validate_unknown_model.
  - apply validate_portrait_1080p.
  - intros a m. apply validate_zero_duration_as_absent.
  - intros prompt w.
    destruct (generate_scene_with_first_request prompt
                (<["duration_seconds" := PyInt 0]>
                   (<["resolution" := PyStr "1080p"]> ∅)) w) as [rest Hrest];
      [reflexivity | reflexivity | reflexivity |].
    eexists _, rest. split; [exact Hrest|].
    split; [reflexivity|]. split; vm_compute; reflexivity.
  - vm_compute. split; [reflexivity|].
    eexists. split; [reflexivity|]. split; reflexivity.
Qed.

Lemma validate_parameters_1080p_zero_duration_unchecked_witness :
  fails_with is_ValueError
    (validate_parameters (PyStr "16:9") (PyStr "1080p") (PyInt 4)
                         (PyStr DEFAULT_MODEL)).2 = true
  /\ validate_parameters (PyStr "16:9") (PyStr "720p") (PyInt 8)
                         (PyStr "veo-9.9-experimental")
     = ([model_warning_1 (PyStr "veo-9.9-experimental"); model_warning_2], Ok tt)
  /\ (validate_parameters (PyStr "9:16") (PyStr "1080p") (PyInt 8)
                          (PyStr DEFAULT_MODEL)).2 = Ok tt.
Proof.
  destruct (@validate_parameters_1080p_zero_duration_unchecked Scripted.Script _)
    as (Hfatal & Hmodel & Hportrait & _).
  split; [|split].
  - apply Hfatal; lia.
  - apply Hmodel; reflexivity.
  - apply Hportrait. right. reflexivity.
Defined.

(** ** Defaults in single-video generation: the run *)

(** With the default duration, validation fails only on the aspect ratio
    or on the resolution. *)
Lemma validate_default_duration_blameless (a r m : PyVal) (e : exn) :
  (validate_parameters a r (PyInt DEFAULT_DURATION_SECONDS) m).2 = Raise e ->
  e = ValueError "Invalid aspect_ratio. Must be one of: ['16:9', '9:16']"
  \/ e = ValueError "Invalid resolution. Must be one of: ['720p', '1080p']".
Proof.
  unfold validate_parameters. unfold_out.
  destruct (truthy a && negb (py_in a SUPPORTED_ASPECT_RATIOS));
    [intros [= <-]; left; reflexivity|].
  destruct (truthy r && negb (py_in r SUPPORTED_RESOLUTIONS));
    [intros [= <-]; right; reflexivity|].
  change (truthy (PyInt DEFAULT_DURATION_SECONDS)
          && negb (py_in (PyInt DEFAULT_DURATION_SECONDS) SUPPORTED_DURATIONS))
    with false.
  replace (py_eq r (PyStr "1080p") && truthy (PyInt DEFAULT_DURATION_SECONDS)
           && negb (py_eq (PyInt DEFAULT_DURATION_SECONDS) (PyInt 8)))
    with false by (destruct (py_eq r (PyStr "1080p")); reflexivity).
  destruct (truthy m && negb (py_in m SUPPORTED_MODELS));
    destruct (py_eq r (PyStr "1080p") && py_eq a (PyStr "9:16")); discriminate.
Qed.

(** With the default aspect ratio, validation fails only on the
    resolution or on the duration. *)
Lemma validate_default_aspect_ratio_blameless (r d m : PyVal) (e : exn) :
  (validate_parameters (PyStr DEFAULT_ASPECT_RATIO) r d m).2 = Raise e ->
  e = ValueError "Invalid resolution. Must be one of: ['720p', '1080p']"
  \/ e = ValueError "Invalid duration_seconds. Must be one of: [4, 6, 8]"
  \/ e = ValueError "1080p resolution only supports 8 second duration".
Proof.
  unfold validate_parameters. unfold_out.
  change (truthy (PyStr DEFAULT_ASPECT_RATIO)
          && negb (py_in (PyStr DEFAULT_ASPECT_RATIO) SUPPORTED_ASPECT_RATIOS))
    with false.
  destruct (truthy r && negb (py_in r SUPPORTED_RESOLUTIONS));
    [intros [= <-]; left; reflexivity|].
  destruct (truthy d && negb (py_in d SUPPORTED_DURATIONS));
    [intros [= <-]; right; left; reflexivity|].
  destruct (truthy m && negb (py_in m SUPPORTED_MODELS));
    destruct (py_eq r (PyStr "1080p") && truthy d && negb (py_eq d (PyInt 8)));
    try (intros [= <-]; right; right; reflexivity);
    destruct (py_eq r (PyStr "1080p")
              && py_eq (PyStr DEFAULT_ASPECT_RATIO) (PyStr "9:16")); discriminate.
Qed.

(** With the default resolution, validation fails only on the aspect
    ratio or on the duration table. *)
Lemma validate_default_resolution_blameless (a d m : PyVal) (e : exn) :
  (validate_parameters a (PyStr DEFAULT_RESOLUTION) d m).2 = Raise e ->
  e = ValueError "Invalid aspect_ratio. Must be one of: ['16:9', '9:16']"
  \/ e = ValueError "Invalid duration_seconds. Must be one of: [4, 6, 8]".
Proof.
  unfold validate_parameters. unfold_out.
  destruct (truthy a && negb (py_in a SUPPORTED_ASPECT_RATIOS));
    [intros [= <-]; left; reflexivity|].
  change (truthy (PyStr DEFAULT_RESOLUTION)
          && negb (py_in (PyStr DEFAULT_RESOLUTION) SUPPORTED_RESOLUTIONS))
    with false.
  destruct (truthy d && negb (py_in d SUPPORTED_DURATIONS));
    [intros [= <-]; right; reflexivity|].
  change (py_eq (PyStr DEFAULT_RESOLUTION) (PyStr "1080p")) with false.
  destruct (truthy m && negb (py_in m SUPPORTED_MODELS)); discriminate.
Qed.

(** The basic entries of the configuration, unless [kwargs] names them. *)
Lemma video_config_params_basic
    (a r d negative_prompt seed : PyVal) (kwargs : gmap string PyVal) :
  (kwargs !! "aspect_ratio" = None ->
   video_config_params a r d negative_prompt seed kwargs !! "aspect_ratio" = Some a)
  /\ (kwargs !! "resolution" = None ->
      video_config_params a r d negative_prompt seed kwargs !! "resolution" = Some r)
  /\ (kwargs !! "duration_seconds" = None ->
      video_config_params a r d negative_prompt seed kwargs !! "duration_seconds"
      = Some d).
Proof.
  unfold video_config_params.
  repeat split; intros Hk; rewrite lookup_union, Hk;
    destruct (truthy negative_prompt); destruct seed;
    rewrite ?lookup_insert_ne by discriminate;
    rewrite ?lookup_insert_eq; reflexivity.
Qed.

(** C10: in [generate_video] a duration of 0 and an empty-string model,
    aspect ratio or resolution behave exactly as an unset argument and as
    the default value (8, veo-3.1-generate-preview, 16:9, 720p), which
    replaces them before validation.  Validation treats each default as
    it treats an absent value and never blames it: with the default in a
    field, a failure names another field.  So for a prompt that passes
    its checks, in every environment, a call with all four arguments
    falsy passes validation and submits its request with the four
    defaults; and a call with one argument falsy, whose other arguments
    pass, submits its request with the default in that field.  The
    request carries the model and, unless [kwargs] names them, the aspect
    ratio, resolution and duration it was built from. *)
Theorem generate_video_falsy_arguments_are_defaults
    {E} `{Environment E}
    (prompt model aspect_ratio resolution duration_seconds negative_prompt
     seed : PyVal)
    (output_filename : option string) (kwargs : gmap string PyVal) :
  let run m a r d :=
    generate_video prompt m a r d negative_prompt seed output_filename kwargs in
  let request m a r d :=
    {| call_model := m; call_prompt := py_str prompt; call_video := None;
       call_config := video_config_params a r d negative_prompt seed kwargs |} in
  let accepted :=
    truthy prompt = true /\ is_str prompt = true
    /\ Str.strip_is_empty (py_str prompt) = false in
  let m' := py_or model (PyStr DEFAULT_MODEL) in
  let a' := py_or aspect_ratio (PyStr DEFAULT_ASPECT_RATIO) in
  let r' := py_or resolution (PyStr DEFAULT_RESOLUTION) in
  let d' := py_or duration_seconds (PyInt DEFAULT_DURATION_SECONDS) in
  (run model aspect_ratio resolution (PyInt 0)
     = run model aspect_ratio resolution PyNone
   /\ run model aspect_ratio resolution PyNone
     = run model aspect_ratio resolution (PyInt DEFAULT_DURATION_SECONDS))
  /\ (run (PyStr EmptyString) aspect_ratio resolution duration_seconds
        = run PyNone aspect_ratio resolution duration_seconds
      /\ run PyNone aspect_ratio resolution duration_seconds
        = run (PyStr DEFAULT_MODEL) aspect_ratio resolution duration_seconds)
  /\ (run model (PyStr EmptyString) resolution duration_seconds
        = run model PyNone resolution duration_seconds
      /\ run model PyNone resolution duration_seconds
        = run model (PyStr DEFAULT_ASPECT_RATIO) resolution duration_seconds)
  /\ (run model aspect_ratio (PyStr EmptyString) duration_seconds
        = run model aspect_ratio PyNone duration_seconds
      /\ run model aspect_ratio PyNone duration_seconds
        = run model aspect_ratio (PyStr DEFAULT_RESOLUTION) duration_seconds)
  /\ (forall a r m,
        validate_parameters a r (PyInt DEFAULT_DURATION_SECONDS) m
        = validate_parameters a r PyNone m)
  /\ (forall a r d,
        validate_parameters a r d (PyStr DEFAULT_MODEL)
        = validate_parameters a r d PyNone)
  /\ (forall r d m,
        validate_parameters (PyStr DEFAULT_ASPECT_RATIO) r d m
        = validate_parameters PyNone r d m)
  /\ (forall a d m,
        validate_parameters a (PyStr DEFAULT_RESOLUTION) d m
        = validate_parameters a PyNone d m)
  /\ (forall a r m e,
        (validate_parameters a r (PyInt DEFAULT_DURATION_SECONDS) m).2 = Raise e ->
        e = ValueError "Invalid aspect_ratio. Must be one of: ['16:9', '9:16']"
        \/ e = ValueError "Invalid resolution. Must be one of: ['720p', '1080p']")
  /\ (forall r d m e,
        (validate_parameters (PyStr DEFAULT_ASPECT_RATIO) r d m).2 = Raise e ->
        e = ValueError "Invalid resolution. Must be one of: ['720p', '1080p']"
        \/ e = ValueError "Invalid duration_seconds. Must be one of: [4, 6, 8]"
        \/ e = ValueError "1080p resolution only supports 8 second duration")
  /\ (forall a d m e,
        (validate_parameters a (PyStr DEFAULT_RESOLUTION) d m).2 = Raise e ->
        e = ValueError "Invalid aspect_ratio. Must be one of: ['16:9', '9:16']"
        \/ e = ValueError "Invalid duration_seconds. Must be one of: [4, 6, 8]")
  /\ validate_parameters (PyStr DEFAULT_ASPECT_RATIO) (PyStr DEFAULT_RESOLUTION)
                         (PyInt DEFAULT_DURATION_SECONDS) (PyStr DEFAULT_MODEL)
     = ([], Ok tt)
  /\ (forall m a r d,
        call_model (request m a r d) = m
        /\ (kwargs !! "aspect_ratio" = None ->
            call_config (request m a r d) !! "aspect_ratio" = Some a)
        /\ (kwargs !! "resolution" = None ->
            call_config (request m a r d) !! "resolution" = Some r)
        /\ (kwargs !! "duration_seconds" = None ->
            call_config (request m a r d) !! "duration_seconds" = Some d))
  /\ (forall w : World E,
        accepted ->
        exists rest,
          trace (run (PyStr EmptyString) (PyStr EmptyString) (PyStr EmptyString)
                     (PyInt 0) w).2
          = trace w ++
            EvGenerateVideos
              (request (PyStr DEFAULT_MODEL) (PyStr DEFAULT_ASPECT_RATIO)
                       (PyStr DEFAULT_RESOLUTION) (PyInt DEFAULT_DURATION_SECONDS))
            :: rest)
  /\ (forall w : World E,
        accepted ->
        (validate_parameters a' r' (PyInt DEFAULT_DURATION_SECONDS) m').2 = Ok tt ->
        exists rest,
          trace (run model aspect_ratio resolution (PyInt 0) w).2
          = trace w ++
            EvGenerateVideos (request m' a' r' (PyInt DEFAULT_DURATION_SECONDS))
            :: rest)
  /\ (forall w : World E,
        accepted ->
        (validate_parameters a' r' d' (PyStr DEFAULT_MODEL)).2 = Ok tt ->
        exists rest,
          trace (run (PyStr EmptyString) aspect_ratio resolution duration_seconds w).2
          = trace w ++ EvGenerateVideos (request (PyStr DEFAULT_MODEL) a' r' d') :: rest)
  /\ (forall w : World E,
        accepted ->
        (validate_parameters (PyStr DEFAULT_ASPECT_RATIO) r' d' m').2 = Ok tt ->
        exists rest,
          trace (run model (PyStr EmptyString) resolution duration_seconds w).2
          = trace w ++
            EvGenerateVideos (request m' (PyStr DEFAULT_ASPECT_RATIO) r' d') :: rest)
  /\ (forall w : World E,
        accepted ->
        (validate_parameters a' (PyStr DEFAULT_RESOLUTION) d' m').2 = Ok tt ->
        exists rest,
          trace (run model aspect_ratio (PyStr EmptyString) duration_seconds w).2
          = trace w ++
            EvGenerateVideos (request m' a' (PyStr DEFAULT_RESOLUTION) d') :: rest).
Proof.
  intros run request accepted m' a' r' d'.
  split; [split; reflexivity|].
  split; [split; reflexivity|].
  split; [split; reflexivity|].
  split; [split; reflexivity|].
  split; [apply validate_default_duration|].
  split; [reflexivity|]. split; [reflexivity|]. split; [reflexivity|].
  split; [apply validate_default_duration_blameless|].
  split; [apply validate_default_aspect_ratio_blameless|].
  split; [apply validate_default_resolution_blameless|].
  split; [reflexivity|].
  split; [intros m a r d; split; [reflexivity | apply video_config_params_basic]|].
  split; [|split; [|split; [|split]]].
  - intros w (Ht & Hs & Hstrip).
    exact (generate_video_submits prompt (PyStr EmptyString) (PyStr EmptyString)
             (PyStr EmptyString) (PyInt 0) negative_prompt seed output_filename
             kwargs w Ht Hs Hstrip eq_refl).
  - intros w (Ht & Hs & Hstrip) Hval.
    exact (generate_video_submits prompt model aspect_ratio resolution (PyInt 0)
             negative_prompt seed output_filename kwargs w Ht Hs Hstrip Hval).
  - intros w (Ht & Hs & Hstrip) Hval.
    exact (generate_video_submits prompt (PyStr EmptyString) aspect_ratio resolution
             duration_seconds negative_prompt seed output_filename kwargs w
             Ht Hs Hstrip Hval).
  - intros w (Ht & Hs & Hstrip) Hval.
    exact (generate_video_submits prompt model (PyStr EmptyString) resolution
             duration_seconds negative_prompt seed output_filename kwargs w
             Ht Hs Hstrip Hval).
  - intros w (Ht & Hs & Hstrip) Hval.
    exact (generate_video_submits prompt model aspect_ratio (PyStr EmptyString)
             duration_seconds negative_prompt seed output_filename kwargs w
             Ht Hs Hstrip Hval).
Qed.

Lemma generate_video_falsy_arguments_are_defaults_witness :
  exists rest,
    trace (generate_video (PyStr lion) (PyStr EmptyString) (PyStr EmptyString)
             (PyStr EmptyString) (PyInt 0) PyNone PyNone None ∅
             (Scripted.start (Scripted.script 1 (Scripted.Videos (Some 1%nat))))).2
    = [] ++
      EvGenerateVideos
        {| call_model := PyStr DEFAULT_MODEL; call_prompt := lion;
           call_video := None;
           call_config :=
             video_config_params (PyStr DEFAULT_ASPECT_RATIO)
               (PyStr DEFAULT_RESOLUTION) (PyInt DEFAULT_DURATION_SECONDS)
               PyNone PyNone ∅ |}
      :: rest.
Proof.
  destruct (@generate_video_falsy_arguments_are_defaults Scripted.Script _
              (PyStr lion) PyNone PyNone PyNone PyNone PyNone PyNone None ∅)
    as (_ & _ & _ & _ & _ & _ & _ & _ & _ & _ & _ & _ & _ & Hall & _).
  apply (Hall (Scripted.start (Scripted.script 1 (Scripted.Videos (Some 1%nat))))).
  repeat split.
Defined.

(** All four arguments given as 0 or empty strings: validation passes
    and the one request carries the defaults. *)
Example generate_video_falsy_arguments_run :
  let run := generate_video (PyStr lion) (PyStr EmptyString) (PyStr EmptyString)
               (PyStr EmptyString) (PyInt 0) PyNone PyNone None ∅
               (Scripted.start (Scripted.script 1 (Scripted.Videos (Some 1%nat)))) in
  is_Ok run.1 = true
  /\ exists c, submitted_calls (trace run.2) = [c]
     /\ call_model c = PyStr DEFAULT_MODEL
     /\ call_config c !! "aspect_ratio" = Some (PyStr DEFAULT_ASPECT_RATIO)
     /\ call_config c !! "resolution" = Some (PyStr DEFAULT_RESOLUTION)
     /\ call_config c !! "duration_seconds" = Some (PyInt DEFAULT_DURATION_SECONDS).
Proof.
  vm_compute. split; [reflexivity|].
  eexists. split; [reflexivity|]. repeat split.
Qed.

(** * Further properties *)

(** ** Parameter validation, continued *)

(** The model only adds warning lines: it never changes the outcome. *)
Theorem validate_parameters_model_irrelevant (a r d m m' : PyVal) :
  (validate_parameters a r d m).2 = (validate_parameters a r d m').2.
Proof.
  unfold validate_parameters. unfold_out.
  destruct (truthy a && negb (py_in a SUPPORTED_ASPECT_RATIOS)); [reflexivity|].
  destruct (truthy r && negb (py_in r SUPPORTED_RESOLUTIONS)); [reflexivity|].
  destruct (truthy d && negb (py_in d SUPPORTED_DURATIONS)); [reflexivity|].
  destruct (truthy m && negb (py_in m SUPPORTED_MODELS));
    destruct (truthy m' && negb (py_in m' SUPPORTED_MODELS));
    destruct (py_eq r (PyStr "1080p") && truthy d && negb (py_eq d (PyInt 8)));
    try reflexivity;
    destruct (py_eq r (PyStr "1080p") && py_eq a (PyStr "9:16")); reflexivity.
Qed.

Lemma validate_raises_only_ValueError (a r d m : PyVal) :
  raises_only is_ValueError (validate_parameters a r d m).2 = true.
Proof.
  unfold validate_parameters. unfold_out.
  destruct (truthy a && negb (py_in a SUPPORTED_ASPECT_RATIOS)); [reflexivity|].
  destruct (truthy r && negb (py_in r SUPPORTED_RESOLUTIONS)); [reflexivity|].
  destruct (truthy d && negb (py_in d SUPPORTED_DURATIONS)); [reflexivity|].
  destruct (truthy m && negb (py_in m SUPPORTED_MODELS));
    destruct (py_eq r (PyStr "1080p") && truthy d && negb (py_eq d (PyInt 8)));
    try reflexivity;
    destruct (py_eq r (PyStr "1080p") && py_eq a (PyStr "9:16")); reflexivity.
Qed.

Lemma supported_duration_inv (d : PyVal) :
  py_in d SUPPORTED_DURATIONS = true -> d = PyInt 4 \/ d = PyInt 6 \/ d = PyInt 8.
Proof.
  unfold py_in, SUPPORTED_DURATIONS. simpl. rewrite !orb_true_iff.
  destruct d as [|[]|z|s]; simpl; try (intros [H|[H|[H|H]]]; discriminate).
  rewrite !Z.eqb_eq. intros [->|[->|[->|H]]]; auto. discriminate.
Qed.

Lemma supported_resolution_inv (r : PyVal) :
  py_in r SUPPORTED_RESOLUTIONS = true -> r = PyStr "720p" \/ r = PyStr "1080p".
Proof.
  unfold py_in, SUPPORTED_RESOLUTIONS. simpl. rewrite !orb_true_iff.
  destruct r as [|[]|z|s]; simpl; try (intros [H|[H|H]]; discriminate).
  intros [H|[H|H]]; [left|right|discriminate]; apply String.eqb_eq in H; congruence.
Qed.

Lemma supported_aspect_ratio_inv (a : PyVal) :
  py_in a SUPPORTED_ASPECT_RATIOS = true -> a = PyStr "16:9" \/ a = PyStr "9:16".
Proof.
  unfold py_in, SUPPORTED_ASPECT_RATIOS. simpl. rewrite !orb_true_iff.
  destruct a as [|[]|z|s]; simpl; try (intros [H|[H|H]]; discriminate).
  intros [H|[H|H]]; [left|right|discriminate]; apply String.eqb_eq in H; congruence.
Qed.

(** For values taken from the supported tables, validation fails exactly
    for 1080p with a duration other than 8, and the only line it can print
    for a known model is the 1080p with 9:16 advisory. *)
Theorem validate_parameters_supported_values (a r d m : PyVal) :
  py_in a SUPPORTED_ASPECT_RATIOS = true ->
  py_in r SUPPORTED_RESOLUTIONS = true ->
  py_in d SUPPORTED_DURATIONS = true ->
  py_in m SUPPORTED_MODELS = true ->
  validate_parameters a r d m
  = if py_eq r (PyStr "1080p") && negb (py_eq d (PyInt 8))
    then ([], Raise (ValueError "1080p resolution only supports 8 second duration"))
    else if py_eq r (PyStr "1080p") && py_eq a (PyStr "9:16")
         then ([portrait_1080p_warning], Ok tt)
         else ([], Ok tt).
Proof.
  intros Ha Hr Hd Hm.
  unfold validate_parameters. unfold_out. rewrite Ha, Hr, Hd, Hm.
  rewrite !andb_false_r.
  destruct (supported_duration_inv d Hd) as [-> | [-> | ->]];
    destruct (supported_resolution_inv r Hr) as [-> | ->];
    destruct (supported_aspect_ratio_inv a Ha) as [-> | ->]; reflexivity.
Qed.

Lemma validate_parameters_supported_values_witness :
  validate_parameters (PyStr "9:16") (PyStr "1080p") (PyInt 6)
                      (PyStr "veo-3.0-generate-001")
  = ([], Raise (ValueError "1080p resolution only supports 8 second duration")).
Proof.
  apply (validate_parameters_supported_values (PyStr "9:16") (PyStr "1080p")
           (PyInt 6) (PyStr "veo-3.0-generate-001")); reflexivity.
Defined.

(** The three table checks run in the order aspect ratio, resolution,
    duration, and the first one that fails decides the message; nothing
    is printed before it, whatever the model is. *)
Theorem validate_parameters_first_rule_wins (a r d m : PyVal) :
  (truthy a = true -> py_in a SUPPORTED_ASPECT_RATIOS = false ->
   validate_parameters a r d m
   = ([], Raise (ValueError "Invalid aspect_ratio. Must be one of: ['16:9', '9:16']")))
  /\ (truthy a = false \/ py_in a SUPPORTED_ASPECT_RATIOS = true ->
      truthy r = true -> py_in r SUPPORTED_RESOLUTIONS = false ->
      validate_parameters a r d m
      = ([], Raise (ValueError "Invalid resolution. Must be one of: ['720p', '1080p']")))
  /\ (truthy a = false \/ py_in a SUPPORTED_ASPECT_RATIOS = true ->
      truthy r = false \/ py_in r SUPPORTED_RESOLUTIONS = true ->
      truthy d = true -> py_in d SUPPORTED_DURATIONS = false ->
      validate_parameters a r d m
      = ([], Raise (ValueError "Invalid duration_seconds. Must be one of: [4, 6, 8]"))).
Proof.
  assert (Hskip : forall v l,
             truthy v = false \/ py_in v l = true -> truthy v && negb (py_in v l) = false).
  { intros v l [-> | ->]; [reflexivity | apply andb_false_r]. }
  unfold validate_parameters. unfold_out.
  split; [|split].
  - intros -> ->. reflexivity.
  - intros Ha -> ->. rewrite (Hskip _ _ Ha). reflexivity.
  - intros Ha Hr -> ->. rewrite (Hskip _ _ Ha), (Hskip _ _ Hr). reflexivity.
Qed.

Lemma validate_parameters_first_rule_wins_witness :
  validate_parameters (PyStr "4:3") (PyStr "4k") (PyInt 5) (PyStr "veo-9")
  = ([], Raise (ValueError "Invalid aspect_ratio. Must be one of: ['16:9', '9:16']"))
  /\ validate_parameters PyNone (PyStr "4k") (PyInt 5) (PyStr "veo-9")
     = ([], Raise (ValueError "Invalid resolution. Must be one of: ['720p', '1080p']"))
  /\ validate_parameters (PyStr "16:9") PyNone (PyInt 5) (PyStr "veo-9")
     = ([], Raise (ValueError "Invalid duration_seconds. Must be one of: [4, 6, 8]")).
Proof.
  split; [|split].
  - apply (validate_parameters_first_rule_wins (PyStr "4:3")); reflexivity.
  - apply (validate_parameters_first_rule_wins PyNone (PyStr "4k"));
      [left; reflexivity | reflexivity ..].
  - apply (validate_parameters_first_rule_wins (PyStr "16:9") PyNone (PyInt 5));
      [right; reflexivity | left; reflexivity | reflexivity ..].
Defined.

(** ** File names, continued *)

Lemma length_take (n : nat) (s : string) :
  String.length (Str.take n s) = Nat.min n (String.length s).
Proof.
  revert s. induction n as [|n IH]; intros [|c s]; simpl; try reflexivity.
  rewrite IH. reflexivity.
Qed.

Lemma all_chars_take (p : ascii -> bool) (n : nat) (s : string) :
  all_chars p s = true -> all_chars p (Str.take n s) = true.
Proof.
  revert s. induction n as [|n IH]; intros [|c s]; simpl; try reflexivity.
  intros [Hc Hs]%andb_true_iff. rewrite Hc. simpl. apply IH, Hs.
Qed.

Lemma length_le_bytes (n : nat) (x : Z) : length (hashlib.le_bytes n x) = n.
Proof. unfold hashlib.le_bytes. rewrite length_map, length_seq. reflexivity. Qed.

Lemma le_bytes_range (n : nat) (x : Z) :
  Forall (fun b => 0 <= b < 256) (hashlib.le_bytes n x).
Proof.
  unfold hashlib.le_bytes. apply Forall_map, Forall_forall. intros i _. simpl.
  change 255 with (Z.ones 8). rewrite Z.land_ones by lia.
  apply Z.mod_pos_bound. lia.
Qed.

Lemma digest_shape (msg : list Z) :
  length (hashlib.digest msg) = 16%nat
  /\ Forall (fun b => 0 <= b < 256) (hashlib.digest msg).
Proof.
  unfold hashlib.digest.
  destruct (foldl hashlib.block _ _) as [[[a b] c] d].
  split.
  - rewrite !length_app, !length_le_bytes. reflexivity.
  - repeat apply Forall_app_2; apply le_bytes_range.
Qed.

Lemma hex_digit_lower (n : Z) :
  0 <= n < 16 -> is_lower_hex (hashlib.hex_digit n) = true.
Proof.
  intros Hn. rewrite <- (Z2Nat.id n) by lia.
  assert (Hk : (Z.to_nat n < 16)%nat) by lia.
  revert Hk. generalize (Z.to_nat n) as k. intros k Hk.
  do 16 (destruct k as [|k]; [reflexivity|]). lia.
Qed.

Lemma hex_shape (bytes : list Z) :
  Forall (fun b => 0 <= b < 256) bytes ->
  String.length (hashlib.hex bytes) = (2 * length bytes)%nat
  /\ all_chars is_lower_hex (hashlib.hex bytes) = true.
Proof.
  induction 1 as [|b bytes Hb _ [IHl IHc]]; [split; reflexivity|].
  split.
  - cbn [hashlib.hex String.length length]. rewrite IHl. lia.
  - cbn [hashlib.hex all_chars]. rewrite IHc.
    rewrite !hex_digit_lower; [reflexivity| |].
    + change 15 with (Z.ones 4). rewrite Z.land_ones by lia.
      apply Z.mod_pos_bound. lia.
    + rewrite Z.shiftr_div_pow2 by lia. change (2 ^ 4) with 16.
      split; [apply Z.div_pos; lia | apply Z.div_lt_upper_bound; lia].
Qed.

(** Every MD5 digest prints as 32 lower-case hexadecimal characters. *)
Lemma md5_hexdigest_shape (data : list Z) :
  String.length (hashlib.md5_hexdigest data) = 32%nat
  /\ all_chars is_lower_hex (hashlib.md5_hexdigest data) = true.
Proof.
  unfold hashlib.md5_hexdigest.
  destruct (digest_shape data) as [Hlen Hrange].
  destruct (hex_shape _ Hrange) as [Hl Hc]. rewrite Hl, Hlen. auto.
Qed.

Lemma replace_dot_go (s : string) :
  Str.has_char "." (Str.replace_go "." "_" s 0) = false.
Proof.
  induction s as [|c s IH]; [reflexivity|].
  cbn [Str.replace_go String.prefix].
  destruct (ascii_dec "." c) as [<- | Hne].
  - destruct s; cbn [String.length Nat.sub]; exact IH.
  - cbn [Str.has_char]. rewrite IH, orb_false_r.
    apply Ascii.eqb_neq. congruence.
Qed.

Lemma replace_dot_no_dot (s : string) :
  Str.has_char "." (Str.replace "." "_" s) = false.
Proof. apply replace_dot_go. Qed.

Lemma lstrip_dots (ext : string) :
  String.prefix "." (Str.lstrip ["."%char] ext) = false
  /\ exists k, ext = dots k +:+ Str.lstrip ["."%char] ext.
Proof.
  induction ext as [|c ext [IHp [k IHk]]]; [split; [reflexivity | exists O; reflexivity]|].
  cbn [Str.lstrip].
  destruct (decide (c = "."%char)) as [-> | Hne].
  - rewrite bool_decide_eq_true_2 by (apply list_elem_of_In; left; reflexivity).
    split; [exact IHp|]. exists (S k).
    change (dots (S k) +:+ Str.lstrip ["."%char] ext)
      with (String "."%char (dots k +:+ Str.lstrip ["."%char] ext)).
    f_equal. exact IHk.
  - rewrite bool_decide_eq_false_2
      by (intros [? | []]%list_elem_of_In; congruence).
    split; [|exists O; reflexivity].
    cbn [String.prefix]. destruct (ascii_dec "." c); [congruence | reflexivity].
Qed.

Lemma lstrip_dots_append (k : nat) (ext : string) :
  Str.lstrip ["."%char] (dots k +:+ ext) = Str.lstrip ["."%char] ext.
Proof.
  induction k as [|k IH]; [reflexivity|].
  change (dots (S k) +:+ ext) with (String "."%char (dots k +:+ ext)).
  cbn [Str.lstrip].
  rewrite bool_decide_eq_true_2 by (apply list_elem_of_In; left; reflexivity).
  exact IH.
Qed.

(** For a non-empty prompt and model, [generate_filename] succeeds, leaves
    the world alone, and the name is the timestamp, a model tag without
    dots, eight lower-case hexadecimal characters, a dot and the extension
    without its leading dots. *)
Theorem generate_filename_structure
    {E} `{Environment E} (prompt model extension : string) (w : World E) :
  prompt <> EmptyString -> model <> EmptyString ->
  exists tag hash ext : string,
    generate_filename (PyStr prompt) (PyStr model) extension w
    = (Ok (strftime_stamp (datetime_now (env w)) +:+ "_" +:+ tag +:+ "_"
           +:+ hash +:+ "." +:+ ext), w)
    /\ Str.has_char "." tag = false
    /\ String.length hash = 8%nat
    /\ all_chars is_lower_hex hash = true
    /\ String.prefix "." ext = false
    /\ exists k, extension = dots k +:+ ext.
Proof.
  intros Hp Hm. unfold generate_filename. cbn [truthy is_str py_str].
  destruct (String.eqb_spec prompt EmptyString) as [? | _]; [contradiction|].
  destruct (String.eqb_spec model EmptyString) as [? | _]; [contradiction|].
  cbn [negb orb].
  destruct (md5_hexdigest_shape (Str.encode_utf8 prompt)) as [Hlen Hhex].
  destruct (lstrip_dots extension) as [Hpre Hk].
  eexists _, _, _. split; [reflexivity|].
  split; [apply replace_dot_no_dot|].
  split; [rewrite length_take, Hlen; reflexivity|].
  split; [apply all_chars_take, Hhex|].
  split; [exact Hpre | exact Hk].
Qed.

(** Leading dots of the extension do not matter: ["mp4"], [".mp4"] and
    ["..mp4"] give the same name. *)
Theorem generate_filename_extension_dots
    {E} `{Environment E} (prompt model : PyVal) (extension : string) (k : nat) :
  generate_filename prompt model (dots k +:+ extension)
  = generate_filename prompt model extension.
Proof.
  unfold generate_filename. rewrite lstrip_dots_append. reflexivity.
Qed.

(** ** Output paths, continued *)

Lemma split_append (sep : ascii) (d s : string) :
  Str.split sep (d +:+ String sep s) = Str.split sep d ++ Str.split sep s.
Proof.
  induction d as [|c d IH].
  - change (EmptyString +:+ String sep s) with (String sep s).
    cbn [Str.split]. rewrite Ascii.eqb_refl. reflexivity.
  - change (String c d +:+ String sep s) with (String c (d +:+ String sep s)).
    cbn [Str.split]. rewrite IH.
    destruct (Ascii.eqb c sep); [reflexivity|].
    destruct (Str.split sep d) as [|x rest] eqn:Hd.
    + exfalso. exact (split_nonempty sep d Hd).
    + reflexivity.
Qed.

Lemma last_app_singleton {A} (l : list A) (x d : A) : List.last (l ++ [x]) d = x.
Proof. apply List.last_last. Qed.

(** The final component of [directory/n] is [n]. *)
Lemma name_of_prefixed (directory n : string) :
  pathlib.keep_part n = true -> Str.has_char "/" n = false ->
  pathlib.name (pathlib.Path (directory +:+ String "/"%char n)) = n.
Proof.
  intros Hk Hs. unfold pathlib.name, pathlib.Path. cbn [pathlib.parts].
  rewrite split_append, (split_no_sep _ _ Hs), List.filter_app.
  cbn [List.filter]. rewrite Hk. apply last_app_singleton.
Qed.

Lemma name_of_component (n : string) :
  pathlib.keep_part n = true -> Str.has_char "/" n = false ->
  pathlib.name (pathlib.Path n) = n.
Proof.
  intros Hk Hs. rewrite (Path_of_component n Hk Hs). reflexivity.
Qed.

Lemma keep_part_nonempty (n : string) : pathlib.keep_part n = true -> n <> EmptyString.
Proof. intros Hk ->. discriminate Hk. Qed.

(** Directory components in front of a file name are dropped: a plain
    name [n] (no separator, not empty, not a single dot) is placed directly
    in the output directory, with or without a directory prefix. *)
Theorem get_output_path_drops_directories (directory n : string) :
  pathlib.keep_part n = true -> Str.has_char "/" n = false ->
  get_output_path (directory +:+ String "/"%char n)
  = Ok {| pathlib.root := EmptyString; pathlib.parts := [OUTPUT_DIR; n] |}
  /\ get_output_path n
     = Ok {| pathlib.root := EmptyString; pathlib.parts := [OUTPUT_DIR; n] |}.
Proof.
  intros Hk Hs.
  pose proof (keep_part_nonempty n Hk) as Hne.
  assert (Hne' : directory +:+ String "/"%char n <> EmptyString).
  { destruct directory; discriminate. }
  split.
  - rewrite (get_output_path_shape _ Hne'). cbv zeta.
    rewrite (name_of_prefixed _ _ Hk Hs).
    destruct (String.eqb_spec n EmptyString); [contradiction | reflexivity].
  - rewrite (get_output_path_shape _ Hne). cbv zeta.
    rewrite (name_of_component _ Hk Hs).
    destruct (String.eqb_spec n EmptyString); [contradiction | reflexivity].
Qed.

Lemma get_output_path_drops_directories_witness :
  get_output_path "/tmp/clips/../final cut.mp4"
  = Ok {| pathlib.root := EmptyString;
          pathlib.parts := [OUTPUT_DIR; "final cut.mp4"] |}
  /\ get_output_path "final cut.mp4"
     = Ok {| pathlib.root := EmptyString;
             pathlib.parts := [OUTPUT_DIR; "final cut.mp4"] |}.
Proof.
  apply (get_output_path_drops_directories "/tmp/clips/.." "final cut.mp4");
    reflexivity.
Defined.

(** [get_output_path] fails only on the empty name; otherwise the result is
    a relative path made of the output directory and at most one further
    component, which holds no separator. *)
Theorem get_output_path_single_component (filename : string) :
  (filename = EmptyString ->
   get_output_path filename = Raise (ValueError "Filename must be a non-empty string"))
  /\ (filename <> EmptyString ->
      exists rest,
        get_output_path filename
        = Ok {| pathlib.root := EmptyString; pathlib.parts := OUTPUT_DIR :: rest |}
        /\ (length rest <= 1)%nat
        /\ Forall (fun n => Str.has_char "/" n = false) rest).
Proof.
  split.
  - intros ->. reflexivity.
  - intros Hne. rewrite (get_output_path_shape _ Hne). cbv zeta.
    eexists. split; [reflexivity|].
    destruct (String.eqb_spec (pathlib.name (pathlib.Path filename)) EmptyString)
      as [Hn | Hn].
    + split; [simpl; lia | constructor].
    + split; [simpl; lia|]. constructor; [|constructor].
      destruct (name_of_Path filename) as [? | [_ Hs]]; [contradiction | exact Hs].
Qed.

Lemma get_output_path_single_component_witness :
  exists rest,
    get_output_path "a/b/"
    = Ok {| pathlib.root := EmptyString; pathlib.parts := OUTPUT_DIR :: rest |}
    /\ (length rest <= 1)%nat
    /\ Forall (fun n => Str.has_char "/" n = false) rest.
Proof.
  apply (get_output_path_single_component "a/b/"). discriminate.
Defined.

Lemma get_output_path_inside_witness :
  pathlib.inside (pathlib.Path OUTPUT_DIR)
    {| pathlib.root := EmptyString; pathlib.parts := [OUTPUT_DIR; "clip.mp4"] |}
  = negb (String.eqb (pathlib.name (pathlib.Path "videos/clip.mp4")) "..").
Proof.
  apply (get_output_path_inside "videos/clip.mp4"). reflexivity.
Defined.

(** ** The poller, continued *)

Section PollerBounds.
Context {E : Type} `{Environment E}.

Lemma poll_rounds_app (l1 l2 : list Operation) :
  poll_rounds (l1 ++ l2) = poll_rounds l1 ++ poll_rounds l2.
Proof. unfold poll_rounds. apply flat_map_app. Qed.

Lemma refresh_calls_poll_rounds (handles : list Operation) :
  refresh_calls (poll_rounds handles) = length handles.
Proof.
  induction handles as [|h l IH]; [reflexivity|].
  change (poll_rounds (h :: l))
    with ([EvSleep POLL_INTERVAL_SECONDS; EvOperationsGet h] ++ poll_rounds l).
  rewrite refresh_calls_app, IH. reflexivity.
Qed.

Lemma submitted_calls_app (t1 t2 : list Event) :
  submitted_calls (t1 ++ t2) = submitted_calls t1 ++ submitted_calls t2.
Proof. unfold submitted_calls. apply omap_app. Qed.

Lemma submit_count_app (t1 t2 : list Event) :
  submit_count (t1 ++ t2) = (submit_count t1 + submit_count t2)%nat.
Proof. unfold submit_count. rewrite submitted_calls_app, length_app. reflexivity. Qed.

Lemma download_count_app (t1 t2 : list Event) :
  download_count (t1 ++ t2) = (download_count t1 + download_count t2)%nat.
Proof. unfold download_count. rewrite List.filter_app, length_app. reflexivity. Qed.

Lemma save_count_app (t1 t2 : list Event) :
  save_count (t1 ++ t2) = (save_count t1 + save_count t2)%nat.
Proof. unfold save_count. rewrite List.filter_app, length_app. reflexivity. Qed.

Lemma poll_rounds_counts (handles : list Operation) :
  submit_count (poll_rounds handles) = 0%nat
  /\ download_count (poll_rounds handles) = 0%nat
  /\ save_count (poll_rounds handles) = 0%nat.
Proof.
  induction handles as [|h l (IH1 & IH2 & IH3)]; [repeat split|].
  change (poll_rounds (h :: l))
    with ([EvSleep POLL_INTERVAL_SECONDS; EvOperationsGet h] ++ poll_rounds l).
  rewrite submit_count_app, download_count_app, save_count_app, IH1, IH2, IH3.
  repeat split.
Qed.

Lemma poll_loop_rounds (left : nat) (operation : Operation) (w : World E) :
  exists e handles,
    (poll_loop left operation w).2 = after w e (poll_rounds handles)
    /\ (length handles <= left)%nat.
Proof.
  revert operation w. induction left as [|left IH]; intros operation w;
    destruct (done operation) eqn:Hd.
  - rewrite (poll_loop_done _ _ _ Hd). exists (env w), [].
    split; [symmetry; apply after_nil | simpl; lia].
  - rewrite (poll_loop_exhausted _ _ Hd). exists (env w), [].
    split; [symmetry; apply after_nil | simpl; lia].
  - rewrite (poll_loop_done _ _ _ Hd). exists (env w), [].
    split; [symmetry; apply after_nil | simpl; lia].
  - rewrite (poll_loop_round _ _ _ Hd).
    destruct (operations_get operation (time_sleep POLL_INTERVAL_SECONDS (env w)))
      as [[operation' | x] e1].
    + destruct (IH operation'
                  (after w e1 [EvSleep POLL_INTERVAL_SECONDS; EvOperationsGet operation]))
        as (e & handles & Heq & Hlen).
      exists e, (operation :: handles). rewrite Heq, after_after.
      split; [reflexivity | simpl; lia].
    + exists e1, [operation]. split; [reflexivity | simpl; lia].
Qed.

Lemma poll_operation_world (operation : Operation) (w : World E) :
  (poll_operation operation w).2 = (poll_loop MAX_POLL_ATTEMPTS operation w).2.
Proof.
  rewrite poll_operation_unfold.
  destruct (poll_loop MAX_POLL_ATTEMPTS operation w) as [[final | x] w'].
  - destruct (error final); reflexivity.
  - destruct (is_TimeoutError x || is_RuntimeError x); reflexivity.
Qed.

(** Whatever the provider does, the calls of a poll are at most 180
    rounds, each one wait of 10 seconds followed by one refresh call, and
    no other call: the trace gains these rounds and nothing else. *)
Theorem poll_operation_rounds (operation : Operation) (w : World E) :
  exists handles,
    trace (poll_operation operation w).2 = trace w ++ poll_rounds handles
    /\ (length handles <= MAX_POLL_ATTEMPTS)%nat
    /\ refresh_calls (trace (poll_operation operation w).2)
       = (refresh_calls (trace w) + length handles)%nat
    /\ submit_count (trace (poll_operation operation w).2) = submit_count (trace w).
Proof.
  destruct (poll_loop_rounds MAX_POLL_ATTEMPTS operation w)
    as (e & handles & Heq & Hlen).
  exists handles. rewrite poll_operation_world, Heq.
  split; [reflexivity|]. split; [exact Hlen|].
  cbn [after trace].
  destruct (poll_rounds_counts handles) as (Hs & _ & _).
  rewrite refresh_calls_app, refresh_calls_poll_rounds, submit_count_app, Hs.
  split; [reflexivity | lia].
Qed.

(** Whatever exception a refresh call raises, a poll fails only with
    [TimeoutError] or [RuntimeError]. *)
Theorem poll_operation_failure_classes (operation : Operation) (w : World E) :
  raises_only (fun e => is_TimeoutError e || is_RuntimeError e)
              (poll_operation operation w).1 = true.
Proof.
  rewrite poll_operation_unfold.
  destruct (poll_loop MAX_POLL_ATTEMPTS operation w) as [[final | x] w'].
  - destruct (error final); reflexivity.
  - destruct (is_TimeoutError x || is_RuntimeError x) eqn:Hx; [exact Hx | reflexivity].
Qed.

Lemma poll_loop_returns_done (left : nat) (operation final : Operation)
      (w w' : World E) :
  poll_loop left operation w = (Ok final, w') -> done final = true.
Proof.
  revert operation w. induction left as [|left IH]; intros operation w;
    destruct (done operation) eqn:Hd.
  - rewrite (poll_loop_done _ _ _ Hd). intros [= <- _]. exact Hd.
  - rewrite (poll_loop_exhausted _ _ Hd). discriminate.
  - rewrite (poll_loop_done _ _ _ Hd). intros [= <- _]. exact Hd.
  - rewrite (poll_loop_round _ _ _ Hd).
    destruct (operations_get operation (time_sleep POLL_INTERVAL_SECONDS (env w)))
      as [[operation' | x] e1]; [apply IH | discriminate].
Qed.

(** A handle returned by the poller is finished and carries no error. *)
Theorem poll_operation_returns_finished
    (operation final : Operation) (w w' : World E) :
  poll_operation operation w = (Ok final, w') ->
  done final = true /\ error final = None.
Proof.
  rewrite poll_operation_unfold.
  destruct (poll_loop MAX_POLL_ATTEMPTS operation w) as [[op1 | x] w1] eqn:Hloop.
  - destruct (error op1) eqn:Herr; [discriminate|].
    intros [= <- _]. split; [eapply poll_loop_returns_done; exact Hloop | exact Herr].
  - destruct (is_TimeoutError x || is_RuntimeError x); discriminate.
Qed.

(** ** Download *)

(** The three steps of a download, in order. *)
Lemma download_video_steps
    (v : Video) (output_path : pathlib.PurePath) (w : World E) :
  let run := download_video (Some v) output_path w in
  match run.1 with
  | Ok p =>
      p = output_path
      /\ path_exists (pathlib.to_str output_path) (env run.2) = true
      /\ trace run.2 = trace w ++ download_steps v output_path
  | Raise e =>
      is_RuntimeError e = true
      /\ exists n, (1 <= n <= 3)%nat
                   /\ trace run.2 = trace w ++ take n (download_steps v output_path)
  end.
Proof.
  cbv zeta. unfold download_video, try_except, mbind, M_bind, call, exists_, raise,
    mret, M_ret, download_steps, path_exists.
  fold (parent_str output_path). cbn [env trace stdout].
  destruct (path_mkdir (parent_str output_path) (env w)) as [[[]|x] e1];
    cbn [fst snd env trace stdout].
  2:{ split; [reflexivity|]. exists 1%nat. split; [lia | reflexivity]. }
  destruct (files_download v e1) as [[[]|x] e2]; cbn [fst snd env trace stdout].
  2:{ split; [reflexivity|]. exists 2%nat.
      split; [lia|]. rewrite <- app_assoc. reflexivity. }
  destruct (video_save v (pathlib.to_str output_path) e2) as [[[]|x] e3];
    cbn [fst snd env trace stdout].
  2:{ split; [reflexivity|]. exists 3%nat.
      split; [lia|]. rewrite <- !app_assoc. reflexivity. }
  destruct (Path_exists (pathlib.to_str output_path) e3) as [[|]|x] eqn:Hex;
    cbn [negb fst snd env trace stdout].
  - split; [reflexivity|]. rewrite Hex. split; [reflexivity|].
    rewrite <- !app_assoc. reflexivity.
  - split; [reflexivity|]. exists 3%nat.
    split; [lia|]. rewrite <- !app_assoc. reflexivity.
  - split; [reflexivity|]. exists 3%nat.
    split; [lia|]. rewrite <- !app_assoc. reflexivity.
Qed.


End PollerBounds.

Lemma poll_operation_returns_finished_witness :
  done (Scripted.finished "operations/0" (Scripted.Videos (Some 1%nat))) = true
  /\ error (Scripted.finished "operations/0" (Scripted.Videos (Some 1%nat))) = None.
Proof.
  apply (poll_operation_returns_finished (Scripted.running "operations/0") _
           (Scripted.start (Scripted.script 3 (Scripted.Videos (Some 1%nat))))
           (poll_operation (Scripted.running "operations/0")
              (Scripted.start (Scripted.script 3 (Scripted.Videos (Some 1%nat))))).2).
  vm_compute. reflexivity.
Defined.

(** ** Counting the calls of a run *)

Section Runs.
Context {E : Type} `{Environment E}.

Lemma effects_refl (w : World E) : effects w w 0 0 0.
Proof. unfold effects. repeat split; lia. Qed.

Lemma effects_same_trace (w w' : World E) :
  trace w' = trace w -> effects w w' 0 0 0.
Proof. intros Ht. unfold effects. rewrite Ht. repeat split; lia. Qed.

Lemma effects_trans (w w1 w2 : World E) (s d v s' d' v' : nat) :
  effects w w1 s d v -> effects w1 w2 s' d' v' ->
  effects w w2 (s + s') (d + d') (v + v').
Proof. unfold effects. intros (?&?&?) (?&?&?). repeat split; lia. Qed.

Lemma effects_after (w : World E) (e : E) (evs : list Event) :
  effects w (after w e evs) (submit_count evs) (download_count evs) (save_count evs).
Proof.
  unfold effects. cbn [after trace].
  rewrite submit_count_app, download_count_app, save_count_app. repeat split.
Qed.

Lemma effects_eq (w w' : World E) (s d v s' d' v' : nat) :
  effects w w' s d v -> s = s' -> d = d' -> v = v' -> effects w w' s' d' v'.
Proof. intros Heff <- <- <-. exact Heff. Qed.

(** A poll makes no request, no download and no save. *)
Lemma sat_poll_operation (operation : Operation) (w : World E) :
  sat (poll_operation operation) w (fun r w' =>
    effects w w' 0 0 0
    /\ raises_only (fun e => is_TimeoutError e || is_RuntimeError e) r = true).
Proof.
  unfold sat. split.
  - destruct (poll_loop_rounds MAX_POLL_ATTEMPTS operation w)
      as (e & handles & Heq & _).
    rewrite poll_operation_world, Heq.
    destruct (poll_rounds_counts handles) as (Hs & Hd & Hv).
    eapply effects_eq; [apply effects_after | assumption ..].
  - rewrite poll_operation_unfold.
    destruct (poll_loop MAX_POLL_ATTEMPTS operation w) as [[final | x] w'].
    + destruct (error final); reflexivity.
    + destruct (is_TimeoutError x || is_RuntimeError x) eqn:Hx;
        [exact Hx | reflexivity].
Qed.

Lemma append_nonempty_r (a b : string) : b <> EmptyString -> a +:+ b <> EmptyString.
Proof. intros Hb. destruct a; [exact Hb | discriminate]. Qed.

Lemma sat_generate_filename (prompt model : PyVal) (extension : string)
      (w : World E) :
  sat (generate_filename prompt model extension) w (fun r w' =>
    w' = w /\ raises_only is_ValueError r = true
    /\ forall name, r = Ok name -> name <> EmptyString).
Proof.
  unfold sat, generate_filename.
  destruct (negb (truthy prompt) || negb (is_str prompt));
    [split; [reflexivity | split; [reflexivity | discriminate]]|].
  destruct (negb (truthy model) || negb (is_str model));
    [split; [reflexivity | split; [reflexivity | discriminate]]|].
  split; [reflexivity|]. split; [reflexivity|].
  intros name [= <-]. apply append_nonempty_r. discriminate.
Qed.

(** A download, seen from outside: at most one download call, a save only
    after it, the file present on success. *)
Lemma sat_download_video (video_object : option Video)
      (output_path : pathlib.PurePath) (w : World E) :
  sat (download_video video_object output_path) w (fun r w' =>
    exists d v, effects w w' 0 d v /\ (v <= d <= 1)%nat
    /\ match r with
       | Ok p =>
           p = output_path /\ v = 1%nat
           /\ path_exists (pathlib.to_str output_path) (env w') = true
       | Raise e => is_ValueError e || is_RuntimeError e = true
       end).
Proof.
  destruct video_object as [v|].
  2:{ exists 0%nat, 0%nat. split; [apply effects_refl|]. split; [lia | reflexivity]. }
  unfold sat.
  pose proof (download_video_steps v output_path w) as Hrun.
  cbv zeta in Hrun.
  destruct (download_video (Some v) output_path w) as [[p | e] w'];
    cbn [fst snd] in *.
  - destruct Hrun as (-> & Hex & Ht).
    exists 1%nat, 1%nat. split; [|split; [lia | auto]].
    unfold effects. rewrite Ht, submit_count_app, download_count_app, save_count_app.
    repeat split.
  - destruct Hrun as (He & n & Hn & Ht). unfold effects. rewrite Ht.
    rewrite submit_count_app, download_count_app, save_count_app.
    assert (Hcases : n = 1%nat \/ n = 2%nat \/ n = 3%nat) by lia.
    destruct Hcases as [-> | [-> | ->]].
    + exists 0%nat, 0%nat. split; [repeat split | split; [lia|]].
      rewrite He. apply orb_true_r.
    + exists 1%nat, 0%nat. split; [repeat split | split; [lia|]].
      rewrite He. apply orb_true_r.
    + exists 1%nat, 1%nat. split; [repeat split | split; [lia|]].
      rewrite He. apply orb_true_r.
Qed.

End Runs.

(** ** Single-video generation, continued *)

Section SingleVideo.
Context {E : Type} `{Environment E}.

(** What the steps after a successful poll do. *)
Lemma sat_deliver (name_step : M E string) (g : GeneratedVideo)
      (output_filename : option string) (w : World E) :
  sat name_step w (fun r w' =>
    w' = w /\ raises_only is_ValueError r = true
    /\ forall name, r = Ok name -> name <> EmptyString) ->
  sat (output_filename' ←
         (if opt_str_falsy output_filename then name_step
          else mret (default EmptyString output_filename));
       output_path ← lift_result (get_output_path output_filename');
       download_video (video g) output_path;;
       mret output_path) w
      (fun r w' =>
         exists d v, effects w w' 0 d v /\ (v <= d <= 1)%nat
         /\ match r with
            | Ok p =>
                v = 1%nat
                /\ path_exists (pathlib.to_str p) (env w') = true
                /\ exists name,
                     name <> EmptyString /\ get_output_path name = Ok p
                     /\ (opt_str_falsy output_filename = false ->
                         output_filename = Some name)
            | Raise e => is_ValueError e || is_RuntimeError e = true
            end).
Proof.
  intros Hname. apply sat_bind.
  assert (Hstep :
    sat (if opt_str_falsy output_filename then name_step
         else mret (default EmptyString output_filename)) w
        (fun r w' =>
           w' = w /\ raises_only is_ValueError r = true
           /\ forall name, r = Ok name ->
                name <> EmptyString
                /\ (opt_str_falsy output_filename = false ->
                    output_filename = Some name))).
  { destruct (opt_str_falsy output_filename) eqn:Hf.
    - eapply sat_weaken; [exact Hname|].
      intros r w' (-> & Hcls & Hne). split; [reflexivity|]. split; [exact Hcls|].
      intros name Hr. split; [apply (Hne _ Hr) | discriminate].
    - apply sat_ret. split; [reflexivity|]. split; [reflexivity|].
      intros name [= <-]. destruct output_filename as [f|]; [|discriminate Hf].
      cbn [opt_str_falsy] in Hf. simpl.
      split; [intros ->; discriminate Hf | reflexivity]. }
  eapply sat_weaken; [exact Hstep|]. clear Hstep Hname.
  intros [name | e] w' (-> & Hcls & Hname).
  2:{ exists 0%nat, 0%nat. split; [apply effects_refl|]. split; [lia|].
      cbn [raises_only] in Hcls. rewrite Hcls. reflexivity. }
  destruct (Hname name eq_refl) as [Hne Hgiven].
  apply sat_bind, sat_lift_result.
  destruct (get_output_path name) as [output_path | e] eqn:Hpath.
  2:{ exists 0%nat, 0%nat. split; [apply effects_refl|]. split; [lia|].
      unfold get_output_path in Hpath.
      destruct (String.eqb name EmptyString); [|discriminate].
      injection Hpath as <-. reflexivity. }
  apply sat_bind.
  eapply sat_weaken; [apply sat_download_video|].
  intros [p | e] w' (d & v & Heff & Hle & Hres).
  - destruct Hres as (-> & -> & Hex). apply sat_ret.
    exists d, 1%nat. split; [exact Heff|]. split; [exact Hle|].
    split; [reflexivity|]. split; [exact Hex|].
    exists name. auto.
  - exists d, v. auto.
Qed.

Lemma generate_video_spec
    (prompt model aspect_ratio resolution duration_seconds negative_prompt
     seed : PyVal)
    (output_filename : option string) (kwargs : gmap string PyVal)
    (w : World E) :
  sat (generate_video prompt model aspect_ratio resolution duration_seconds
                      negative_prompt seed output_filename kwargs) w
      (fun r w' =>
         exists s d v, effects w w' s d v /\ (v <= d <= s)%nat /\ (s <= 1)%nat
         /\ match r with
            | Ok p =>
                v = 1%nat
                /\ path_exists (pathlib.to_str p) (env w') = true
                /\ exists name,
                     name <> EmptyString /\ get_output_path name = Ok p
                     /\ (opt_str_falsy output_filename = false ->
                         output_filename = Some name)
            | Raise e => three_classes e = true
            end).
Proof.
  unfold generate_video.
  destruct (negb (truthy prompt) || negb (is_str prompt)).
  { apply sat_raise. exists 0%nat, 0%nat, 0%nat.
    split; [apply effects_refl|]. split; [lia|]. split; [lia | reflexivity]. }
  destruct (Str.strip_is_empty (py_str prompt)).
  { apply sat_raise. exists 0%nat, 0%nat, 0%nat.
    split; [apply effects_refl|]. split; [lia|]. split; [lia | reflexivity]. }
  apply sat_bind, sat_lift_out.
  set (model' := py_or model (PyStr DEFAULT_MODEL)).
  set (a' := py_or aspect_ratio (PyStr DEFAULT_ASPECT_RATIO)).
  set (r' := py_or resolution (PyStr DEFAULT_RESOLUTION)).
  set (d' := py_or duration_seconds (PyInt DEFAULT_DURATION_SECONDS)).
  pose proof (validate_raises_only_ValueError a' r' d' model') as Hval.
  destruct (validate_parameters a' r' d' model') as [out [[] | e]]; cbn [fst snd] in *.
  2:{ exists 0%nat, 0%nat, 0%nat. split; [apply effects_same_trace; reflexivity|].
      split; [lia|]. split; [lia|]. unfold three_classes.
      cbn [raises_only] in Hval. rewrite Hval. reflexivity. }
  set (w0 := {| env := env w; trace := trace w; stdout := stdout w ++ out |}).
  assert (H0 : effects w w0 0 0 0) by (apply effects_same_trace; reflexivity).
  apply sat_try_except.
  set (request := {| call_model := model' |}).
  apply sat_bind, sat_call. intros [operation | x] e1 _.
  2:{ assert (Heff : effects w (after w0 e1 [EvGenerateVideos request]) 1 0 0).
      { eapply effects_eq; [eapply effects_trans; [exact H0 | apply effects_after]|..];
          reflexivity. }
      destruct (is_ValueError x || is_TimeoutError x || is_RuntimeError x) eqn:Hx;
        apply sat_raise; exists 1%nat, 0%nat, 0%nat; repeat split; try lia;
        try apply Heff; exact Hx. }
  set (w1 := after w0 e1 [EvGenerateVideos request]).
  assert (H1 : effects w w1 1 0 0).
  { eapply effects_eq; [eapply effects_trans; [exact H0 | apply effects_after]|..];
      reflexivity. }
  apply sat_bind.
  eapply sat_weaken; [apply sat_poll_operation|].
  intros [final | x] w2 [Hpoll Hcls].
  2:{ cbn [raises_only] in Hcls.
      assert (Heff : effects w w2 1 0 0).
      { eapply effects_eq; [eapply effects_trans; [exact H1 | exact Hpoll]|..];
          reflexivity. }
      assert (Hx : is_ValueError x || is_TimeoutError x || is_RuntimeError x = true).
      { rewrite <- orb_assoc, Hcls. apply orb_true_r. }
      rewrite Hx. apply sat_raise. exists 1%nat, 0%nat, 0%nat.
      repeat split; try lia; try apply Heff. exact Hx. }
  assert (H2 : effects w w2 1 0 0).
  { eapply effects_eq; [eapply effects_trans; [exact H1 | exact Hpoll]|..];
      reflexivity. }
  destruct (response final ≫= generated_videos) as [[|g l]|].
  1,3: apply sat_raise; exists 1%nat, 0%nat, 0%nat;
       repeat split; try lia; apply H2.
  eapply sat_weaken; [apply sat_deliver, sat_generate_filename|].
  intros r w3 (d & v & Heff & Hle & Hres).
  assert (H3 : effects w w3 1 d v).
  { eapply effects_eq; [eapply effects_trans; [exact H2 | exact Heff]|..];
      reflexivity. }
  destruct r as [p | e].
  - exists 1%nat, d, v. split; [exact H3|]. split; [lia|]. split; [lia | exact Hres].
  - assert (He : is_ValueError e || is_TimeoutError e || is_RuntimeError e = true).
    { apply orb_true_iff in Hres as [-> | ->];
        [reflexivity | apply orb_true_r]. }
    rewrite He. apply sat_raise.
    exists 1%nat, d, v. split; [exact H3|]. split; [lia|]. split; [lia | exact He].
Qed.

End SingleVideo.

(** ** Scene chains, continued *)

Section Chains.
Context {E : Type} `{Environment E}.

(** A scene step makes at most one request, exactly one when it returns,
    and neither downloads nor saves. *)
Lemma sat_generate_scene
    (prompt : string) (previous_video : option Video)
    (model aspect_ratio resolution : PyVal) (kwargs : gmap string PyVal)
    (w : World E) :
  sat (generate_scene prompt previous_video model aspect_ratio resolution kwargs) w
      (fun r w' =>
         exists s, effects w w' s 0 0 /\ (s <= 1)%nat
                   /\ (is_Ok r = true -> s = 1%nat)).
Proof.
  unfold generate_scene.
  destruct (match previous_video with
            | Some _ => (PyStr "720p", PyInt 8)
            | None => (py_or resolution (PyStr DEFAULT_RESOLUTION),
                       default (PyInt 8) (kwargs !! "duration_seconds"))
            end) as [resolution' duration_seconds].
  apply sat_bind, sat_lift_out.
  destruct (validate_parameters _ resolution' duration_seconds _) as [out [[] | e]];
    cbn [fst snd].
  2:{ exists 0%nat. split; [apply effects_same_trace; reflexivity|].
      split; [lia | discriminate]. }
  set (w0 := {| env := env w; trace := trace w; stdout := stdout w ++ out |}).
  assert (H0 : effects w w0 0 0 0) by (apply effects_same_trace; reflexivity).
  set (request := {| call_prompt := prompt |}).
  apply sat_bind, sat_call. intros r e1 _.
  assert (H1 : effects w (after w0 e1 [EvGenerateVideos request]) 1 0 0).
  { eapply effects_eq; [eapply effects_trans; [exact H0 | apply effects_after]|..];
      reflexivity. }
  destruct r as [operation | x]; [|exists 1%nat; split; [exact H1 | split; [lia | auto]]].
  apply sat_bind.
  eapply sat_weaken; [apply sat_poll_operation|].
  intros r w2 [Hpoll _].
  assert (H2 : effects w w2 1 0 0).
  { eapply effects_eq; [eapply effects_trans; [exact H1 | exact Hpoll]|..];
      reflexivity. }
  destruct r as [final | x]; [|exists 1%nat; split; [exact H2 | split; [lia | auto]]].
  destruct (response final) as [resp|];
    [destruct (generated_videos resp) as [[|g l]|]|];
    (exists 1%nat; split; [exact H2 | split; [lia | auto]]).
Qed.

Lemma sat_generate_scene_with
    (prompt : string) (previous_video : option Video)
    (params : gmap string PyVal) (w : World E) :
  sat (generate_scene_with prompt previous_video params) w
      (fun r w' =>
         exists s, effects w w' s 0 0 /\ (s <= 1)%nat
                   /\ (is_Ok r = true -> s = 1%nat)).
Proof.
  unfold generate_scene_with.
  destruct (bool_decide (is_Some (params !! "prompt"))).
  { apply sat_raise. exists 0%nat. split; [apply effects_refl|].
    split; [lia | discriminate]. }
  destruct (bool_decide (is_Some (params !! "previous_video"))).
  { apply sat_raise. exists 0%nat. split; [apply effects_refl|].
    split; [lia | discriminate]. }
  apply sat_generate_scene.
Qed.

(** The loop makes at most one request per scene, exactly one per scene
    when it runs to the end, and then holds the result of the last scene. *)
Lemma sat_scene_loop
    (scenes : list Scene) (video_object : option GeneratedVideo)
    (scene_number : nat) (w : World E) :
  sat (scene_loop scenes video_object scene_number) w
      (fun r w' =>
         exists s, effects w w' s 0 0 /\ (s <= length scenes)%nat
                   /\ forall last, r = Ok last ->
                        s = length scenes
                        /\ (scenes <> [] \/ is_Some video_object -> is_Some last)).
Proof.
  revert video_object scene_number w.
  induction scenes as [|scene rest IH]; intros video_object scene_number w.
  - apply sat_ret. exists 0%nat. split; [apply effects_refl|].
    split; [simpl; lia|]. intros last [= <-]. split; [reflexivity|].
    intros [? | ?]; [congruence | assumption].
  - cbn [scene_loop].
    destruct (opt_str_falsy (scene_prompt scene)).
    { apply sat_raise. exists 0%nat. split; [apply effects_refl|].
      split; [simpl; lia | discriminate]. }
    apply sat_bind.
    eapply sat_weaken; [apply sat_generate_scene_with|].
    intros [g | x] w1 (s1 & Heff1 & Hle1 & Hok1).
    2:{ exists s1. split; [exact Heff1|]. split; [simpl; lia | discriminate]. }
    specialize (Hok1 eq_refl). subst s1.
    eapply sat_weaken; [apply IH|].
    intros r w2 (s2 & Heff2 & Hle2 & Hok2).
    exists (1 + s2)%nat.
    split; [eapply effects_eq; [eapply effects_trans; eassumption|..]; reflexivity|].
    split; [simpl; lia|].
    intros last Hr. destruct (Hok2 last Hr) as [-> Hsome].
    split; [reflexivity|]. intros _. apply Hsome. right. eexists. reflexivity.
Qed.

(** The scenes are processed in order: the loop over [l1 ++ l2] is the
    loop over [l1] followed, when it returns, by the loop over [l2] with
    the result and the scene number it has reached. *)
Lemma scene_loop_app
    (l1 l2 : list Scene) (video_object : option GeneratedVideo)
    (scene_number : nat) (w : World E) :
  scene_loop (l1 ++ l2) video_object scene_number w
  = match scene_loop l1 video_object scene_number w with
    | (Ok video_object', w1) =>
        scene_loop l2 video_object' (scene_number + length l1) w1
    | (Raise x, w1) => (Raise x, w1)
    end.
Proof.
  revert video_object scene_number w.
  induction l1 as [|scene rest IH]; intros video_object scene_number w.
  - cbn [app scene_loop length]. rewrite Nat.add_0_r. reflexivity.
  - cbn [app scene_loop length].
    destruct (opt_str_falsy (scene_prompt scene)); [reflexivity|].
    unfold mbind, M_bind.
    destruct (generate_scene_with _ _ _ w) as [[g | x] w1]; [|reflexivity].
    rewrite IH. replace (S scene_number + length rest)%nat
      with (scene_number + S (length rest))%nat by lia.
    reflexivity.
Qed.

Lemma extend_from_scenes_spec
    (scenes : list Scene) (output_filename : option string) (w : World E) :
  sat (extend_from_scenes scenes output_filename) w
      (fun r w' =>
         exists s d v,
           effects w w' s d v
           /\ (s <= length scenes)%nat /\ (s <= MAX_EXTENSIONS + 1)%nat
           /\ (v <= d <= 1)%nat
           /\ (d = 1%nat -> s = length scenes)
           /\ forall p, r = Ok p ->
                s = length scenes /\ v = 1%nat
                /\ path_exists (pathlib.to_str p) (env w') = true).
Proof.
  unfold extend_from_scenes.
  destruct scenes as [|scene0 rest].
  { apply sat_raise. exists 0%nat, 0%nat, 0%nat. split; [apply effects_refl|].
    repeat split; try lia; discriminate. }
  set (scenes := scene0 :: rest).
  destruct (MAX_EXTENSIONS + 1 <? length scenes)%nat eqn:Hlen.
  { apply sat_raise. exists 0%nat, 0%nat, 0%nat. split; [apply effects_refl|].
    repeat split; try lia; discriminate. }
  apply Nat.ltb_ge in Hlen.
  apply sat_bind.
  eapply sat_weaken; [apply sat_scene_loop|].
  intros [last | x] w1 (s & Heff1 & Hle & Hok).
  2:{ exists s, 0%nat, 0%nat. split; [exact Heff1|].
      repeat split; try lia; discriminate. }
  destruct (Hok last eq_refl) as [-> Hsome].
  destruct Hsome as [g ->]; [left; discriminate|].
  eapply sat_weaken;
    [apply (sat_deliver
              (generate_filename
                 (PyStr ("extended_" +:+
                    Str.join " -> "
                      (map (fun s => Str.take 30 (default EmptyString (scene_prompt s)))
                           (take 3 scenes))))
                 (PyStr DEFAULT_MODEL) "mp4") g output_filename w1),
           sat_generate_filename|].
  intros r w2 (d & v & Heff2 & Hdv & Hres).
  exists (length scenes), d, v.
  split; [eapply effects_eq; [eapply effects_trans; eassumption|..]; lia|].
  split; [lia|]. split; [exact Hlen|]. split; [exact Hdv|]. split; [reflexivity|].
  intros p ->. destruct Hres as (-> & Hex & _). auto.
Qed.

End Chains.

Lemma strip_is_empty_all_space (s : string) :
  Str.strip_is_empty s = all_chars Str.isspace s.
Proof.
  unfold Str.strip_is_empty.
  induction s as [|c s IH]; [reflexivity|].
  cbn [Str.lstrip_space all_chars].
  destruct (Str.isspace c); [exact IH | reflexivity].
Qed.

(** ** The order of the calls *)

Section CallOrder.
Context {E : Type} `{Environment E}.

Lemma delivery_nil : delivery [].
Proof. left. reflexivity. Qed.

Lemma delivery_take (n : nat) (v : Video) (output_path : pathlib.PurePath) :
  delivery (take n (download_steps v output_path)).
Proof.
  right. exists v, output_path. exists (drop n (download_steps v output_path)).
  symmetry. apply take_drop.
Qed.

Lemma single_run_nil : single_run [].
Proof. left. reflexivity. Qed.

Lemma single_run_step (request : GenerateVideosCall) (handles : list Operation)
      (tail : list Event) :
  delivery tail ->
  single_run (EvGenerateVideos request :: poll_rounds handles ++ tail).
Proof. intros Hd. right. exists (request, handles), tail. split; [reflexivity | exact Hd]. Qed.

Lemma trace_unchanged (w w' : World E) :
  trace w' = trace w -> trace w' = trace w ++ [].
Proof. intros ->. symmetry. apply app_nil_r. Qed.

(** A poll adds polling rounds to the trace, at most 180 of them. *)
Lemma sat_poll_operation_rounds (operation : Operation) (w : World E) :
  sat (poll_operation operation) w (fun _ w' =>
    exists handles, trace w' = trace w ++ poll_rounds handles
                    /\ (length handles <= MAX_POLL_ATTEMPTS)%nat).
Proof.
  unfold sat.
  destruct (poll_loop_rounds MAX_POLL_ATTEMPTS operation w)
    as (e & handles & Heq & Hlen).
  exists handles. rewrite poll_operation_world, Heq. split; [reflexivity | exact Hlen].
Qed.

(** A download adds the first calls of its three steps, all three when
    it returns. *)
Lemma sat_download_video_delivery (video_object : option Video)
      (output_path : pathlib.PurePath) (w : World E) :
  sat (download_video video_object output_path) w (fun r w' =>
    exists tail, trace w' = trace w ++ tail /\ delivery tail
                 /\ (is_Ok r = true -> exists v, tail = download_steps v output_path)).
Proof.
  destruct video_object as [v|].
  2:{ apply sat_raise. exists []. split; [apply trace_unchanged; reflexivity|].
      split; [apply delivery_nil | discriminate]. }
  unfold sat. pose proof (download_video_steps v output_path w) as Hrun.
  cbv zeta in Hrun.
  destruct (download_video (Some v) output_path w) as [[p | e] w'];
    cbn [fst snd] in *.
  - destruct Hrun as (_ & _ & Ht).
    exists (download_steps v output_path). split; [exact Ht|].
    split; [apply (delivery_take 3) | intros _; exists v; reflexivity].
  - destruct Hrun as (_ & n & _ & Ht).
    exists (take n (download_steps v output_path)). split; [exact Ht|].
    split; [apply delivery_take | discriminate].
Qed.

(** After a successful poll: naming the file leaves no call, the download
    adds its steps. *)
Lemma sat_deliver_delivery (name_step : M E string) (g : GeneratedVideo)
      (output_filename : option string) (w : World E) :
  (forall w0, (name_step w0).2 = w0) ->
  sat (output_filename' ←
         (if opt_str_falsy output_filename then name_step
          else mret (default EmptyString output_filename));
       output_path ← lift_result (get_output_path output_filename');
       download_video (video g) output_path;;
       mret output_path) w
      (fun _ w' => exists tail, trace w' = trace w ++ tail /\ delivery tail).
Proof.
  intros Hname.
  assert (Hnil : forall (r : Result pathlib.PurePath) (w' : World E),
             w' = w -> exists tail, trace w' = trace w ++ tail /\ delivery tail).
  { intros _ w' ->. exists []. split; [apply trace_unchanged; reflexivity|].
    apply delivery_nil. }
  apply sat_bind.
  assert (Hstep :
    sat (if opt_str_falsy output_filename then name_step
         else mret (default EmptyString output_filename)) w
        (fun _ w' => w' = w)).
  { destruct (opt_str_falsy output_filename); [apply Hname | reflexivity]. }
  eapply sat_weaken; [exact Hstep|]. clear Hstep.
  intros [name | e] w' ->; [|apply (Hnil (Raise e)); reflexivity].
  apply sat_bind, sat_lift_result.
  destruct (get_output_path name) as [output_path | e];
    [|apply (Hnil (Raise e)); reflexivity].
  apply sat_bind.
  eapply sat_weaken; [apply sat_download_video_delivery|].
  intros [p | e] w' (tail & Ht & Hd & _); exists tail; split; assumption.
Qed.

(** The calls of single-video generation. *)
Lemma generate_video_calls
    (prompt model aspect_ratio resolution duration_seconds negative_prompt
     seed : PyVal)
    (output_filename : option string) (kwargs : gmap string PyVal)
    (w : World E) :
  sat (generate_video prompt model aspect_ratio resolution duration_seconds
                      negative_prompt seed output_filename kwargs) w
      (fun _ w' => exists evs, trace w' = trace w ++ evs /\ single_run evs).
Proof.
  assert (Hnil : forall w' : World E,
             trace w' = trace w ->
             exists evs, trace w' = trace w ++ evs /\ single_run evs).
  { intros w' Ht. exists []. split; [apply trace_unchanged, Ht | apply single_run_nil]. }
  unfold generate_video.
  destruct (negb (truthy prompt) || negb (is_str prompt));
    [apply sat_raise, Hnil; reflexivity|].
  destruct (Str.strip_is_empty (py_str prompt));
    [apply sat_raise, Hnil; reflexivity|].
  apply sat_bind, sat_lift_out.
  destruct (validate_parameters _ _ _ _) as [out [[] | e]]; cbn [fst snd];
    [|apply Hnil; reflexivity].
  set (w0 := {| env := env w; trace := trace w; stdout := stdout w ++ out |}).
  apply sat_try_except.
  set (request := {| call_video := None |}).
  eapply (sat_weaken _ _ (fun _ w' => exists evs,
                              trace w' = trace w ++ evs /\ single_run evs)).
  2:{ intros [p | e] w' Hw'; [exact Hw'|].
      destruct (is_ValueError e || is_TimeoutError e || is_RuntimeError e);
        exact Hw'. }
  apply sat_bind, sat_call. intros r e1 _.
  assert (Hone : forall (w1 : World E) (handles : list Operation) (tail : list Event),
             trace w1 = (trace w ++ [EvGenerateVideos request])
                        ++ poll_rounds handles ++ tail ->
             delivery tail ->
             exists evs, trace w1 = trace w ++ evs /\ single_run evs).
  { intros w1 handles tail Ht Hd.
    exists (EvGenerateVideos request :: poll_rounds handles ++ tail).
    split; [rewrite Ht, <- app_assoc; reflexivity | apply single_run_step, Hd]. }
  destruct r as [operation | x];
    [|apply (Hone _ [] []);
      [cbn [poll_rounds flat_map app]; rewrite app_nil_r; reflexivity
      | apply delivery_nil]].
  apply sat_bind.
  eapply sat_weaken; [apply sat_poll_operation_rounds|].
  intros [final | x] w2 (handles & Hpoll & _).
  2:{ apply (Hone _ handles []); [|apply delivery_nil].
      rewrite Hpoll, app_nil_r. reflexivity. }
  assert (Hraise : exists evs, trace w2 = trace w ++ evs /\ single_run evs).
  { apply (Hone _ handles []); [|apply delivery_nil].
    rewrite Hpoll, app_nil_r. reflexivity. }
  destruct (response final ≫= generated_videos) as [[|g l]|];
    [exact Hraise | | exact Hraise].
  eapply sat_weaken;
    [apply sat_deliver_delivery; intros w3; apply generate_filename_world|].
  intros r w3 (tail & Ht & Hd).
  apply (Hone _ handles tail); [|exact Hd].
  rewrite Ht, Hpoll, <- app_assoc. reflexivity.
Qed.

(** A scene step makes no call, and then fails, or makes its request,
    for the prompt it was given, and polls. *)
Lemma sat_generate_scene_calls
    (prompt : string) (previous_video : option Video)
    (model aspect_ratio resolution : PyVal) (kwargs : gmap string PyVal)
    (w : World E) :
  sat (generate_scene prompt previous_video model aspect_ratio resolution kwargs) w
      (fun r w' =>
         (trace w' = trace w /\ is_Ok r = false)
         \/ exists request handles,
              trace w' = trace w ++ step_calls (request, handles)
              /\ call_prompt request = prompt).
Proof.
  unfold generate_scene.
  destruct (match previous_video with
            | Some _ => (PyStr "720p", PyInt 8)
            | None => (py_or resolution (PyStr DEFAULT_RESOLUTION),
                       default (PyInt 8) (kwargs !! "duration_seconds"))
            end) as [resolution' duration_seconds].
  apply sat_bind, sat_lift_out.
  destruct (validate_parameters _ resolution' duration_seconds _) as [out [[] | e]];
    cbn [fst snd]; [|left; split; reflexivity].
  set (w0 := {| env := env w; trace := trace w; stdout := stdout w ++ out |}).
  set (request := {| call_prompt := prompt |}).
  apply sat_bind, sat_call. intros r e1 _.
  destruct r as [operation | x];
    [|right; exists request, []; split; reflexivity].
  apply sat_bind.
  eapply sat_weaken; [apply sat_poll_operation_rounds|].
  intros r w2 (handles & Hpoll & _).
  assert (Hstep : exists request' handles',
             trace w2 = trace w ++ step_calls (request', handles')
             /\ call_prompt request' = prompt).
  { exists request, handles. split; [|reflexivity].
    rewrite Hpoll. cbn [after trace w0]. rewrite <- app_assoc. reflexivity. }
  destruct r as [final | x]; [|right; exact Hstep].
  destruct (response final) as [resp|];
    [destruct (generated_videos resp) as [[|g l]|]|]; right; exact Hstep.
Qed.

Lemma sat_generate_scene_with_calls
    (prompt : string) (previous_video : option Video)
    (params : gmap string PyVal) (w : World E) :
  sat (generate_scene_with prompt previous_video params) w
      (fun r w' =>
         (trace w' = trace w /\ is_Ok r = false)
         \/ exists request handles,
              trace w' = trace w ++ step_calls (request, handles)
              /\ call_prompt request = prompt).
Proof.
  unfold generate_scene_with.
  destruct (bool_decide (is_Some (params !! "prompt")));
    [apply sat_raise; left; split; reflexivity|].
  destruct (bool_decide (is_Some (params !! "previous_video")));
    [apply sat_raise; left; split; reflexivity|].
  apply sat_generate_scene_calls.
Qed.

(** The prompts of the scenes, as the loop reads them. *)
Lemma scene_prompt_read (scene : Scene) :
  opt_str_falsy (scene_prompt scene) = false ->
  scene_prompt scene = Some (default EmptyString (scene_prompt scene)).
Proof. destruct (scene_prompt scene); [reflexivity | discriminate]. Qed.

(** The loop makes the steps of its scenes, one after the other and in
    the order of the list, each for the prompt of its scene, and stops
    at the first scene that fails. *)
Lemma sat_scene_loop_calls
    (scenes : list Scene) (video_object : option GeneratedVideo)
    (scene_number : nat) (w : World E) :
  sat (scene_loop scenes video_object scene_number) w
      (fun r w' =>
         exists steps,
           trace w' = trace w ++ flat_map step_calls steps
           /\ (length steps <= length scenes)%nat
           /\ map (fun step => Some (call_prompt step.1)) steps
              = map scene_prompt (take (length steps) scenes)
           /\ (is_Ok r = true -> length steps = length scenes)).
Proof.
  revert video_object scene_number w.
  induction scenes as [|scene rest IH]; intros video_object scene_number w.
  - apply sat_ret. exists []. split; [symmetry; apply app_nil_r|].
    split; [reflexivity|]. split; reflexivity.
  - cbn [scene_loop].
    assert (Hnone : forall (r : Result (option GeneratedVideo)) (w' : World E),
               trace w' = trace w -> is_Ok r = false ->
               exists steps,
                 trace w' = trace w ++ flat_map step_calls steps
                 /\ (length steps <= length (scene :: rest))%nat
                 /\ map (fun step => Some (call_prompt step.1)) steps
                    = map scene_prompt (take (length steps) (scene :: rest))
                 /\ (is_Ok r = true -> length steps = length (scene :: rest))).
    { intros r w' Ht Hr. exists []. split; [rewrite Ht; symmetry; apply app_nil_r|].
      split; [simpl; lia|]. split; [reflexivity|]. rewrite Hr. discriminate. }
    destruct (opt_str_falsy (scene_prompt scene)) eqn:Hprompt;
      [apply sat_raise, Hnone; reflexivity|].
    apply sat_bind.
    eapply sat_weaken; [apply sat_generate_scene_with_calls|].
    intros r w1 [[Ht Hr] | (request & handles & Ht & Hp)].
    { destruct r as [g | x]; [discriminate Hr | apply Hnone; [exact Ht | reflexivity]]. }
    assert (Hhead : Some (call_prompt request) = scene_prompt scene).
    { rewrite Hp. symmetry. apply scene_prompt_read, Hprompt. }
    destruct r as [g | x].
    2:{ exists [(request, handles)].
        split; [rewrite Ht; cbn [flat_map]; rewrite app_nil_r; reflexivity|].
        split; [simpl; lia|].
        split; [cbn [map length take fst]; rewrite Hhead; reflexivity | discriminate]. }
    eapply sat_weaken; [apply IH|].
    intros r w2 (steps & Ht2 & Hle & Hprompts & Hok).
    exists ((request, handles) :: steps).
    split; [rewrite Ht2, Ht; cbn [flat_map]; rewrite <- !app_assoc; reflexivity|].
    split; [simpl; lia|].
    split; [cbn [map length take fst]; rewrite Hhead, Hprompts; reflexivity|].
    intros Hr. cbn [length]. rewrite (Hok Hr). reflexivity.
Qed.

(** The calls of a scene chain: the steps of its scenes in order, then
    the delivery, which starts only when every scene has been made. *)
Lemma extend_from_scenes_calls
    (scenes : list Scene) (output_filename : option string) (w : World E) :
  sat (extend_from_scenes scenes output_filename) w
      (fun _ w' =>
         exists steps tail,
           trace w' = trace w ++ flat_map step_calls steps ++ tail
           /\ delivery tail
           /\ (length steps <= length scenes)%nat
           /\ (length steps <= MAX_EXTENSIONS + 1)%nat
           /\ map (fun step => Some (call_prompt step.1)) steps
              = map scene_prompt (take (length steps) scenes)
           /\ (tail <> [] -> length steps = length scenes)).
Proof.
  assert (Hnil : forall w' : World E,
             trace w' = trace w ->
             exists steps tail,
               trace w' = trace w ++ flat_map step_calls steps ++ tail
               /\ delivery tail
               /\ (length steps <= length scenes)%nat
               /\ (length steps <= MAX_EXTENSIONS + 1)%nat
               /\ map (fun step => Some (call_prompt step.1)) steps
                  = map scene_prompt (take (length steps) scenes)
               /\ (tail <> [] -> length steps = length scenes)).
  { intros w' Ht. exists [], []. split; [rewrite Ht; symmetry; apply app_nil_r|].
    split; [apply delivery_nil|]. split; [simpl; lia|]. split; [simpl; lia|].
    split; [reflexivity | congruence]. }
  unfold extend_from_scenes.
  destruct scenes as [|scene0 rest]; [apply sat_raise, Hnil; reflexivity|].
  set (scenes := scene0 :: rest) in *.
  destruct (MAX_EXTENSIONS + 1 <? length scenes)%nat eqn:Hlen;
    [apply sat_raise, Hnil; reflexivity|].
  apply Nat.ltb_ge in Hlen.
  apply sat_bind.
  eapply sat_weaken; [apply sat_scene_loop_calls|].
  intros r w1 (steps & Ht1 & Hle & Hprompts & Hok).
  assert (Hstop : exists steps' tail,
             trace w1 = trace w ++ flat_map step_calls steps' ++ tail
             /\ delivery tail
             /\ (length steps' <= length scenes)%nat
             /\ (length steps' <= MAX_EXTENSIONS + 1)%nat
             /\ map (fun step => Some (call_prompt step.1)) steps'
                = map scene_prompt (take (length steps') scenes)
             /\ (tail <> [] -> length steps' = length scenes)).
  { exists steps, []. split; [rewrite Ht1, app_nil_r; reflexivity|].
    split; [apply delivery_nil|]. split; [exact Hle|]. split; [lia|].
    split; [exact Hprompts | congruence]. }
  destruct r as [last | x]; [|exact Hstop].
  specialize (Hok eq_refl).
  assert (Hafter : forall (w2 : World E) (tail : list Event),
             trace w2 = trace w1 ++ tail -> delivery tail ->
             exists steps' tail',
               trace w2 = trace w ++ flat_map step_calls steps' ++ tail'
               /\ delivery tail'
               /\ (length steps' <= length scenes)%nat
               /\ (length steps' <= MAX_EXTENSIONS + 1)%nat
               /\ map (fun step => Some (call_prompt step.1)) steps'
                  = map scene_prompt (take (length steps') scenes)
               /\ (tail' <> [] -> length steps' = length scenes)).
  { intros w2 tail Ht2 Hd. exists steps, tail.
    split; [rewrite Ht2, Ht1, <- app_assoc; reflexivity|].
    split; [exact Hd|]. split; [exact Hle|]. split; [lia|].
    split; [exact Hprompts | intros _; exact Hok]. }
  apply sat_bind.
  assert (Hname :
    sat (if opt_str_falsy output_filename then
           generate_filename
             (PyStr ("extended_" +:+
                Str.join " -> "
                  (map (fun s => Str.take 30 (default EmptyString (scene_prompt s)))
                       (take 3 scenes))))
             (PyStr DEFAULT_MODEL) "mp4"
         else mret (default EmptyString output_filename)) w1
        (fun _ w' => w' = w1)).
  { destruct (opt_str_falsy output_filename);
      [apply generate_filename_world | reflexivity]. }
  eapply sat_weaken; [exact Hname|]. clear Hname.
  intros [name | e] w' ->; [|exact Hstop].
  apply sat_bind, sat_lift_result.
  destruct (get_output_path name) as [output_path | e]; [|exact Hstop].
  apply sat_bind.
  destruct last as [g|]; [|apply sat_raise; exact Hstop].
  eapply sat_weaken; [apply sat_download_video_delivery|].
  intros [p | e] w2 (tail & Ht & Hd & _); apply (Hafter _ tail Ht Hd).
Qed.

End CallOrder.

(** ** The delivered file *)

Section Delivered.
Context {E : Type} `{Environment E}.

(** When the steps after a successful poll return a path: the file name
    is the one given, or the one the naming step returns in the world
    the poll has left, the path is [get_output_path] of it, and the
    world is the one the download reaches from there. *)
Lemma sat_deliver_names (name_step : M E string) (g : GeneratedVideo)
      (output_filename : option string) (w : World E) :
  (forall w0, (name_step w0).2 = w0) ->
  (forall name, (name_step w).1 = Ok name -> name <> EmptyString) ->
  sat (output_filename' ←
         (if opt_str_falsy output_filename then name_step
          else mret (default EmptyString output_filename));
       output_path ← lift_result (get_output_path output_filename');
       download_video (video g) output_path;;
       mret output_path) w
      (fun r w' =>
         forall p, r = Ok p ->
           exists name,
             get_output_path name = Ok p
             /\ name <> EmptyString
             /\ (if opt_str_falsy output_filename
                 then name_step w = (Ok name, w)
                 else output_filename = Some name)
             /\ download_video (video g) p w = (Ok p, w')).
Proof.
  intros Hworld Hnonempty.
  assert (Hrest : forall name,
    name <> EmptyString ->
    (if opt_str_falsy output_filename
     then name_step w = (Ok name, w)
     else output_filename = Some name) ->
    sat (output_path ← lift_result (get_output_path name);
         download_video (video g) output_path;;
         mret output_path) w
        (fun r w' =>
           forall p, r = Ok p ->
             exists name',
               get_output_path name' = Ok p
               /\ name' <> EmptyString
               /\ (if opt_str_falsy output_filename
                   then name_step w = (Ok name', w)
                   else output_filename = Some name')
               /\ download_video (video g) p w = (Ok p, w'))).
  { intros name Hne Hgiven. apply sat_bind, sat_lift_result.
    destruct (get_output_path name) as [output_path | e] eqn:Hpath;
      [|intros p Hp; discriminate Hp].
    apply sat_bind. unfold sat.
    pose proof (sat_download_video (video g) output_path w) as Hdl.
    unfold sat in Hdl.
    destruct (download_video (video g) output_path w) as [[q | e] w'] eqn:Hrun;
      cbn [fst snd] in *; [|intros p Hp; discriminate Hp].
    destruct Hdl as (d & v & _ & _ & -> & _).
    intros p [= <-]. exists name. auto. }
  apply sat_bind.
  destruct (opt_str_falsy output_filename) eqn:Hf.
  - unfold sat at 1. specialize (Hworld w). specialize (Hnonempty).
    destruct (name_step w) as [[name | e] w1] eqn:Hname; cbn [fst snd] in *;
      subst w1; [|intros p Hp; discriminate Hp].
    apply Hrest; [apply Hnonempty; reflexivity | reflexivity].
  - apply sat_ret. apply Hrest.
    + destruct output_filename as [f|]; [|discriminate Hf].
      cbn [opt_str_falsy] in Hf. simpl. intros ->. discriminate Hf.
    + destruct output_filename as [f|]; [reflexivity | discriminate Hf].
Qed.

Lemma generate_filename_nonempty (prompt model : PyVal) (extension name : string)
      (w : World E) :
  (generate_filename prompt model extension w).1 = Ok name -> name <> EmptyString.
Proof.
  pose proof (sat_generate_filename prompt model extension w) as Hspec.
  unfold sat in Hspec. destruct Hspec as (_ & _ & Hne). exact (Hne name).
Qed.

Lemma sat_with_run {A} (m : M E A) (w : World E)
      (Q : Result A -> World E -> Prop) :
  sat m w Q -> sat m w (fun r w' => m w = (r, w') /\ Q r w').
Proof.
  unfold sat. intros HQ. split; [|exact HQ].
  destruct (m w) as [r w']. reflexivity.
Qed.

(** When single-video generation returns a path, the run went through
    every step: validation passed, the request was accepted, the poll
    returned a finished handle with a video, the file name was the one
    given or the one generated in the world the poll had left, and the
    download from that world returned. *)
Lemma generate_video_names
    (prompt model aspect_ratio resolution duration_seconds negative_prompt
     seed : PyVal)
    (output_filename : option string) (kwargs : gmap string PyVal)
    (w : World E) :
  let model' := py_or model (PyStr DEFAULT_MODEL) in
  let aspect_ratio' := py_or aspect_ratio (PyStr DEFAULT_ASPECT_RATIO) in
  let resolution' := py_or resolution (PyStr DEFAULT_RESOLUTION) in
  let duration_seconds' := py_or duration_seconds (PyInt DEFAULT_DURATION_SECONDS) in
  let request :=
    {| call_model := model'; call_prompt := py_str prompt; call_video := None;
       call_config :=
         video_config_params aspect_ratio' resolution' duration_seconds'
                             negative_prompt seed kwargs |} in
  sat (generate_video prompt model aspect_ratio resolution duration_seconds
                      negative_prompt seed output_filename kwargs) w
      (fun r w' =>
         forall p, r = Ok p ->
           exists (out : list string) (operation final : Operation) (e : E)
                  (w1 : World E) (g : GeneratedVideo) (others : list GeneratedVideo)
                  (name : string),
             validate_parameters aspect_ratio' resolution' duration_seconds' model'
             = (out, Ok tt)
             /\ models_generate_videos request (env w) = (Ok operation, e)
             /\ poll_operation operation (submitted w out request e) = (Ok final, w1)
             /\ response final ≫= generated_videos = Some (g :: others)
             /\ (if opt_str_falsy output_filename
                 then generate_filename prompt model' "mp4" w1 = (Ok name, w1)
                 else output_filename = Some name)
             /\ name <> EmptyString
             /\ get_output_path name = Ok p
             /\ download_video (video g) p w1 = (Ok p, w')).
Proof.
  intros model' aspect_ratio' resolution' duration_seconds' request.
  pose (Q := fun (r : Result pathlib.PurePath) (w' : World E) =>
    forall p, r = Ok p ->
      exists (out : list string) (operation final : Operation) (e : E)
             (w1 : World E) (g : GeneratedVideo) (others : list GeneratedVideo)
             (name : string),
        validate_parameters aspect_ratio' resolution' duration_seconds' model'
        = (out, Ok tt)
        /\ models_generate_videos request (env w) = (Ok operation, e)
        /\ poll_operation operation (submitted w out request e) = (Ok final, w1)
        /\ response final ≫= generated_videos = Some (g :: others)
        /\ (if opt_str_falsy output_filename
            then generate_filename prompt model' "mp4" w1 = (Ok name, w1)
            else output_filename = Some name)
        /\ name <> EmptyString
        /\ get_output_path name = Ok p
        /\ download_video (video g) p w1 = (Ok p, w')).
  change (sat (generate_video prompt model aspect_ratio resolution duration_seconds
                              negative_prompt seed output_filename kwargs) w Q).
  unfold generate_video.
  destruct (negb (truthy prompt) || negb (is_str prompt));
    [apply sat_raise; intros p Hp; discriminate Hp|].
  destruct (Str.strip_is_empty (py_str prompt));
    [apply sat_raise; intros p Hp; discriminate Hp|].
  fold model'. fold aspect_ratio'. fold resolution'. fold duration_seconds'.
  fold request.
  apply sat_bind, sat_lift_out.
  destruct (validate_parameters aspect_ratio' resolution' duration_seconds' model')
    as [out [[] | e]] eqn:Hval; cbn [fst snd];
    [|intros p Hp; discriminate Hp].
  set (w0 := {| env := env w; trace := trace w; stdout := stdout w ++ out |}).
  apply sat_try_except.
  apply (sat_weaken _ _ Q).
  2:{ intros [p | e] w' Hw'; [exact Hw'|].
      destruct (is_ValueError e || is_TimeoutError e || is_RuntimeError e);
        apply sat_raise; intros p Hp; discriminate Hp. }
  apply sat_bind, sat_call. intros r e1 Hsub.
  destruct r as [operation | x]; [|intros p Hp; discriminate Hp].
  change (after w0 e1 [EvGenerateVideos request])
    with (submitted w out request e1).
  apply sat_bind.
  eapply sat_weaken;
    [apply (sat_with_run _ _ (fun _ _ => True)); exact I|].
  intros [final | x] w1 [Hpoll _]; [|intros p Hp; discriminate Hp].
  destruct (response final ≫= generated_videos) as [[|g others]|] eqn:Hvideos;
    [apply sat_raise; intros p Hp; discriminate Hp|
    |apply sat_raise; intros p Hp; discriminate Hp].
  eapply sat_weaken.
  { apply sat_deliver_names.
    - intros w2. apply generate_filename_world.
    - intros name. apply generate_filename_nonempty. }
  intros r w2 Hnames p Hp.
  destruct (Hnames p Hp) as (name & Hpath & Hne & Hgiven & Hdl).
  exists out, operation, final, e1, w1, g, others, name.
  split; [reflexivity|]. split; [exact Hsub|]. split; [exact Hpoll|].
  split; [exact Hvideos|]. split; [exact Hgiven|]. split; [exact Hne|].
  split; [exact Hpath | exact Hdl].
Qed.

End Delivered.

Section SingleVideoTheorems.
Context {E : Type} `{Environment E}.

(** In every environment, whatever the provider or the file system
    raises, single-video generation fails only with [ValueError],
    [TimeoutError] or [RuntimeError]. *)
Theorem generate_video_failure_classes
    (prompt model aspect_ratio resolution duration_seconds negative_prompt
     seed : PyVal)
    (output_filename : option string) (kwargs : gmap string PyVal)
    (w : World E) :
  raises_only three_classes
    (generate_video prompt model aspect_ratio resolution duration_seconds
                    negative_prompt seed output_filename kwargs w).1 = true.
Proof.
  pose proof (generate_video_spec prompt model aspect_ratio resolution
                duration_seconds negative_prompt seed output_filename kwargs w)
    as Hspec.
  unfold sat in Hspec. destruct Hspec as (s & d & v & _ & _ & _ & Hres).
  destruct (generate_video _ _ _ _ _ _ _ _ _ w).1; [reflexivity | exact Hres].
Qed.

(** The calls of a run of single-video generation, in order: none at
    all, or one generation request, then the rounds of its poll, then
    nothing or the first calls of one download (create the directory,
    download, save).  So there is at most one request, a download comes
    only after the request and its poll, and a save only after the
    download. *)
Theorem generate_video_call_order
    (prompt model aspect_ratio resolution duration_seconds negative_prompt
     seed : PyVal)
    (output_filename : option string) (kwargs : gmap string PyVal)
    (w : World E) :
  exists evs,
    trace (generate_video prompt model aspect_ratio resolution duration_seconds
                          negative_prompt seed output_filename kwargs w).2
    = trace w ++ evs
    /\ (evs = []
        \/ exists request handles tail,
             evs = EvGenerateVideos request :: poll_rounds handles ++ tail
             /\ (tail = []
                 \/ exists v output_path,
                      tail `prefix_of` download_steps v output_path)).
Proof.
  pose proof (generate_video_calls prompt model aspect_ratio resolution
                duration_seconds negative_prompt seed output_filename kwargs w)
    as Hcalls.
  unfold sat in Hcalls. destruct Hcalls as (evs & Ht & Hrun).
  exists evs. split; [exact Ht|].
  destruct Hrun as [-> | ([request handles] & tail & -> & Hd)]; [left; reflexivity|].
  right. exists request, handles, tail. split; [reflexivity | exact Hd].
Qed.

(** When single-video generation returns a path, exactly one request, one
    download and one save were made and the file exists at that path.
    The run went through every step: validation passed, the request was
    accepted, the poll returned a finished handle with a video; the file
    name is the one given or, when none was given, the one
    [generate_filename] returns for the prompt and the effective model in
    the world the poll has left; the path is [get_output_path] of that
    name and the download of the first video to it, from that world,
    returned. *)
Theorem generate_video_delivers
    (prompt model aspect_ratio resolution duration_seconds negative_prompt
     seed : PyVal)
    (output_filename : option string) (kwargs : gmap string PyVal)
    (w w' : World E) (p : pathlib.PurePath) :
  let model' := py_or model (PyStr DEFAULT_MODEL) in
  let aspect_ratio' := py_or aspect_ratio (PyStr DEFAULT_ASPECT_RATIO) in
  let resolution' := py_or resolution (PyStr DEFAULT_RESOLUTION) in
  let duration_seconds' := py_or duration_seconds (PyInt DEFAULT_DURATION_SECONDS) in
  let request :=
    {| call_model := model'; call_prompt := py_str prompt; call_video := None;
       call_config :=
         video_config_params aspect_ratio' resolution' duration_seconds'
                             negative_prompt seed kwargs |} in
  generate_video prompt model aspect_ratio resolution duration_seconds
                 negative_prompt seed output_filename kwargs w = (Ok p, w') ->
  effects w w' 1 1 1
  /\ path_exists (pathlib.to_str p) (env w') = true
  /\ exists (out : list string) (operation final : Operation) (e : E)
            (w1 : World E) (g : GeneratedVideo) (others : list GeneratedVideo)
            (name : string),
       validate_parameters aspect_ratio' resolution' duration_seconds' model'
       = (out, Ok tt)
       /\ models_generate_videos request (env w) = (Ok operation, e)
       /\ poll_operation operation (submitted w out request e) = (Ok final, w1)
       /\ response final ≫= generated_videos = Some (g :: others)
       /\ (if opt_str_falsy output_filename
           then generate_filename prompt model' "mp4" w1 = (Ok name, w1)
           else output_filename = Some name)
       /\ name <> EmptyString
       /\ get_output_path name = Ok p
       /\ download_video (video g) p w1 = (Ok p, w').
Proof.
  intros model' aspect_ratio' resolution' duration_seconds' request Hrun.
  pose proof (generate_video_spec prompt model aspect_ratio resolution
                duration_seconds negative_prompt seed output_filename kwargs w)
    as Hspec.
  unfold sat in Hspec. rewrite Hrun in Hspec. cbn [fst snd] in Hspec.
  destruct Hspec as (s & d & v & Heff & Hle & Hs & -> & Hex & _).
  split; [eapply effects_eq; [exact Heff | lia ..]|].
  split; [exact Hex|].
  pose proof (generate_video_names prompt model aspect_ratio resolution
                duration_seconds negative_prompt seed output_filename kwargs w)
    as Hnames.
  cbv zeta in Hnames. unfold sat in Hnames. rewrite Hrun in Hnames.
  cbn [fst snd] in Hnames.
  exact (Hnames p eq_refl).
Qed.

(** A prompt that is not a string or is empty is refused with the
    [ValueError] "Prompt must be a non-empty string", a prompt of
    whitespace only with "Prompt cannot be empty or whitespace only",
    whatever the other arguments are and before any call: the trace and
    the environment are as they were. *)
Theorem generate_video_rejects_blank_prompt
    (prompt model aspect_ratio resolution duration_seconds negative_prompt
     seed : PyVal)
    (output_filename : option string) (kwargs : gmap string PyVal)
    (w : World E) :
  let run := generate_video prompt model aspect_ratio resolution duration_seconds
                            negative_prompt seed output_filename kwargs in
  (is_str prompt = false \/ prompt = PyStr EmptyString ->
   refused run w (ValueError "Prompt must be a non-empty string"))
  /\ (forall s : string,
        prompt = PyStr s -> s <> EmptyString -> all_chars Str.isspace s = true ->
        refused run w (ValueError "Prompt cannot be empty or whitespace only")).
Proof.
  intros run. subst run. unfold refused, generate_video. split.
  - intros [Hs | ->].
    + rewrite Hs, orb_true_r. repeat split.
    + repeat split.
  - intros s -> Hne Hspace. cbn [truthy is_str py_str].
    destruct (String.eqb_spec s EmptyString) as [? | _]; [contradiction|].
    cbn [negb orb]. rewrite strip_is_empty_all_space, Hspace. repeat split.
Qed.

(** When the parameters, after defaults, do not pass validation, that
    failure is the outcome and no call is made: the trace and the
    environment are as they were. *)
Theorem generate_video_validation_precedes_request
    (prompt : string)
    (model aspect_ratio resolution duration_seconds negative_prompt seed : PyVal)
    (output_filename : option string) (kwargs : gmap string PyVal)
    (w : World E) (e : exn) :
  all_chars Str.isspace prompt = false ->
  (validate_parameters
     (py_or aspect_ratio (PyStr DEFAULT_ASPECT_RATIO))
     (py_or resolution (PyStr DEFAULT_RESOLUTION))
     (py_or duration_seconds (PyInt DEFAULT_DURATION_SECONDS))
     (py_or model (PyStr DEFAULT_MODEL))).2 = Raise e ->
  refused (generate_video (PyStr prompt) model aspect_ratio resolution
                          duration_seconds negative_prompt seed output_filename
                          kwargs)
          w e.
Proof.
  intros Hprompt Hval. unfold refused, generate_video.
  cbn [truthy is_str py_str]. rewrite strip_is_empty_all_space, Hprompt.
  destruct (String.eqb_spec prompt EmptyString) as [-> | _]; [discriminate Hprompt|].
  cbn [negb orb]. unfold mbind at 1 2 3. unfold M_bind, lift_out.
  destruct (validate_parameters _ _ _ _) as [out r]. cbn [snd] in Hval. subst r.
  repeat split.
Qed.

End SingleVideoTheorems.

Lemma generate_video_delivers_witness :
  let w := Scripted.start (Scripted.script 2 (Scripted.Videos (Some 1%nat))) in
  let run := generate_video (PyStr lion) PyNone PyNone PyNone PyNone PyNone PyNone
               (Some "../clips/lion.mp4") ∅ w in
  effects w run.2 1 1 1
  /\ Scripted.saved (env run.2) = ["output/lion.mp4"].
Proof.
  intros w run.
  assert (Hrun : run = (Ok {| pathlib.root := EmptyString;
                              pathlib.parts := ["output"; "lion.mp4"] |}, run.2))
    by (vm_compute; reflexivity).
  destruct (generate_video_delivers _ _ _ _ _ _ _ _ _ _ _ _ Hrun) as (Heff & _ & _).
  split; [exact Heff | vm_compute; reflexivity].
Defined.

Lemma generate_video_rejects_blank_prompt_witness :
  refused (generate_video PyNone (PyStr "veo-9") PyNone (PyStr "4k") PyNone PyNone
                          PyNone None ∅)
          (Scripted.start (Scripted.script 2 (Scripted.Videos (Some 1%nat))))
          (ValueError "Prompt must be a non-empty string")
  /\ refused (generate_video (PyStr "  	 ") (PyStr "veo-9") PyNone (PyStr "4k") PyNone
                             PyNone PyNone None ∅)
             (Scripted.start (Scripted.script 2 (Scripted.Videos (Some 1%nat))))
             (ValueError "Prompt cannot be empty or whitespace only").
Proof.
  split.
  - apply (generate_video_rejects_blank_prompt PyNone). left. reflexivity.
  - refine (proj2 (generate_video_rejects_blank_prompt (PyStr "  	 ") (PyStr "veo-9")
                     PyNone (PyStr "4k") PyNone PyNone PyNone None ∅ _)
                  "  	 " _ _ _);
      [reflexivity | discriminate | reflexivity].
Defined.

Lemma generate_video_validation_precedes_request_witness :
  refused (generate_video (PyStr lion) (PyStr "veo-9") PyNone (PyStr "1080p")
                          (PyInt 6) PyNone PyNone None ∅)
          (Scripted.start (Scripted.script 2 (Scripted.Videos (Some 1%nat))))
          (ValueError "1080p resolution only supports 8 second duration").
Proof.
  apply (generate_video_validation_precedes_request lion (PyStr "veo-9") PyNone
           (PyStr "1080p") (PyInt 6)); reflexivity.
Defined.

Section ChainTheorems.
Context {E : Type} `{Environment E}.

(** The calls of a scene chain, in order: for the first scenes of the
    list, as far as the chain gets and never more than MAX_EXTENSIONS + 1
    = 21 of them, one generation request with the prompt of the scene
    followed by the rounds of its poll; then nothing, or, only when every
    scene has been made, the first calls of one download (create the
    directory, download, save). *)
Theorem extend_from_scenes_call_order
    (scenes : list Scene) (output_filename : option string) (w : World E) :
  exists steps tail,
    trace (extend_from_scenes scenes output_filename w).2
    = trace w ++ flat_map step_calls steps ++ tail
    /\ (length steps <= length scenes)%nat /\ (length steps <= 21)%nat
    /\ map (fun step => Some (call_prompt step.1)) steps
       = map scene_prompt (take (length steps) scenes)
    /\ (tail = []
        \/ (length steps = length scenes
            /\ exists v output_path,
                 tail `prefix_of` download_steps v output_path)).
Proof.
  pose proof (extend_from_scenes_calls scenes output_filename w) as Hcalls.
  unfold sat in Hcalls.
  destruct Hcalls as (steps & tail & Ht & Hd & Hle & Hmax & Hprompts & Hall).
  exists steps, tail. split; [exact Ht|]. split; [exact Hle|].
  split; [exact Hmax|]. split; [exact Hprompts|].
  destruct tail as [|ev tail]; [left; reflexivity|].
  right. split; [apply Hall; discriminate|].
  destruct Hd as [Hnil | Hd]; [discriminate Hnil | exact Hd].
Qed.

(** When a scene chain returns a path, one request per scene was made,
    one download and one save, and the file exists at that path. *)
Theorem extend_from_scenes_delivers
    (scenes : list Scene) (output_filename : option string)
    (w w' : World E) (p : pathlib.PurePath) :
  extend_from_scenes scenes output_filename w = (Ok p, w') ->
  effects w w' (length scenes) 1 1
  /\ (1 <= length scenes <= 21)%nat
  /\ path_exists (pathlib.to_str p) (env w') = true.
Proof.
  intros Hrun.
  pose proof (extend_from_scenes_spec scenes output_filename w) as Hspec.
  unfold sat in Hspec. rewrite Hrun in Hspec. cbn [fst snd] in Hspec.
  destruct Hspec as (s & d & v & Heff & Hlen & Hmax & Hdv & Hd & Hok).
  destruct (Hok p eq_refl) as (-> & -> & Hex).
  split; [eapply effects_eq; [exact Heff | lia ..]|].
  split; [|exact Hex].
  split; [|exact Hmax].
  destruct scenes; [discriminate Hrun | simpl; lia].
Qed.

(** A scene without a prompt stops the chain where it stands: the scenes
    before it are generated in order, the failure is a [ValueError] naming
    the scene's position counted from 1, no later scene is requested and
    nothing is downloaded.  If an earlier scene fails, that failure is the
    outcome. *)
Theorem extend_from_scenes_missing_prompt
    (before after_ : list Scene) (scene : Scene)
    (output_filename : option string) (w : World E) :
  opt_str_falsy (scene_prompt scene) = true ->
  (length (before ++ scene :: after_) <= 21)%nat ->
  let run := extend_from_scenes (before ++ scene :: after_) output_filename w in
  run
  = match scene_loop before None 1 w with
    | (Ok _, w1) =>
        (Raise (ValueError ("Scene " +:+ pretty (S (length before)) +:+
                            " is missing 'prompt' field")), w1)
    | (Raise x, w1) => (Raise x, w1)
    end
  /\ (submit_count (trace run.2) <= submit_count (trace w) + length before)%nat
  /\ download_count (trace run.2) = download_count (trace w).
Proof.
  intros Hbad Hlen run.
  assert (Hrun : run
    = match scene_loop before None 1 w with
      | (Ok _, w1) =>
          (Raise (ValueError ("Scene " +:+ pretty (S (length before)) +:+
                              " is missing 'prompt' field")), w1)
      | (Raise x, w1) => (Raise x, w1)
      end).
  { subst run. unfold extend_from_scenes.
    destruct (before ++ scene :: after_) as [|s0 l0] eqn:Hscenes.
    { destruct before; discriminate. }
    rewrite <- Hscenes in *.
    destruct (Nat.ltb_spec (MAX_EXTENSIONS + 1) (length (before ++ scene :: after_)))
      as [Hgt | _]; [unfold MAX_EXTENSIONS in Hgt; lia|].
    unfold mbind at 1. unfold M_bind at 1.
    rewrite scene_loop_app.
    destruct (scene_loop before None 1 w) as [[vo | x] w1]; [|reflexivity].
    cbn [scene_loop]. rewrite Hbad. reflexivity. }
  split; [exact Hrun|].
  rewrite Hrun.
  pose proof (sat_scene_loop before None 1 w) as Hloop. unfold sat in Hloop.
  destruct Hloop as (s & (Hs & Hd & _) & Hle & _).
  destruct (scene_loop before None 1 w) as [[vo | x] w1]; cbn [fst snd] in *;
    split; lia.
Qed.

End ChainTheorems.

Lemma extend_from_scenes_delivers_witness :
  let w := Scripted.start (Scripted.script 1 (Scripted.Videos (Some 1%nat))) in
  let run := extend_from_scenes three_scenes (Some "trip.mp4") w in
  effects w run.2 3 1 1
  /\ (1 <= 3 <= 21)%nat
  /\ Scripted.saved (env run.2) = ["output/trip.mp4"].
Proof.
  intros w run.
  assert (Hrun : run = (Ok {| pathlib.root := EmptyString;
                              pathlib.parts := ["output"; "trip.mp4"] |}, run.2))
    by (vm_compute; reflexivity).
  destruct (extend_from_scenes_delivers _ _ _ _ _ Hrun) as (Heff & Hlen & _).
  split; [exact Heff|]. split; [exact Hlen | vm_compute; reflexivity].
Defined.

Lemma extend_from_scenes_missing_prompt_witness :
  let w := Scripted.start (Scripted.script 1 (Scripted.Videos (Some 1%nat))) in
  let run := extend_from_scenes
               (plain_scenes ++ {| scene_prompt := None; scene_params := ∅ |}
                  :: plain_scenes) None w in
  run.1 = Raise (ValueError "Scene 3 is missing 'prompt' field")
  /\ (submit_count (trace run.2) <= 0 + 2)%nat
  /\ download_count (trace run.2) = 0%nat.
Proof.
  intros w run.
  destruct (extend_from_scenes_missing_prompt plain_scenes plain_scenes
              {| scene_prompt := None; scene_params := ∅ |} None w)
    as (Hrun & Hs & Hd); [reflexivity | simpl; lia |].
  fold run in Hrun, Hs, Hd.
  split; [|split; [exact Hs | exact Hd]].
  rewrite Hrun. vm_compute. reflexivity.
Defined.

(** ** Image-to-video generation *)

Section ImageToVideo.
Context {E : Type} `{Environment E} `{LocalFiles E}.

Lemma sat_quiet_call {A} (f : E -> Result A * E) (w : World E)
      (Q : Result A -> World E -> Prop) :
  (forall r e, f (env w) = (r, e) -> Q r (after w e [])) ->
  sat (quiet_call f) w Q.
Proof.
  intros HQ. unfold sat, quiet_call.
  destruct (f (env w)) as [r e] eqn:Hf. specialize (HQ r e eq_refl).
  unfold after in HQ. rewrite app_nil_r in HQ. exact HQ.
Qed.

Lemma sat_is_file_ (path : string) (w : World E)
      (Q : Result bool -> World E -> Prop) :
  Q (Path_is_file path (env w)) w -> sat (is_file_ path) w Q.
Proof. exact (fun H => H). Qed.

Lemma sat_image_library_ (w : World E) (Q : Result bool -> World E -> Prop) :
  Q (Ok (image_library_installed (env w))) w -> sat image_library_ w Q.
Proof. exact (fun H => H). Qed.

Lemma generate_video_with_image_calls
    (prompt image_path model aspect_ratio resolution duration_seconds : PyVal)
    (output_filename : option string) (kwargs : gmap string PyVal)
    (w : World E) :
  sat (generate_video_with_image prompt image_path model aspect_ratio resolution
         duration_seconds output_filename kwargs) w
      (fun r w' =>
         (exists evs, trace w' = trace w ++ evs /\ single_run evs)
         /\ forall e, r = Raise e -> image_failure image_path w e).
Proof.
  pose (Q := fun (r : Result pathlib.PurePath) (w' : World E) =>
    (exists evs, trace w' = trace w ++ evs /\ single_run evs)
    /\ forall e, r = Raise e -> image_failure image_path w e).
  change (sat (generate_video_with_image prompt image_path model aspect_ratio
                 resolution duration_seconds output_filename kwargs) w Q).
  assert (Hquit : forall (e : exn) (w' : World E),
             trace w' = trace w -> image_failure image_path w e -> Q (Raise e) w').
  { intros e w' Ht He. split.
    - exists []. split; [apply trace_unchanged, Ht | apply single_run_nil].
    - intros e' [= <-]. exact He. }
  unfold generate_video_with_image.
  destruct (negb (truthy prompt) || negb (is_str prompt)
            || Str.strip_is_empty (py_str prompt)).
  { apply sat_raise, Hquit; [reflexivity | left; reflexivity]. }
  destruct (negb (truthy image_path) || negb (is_str image_path)).
  { apply sat_raise, Hquit; [reflexivity | left; reflexivity]. }
  apply sat_bind, sat_exists_.
  destruct (Path_exists (pathlib.to_str (pathlib.Path (py_str image_path))) (env w))
    as [[|] | x] eqn:Hex; cbn [negb].
  2:{ apply sat_raise, Hquit; [reflexivity | left; reflexivity]. }
  2:{ apply Hquit; [reflexivity | right; left; exact Hex]. }
  apply sat_bind, sat_is_file_.
  destruct (Path_is_file (pathlib.to_str (pathlib.Path (py_str image_path))) (env w))
    as [[|] | x] eqn:Hfile; cbn [negb].
  2:{ apply sat_raise, Hquit; [reflexivity | left; reflexivity]. }
  2:{ apply Hquit; [reflexivity | right; right; left; exact Hfile]. }
  apply sat_bind, sat_image_library_.
  destruct (image_library_installed (env w)) eqn:Hlib; cbn [negb].
  2:{ apply sat_raise, Hquit; [reflexivity|]. right. right. right.
      split; [exact Hlib | reflexivity]. }
  clear Hquit.
  apply sat_bind, sat_lift_out.
  set (model' := py_or model (PyStr DEFAULT_MODEL)).
  set (a' := py_or aspect_ratio (PyStr DEFAULT_ASPECT_RATIO)).
  set (r' := py_or resolution (PyStr DEFAULT_RESOLUTION)).
  set (d' := py_or duration_seconds (PyInt DEFAULT_DURATION_SECONDS)).
  pose proof (validate_raises_only_ValueError a' r' d' model') as Hval.
  destruct (validate_parameters a' r' d' model') as [out [[] | e]]; cbn [fst snd] in *.
  2:{ split.
      - exists []. split; [apply trace_unchanged; reflexivity | apply single_run_nil].
      - intros e' [= <-]. left. unfold four_classes.
        cbn [raises_only] in Hval. rewrite Hval. reflexivity. }
  set (w0 := {| env := env w; trace := trace w; stdout := stdout w ++ out |}).
  (* Inside the guarded block every failure ends in one of the four classes. *)
  apply sat_try_except.
  apply (sat_weaken _ _ (fun r w' =>
           (exists evs, trace w' = trace w ++ evs /\ single_run evs)
           /\ forall e, r = Raise e -> True)).
  2:{ intros [p | e] w' [Hcalls _].
      - split; [exact Hcalls | intros e' He'; discriminate He'].
      - destruct (is_ValueError e || is_FileNotFoundError e
                  || is_TimeoutError e || is_RuntimeError e) eqn:He;
          apply sat_raise; (split; [exact Hcalls|]); intros e' [= <-]; left.
        + exact He.
        + reflexivity. }
  apply (sat_weaken _ _ (fun _ w' =>
           exists evs, trace w' = trace w ++ evs /\ single_run evs)).
  2:{ intros r w' Hcalls. split; [exact Hcalls | trivial]. }
  assert (Hnil : forall w' : World E,
             trace w' = trace w ->
             exists evs, trace w' = trace w ++ evs /\ single_run evs).
  { intros w' Ht. exists []. split; [apply trace_unchanged, Ht | apply single_run_nil]. }
  apply sat_bind, sat_quiet_call. intros [image | x] e0 _;
    [|apply Hnil; cbn [after trace w0]; apply app_nil_r].
  set (wi := after w0 e0 []).
  assert (Hi : trace wi = trace w) by (cbn [wi after trace w0]; apply app_nil_r).
  set (request := {| call_model := model' |}).
  apply sat_bind, sat_call. intros r e1 _.
  assert (Hone : forall (w1 : World E) (handles : list Operation) (tail : list Event),
             trace w1 = (trace w ++ [EvGenerateVideos request])
                        ++ poll_rounds handles ++ tail ->
             delivery tail ->
             exists evs, trace w1 = trace w ++ evs /\ single_run evs).
  { intros w1 handles tail Ht Hd.
    exists (EvGenerateVideos request :: poll_rounds handles ++ tail).
    split; [rewrite Ht, <- app_assoc; reflexivity | apply single_run_step, Hd]. }
  assert (H1 : trace (after wi e1 [EvGenerateVideos request])
               = trace w ++ [EvGenerateVideos request]).
  { cbn [after trace]. rewrite Hi. reflexivity. }
  destruct r as [operation | x].
  2:{ apply (Hone _ [] []); [|apply delivery_nil].
      rewrite H1. cbn [poll_rounds flat_map app]. rewrite app_nil_r. reflexivity. }
  apply sat_bind.
  eapply sat_weaken; [apply sat_poll_operation_rounds|].
  intros [final | x] w2 (handles & Hpoll & _).
  2:{ apply (Hone _ handles []); [|apply delivery_nil].
      rewrite Hpoll, H1, app_nil_r. reflexivity. }
  assert (Hraise : exists evs, trace w2 = trace w ++ evs /\ single_run evs).
  { apply (Hone _ handles []); [|apply delivery_nil].
    rewrite Hpoll, H1, app_nil_r. reflexivity. }
  destruct (response final ≫= generated_videos) as [[|g l]|];
    [exact Hraise | | exact Hraise].
  eapply sat_weaken;
    [apply sat_deliver_delivery; intros w3; apply generate_filename_world|].
  intros r w3 (tail & Ht & Hd).
  apply (Hone _ handles tail); [|exact Hd].
  rewrite Ht, Hpoll, H1, <- app_assoc. reflexivity.
Qed.

(** Image-to-video generation fails only with [ValueError],
    [FileNotFoundError], [TimeoutError] or [RuntimeError], with two
    exceptions: what a lookup of the image path raises passes through
    unchanged, and a missing image library is an [ImportError].  The
    calls of a run are, in order: none at all, or one generation request,
    then the rounds of its poll, then nothing or the first calls of one
    download (create the directory, download, save). *)
Theorem generate_video_with_image_run
    (prompt image_path model aspect_ratio resolution duration_seconds : PyVal)
    (output_filename : option string) (kwargs : gmap string PyVal)
    (w : World E) :
  let run := generate_video_with_image prompt image_path model aspect_ratio
               resolution duration_seconds output_filename kwargs w in
  let location := pathlib.to_str (pathlib.Path (py_str image_path)) in
  (forall e,
      run.1 = Raise e ->
      four_classes e = true
      \/ Path_exists location (env w) = Raise e
      \/ Path_is_file location (env w) = Raise e
      \/ (image_library_installed (env w) = false
          /\ e = OtherException "ImportError"
                   "PIL/Pillow is required for image-to-video. Install with: pip install Pillow"))
  /\ exists evs,
       trace run.2 = trace w ++ evs
       /\ (evs = []
           \/ exists request handles tail,
                evs = EvGenerateVideos request :: poll_rounds handles ++ tail
                /\ (tail = []
                    \/ exists v output_path,
                         tail `prefix_of` download_steps v output_path)).
Proof.
  intros run location.
  pose proof (generate_video_with_image_calls prompt image_path model aspect_ratio
                resolution duration_seconds output_filename kwargs w) as Hspec.
  unfold sat in Hspec. fold run in Hspec.
  destruct Hspec as [(evs & Ht & Hrun) Hfail].
  split; [exact Hfail|].
  exists evs. split; [exact Ht|].
  destruct Hrun as [-> | ([request handles] & tail & -> & Hd)]; [left; reflexivity|].
  right. exists request, handles, tail. split; [reflexivity | exact Hd].
Qed.

(** The checks of image-to-video generation run in a fixed order, before
    any call: a blank prompt, a missing image path, a lookup of the path
    that raises, a path that does not exist, a path that is not a regular
    file and a missing image library each end the run with their own
    failure, the trace and the environment as they were.  What a lookup
    raises is the failure of the run. *)
Theorem generate_video_with_image_guards
    (prompt image_path : string)
    (model aspect_ratio resolution duration_seconds : PyVal)
    (output_filename : option string) (kwargs : gmap string PyVal)
    (w : World E) :
  let run p i := generate_video_with_image p i model aspect_ratio resolution
                   duration_seconds output_filename kwargs in
  let location := pathlib.to_str (pathlib.Path image_path) in
  (all_chars Str.isspace prompt = true ->
   refused (run (PyStr prompt) (PyStr image_path)) w
           (ValueError "Prompt must be a non-empty string"))
  /\ (all_chars Str.isspace prompt = false ->
      (refused (run (PyStr prompt) PyNone) w
               (ValueError "Image path must be a non-empty string")
       /\ refused (run (PyStr prompt) (PyStr EmptyString)) w
                  (ValueError "Image path must be a non-empty string"))
      /\ (image_path <> EmptyString ->
          (forall x, Path_exists location (env w) = Raise x ->
                     refused (run (PyStr prompt) (PyStr image_path)) w x)
          /\ (Path_exists location (env w) = Ok false ->
              refused (run (PyStr prompt) (PyStr image_path)) w
                      (FileNotFoundError ("Image file not found: " +:+ image_path)))
          /\ (Path_exists location (env w) = Ok true ->
              (forall x, Path_is_file location (env w) = Raise x ->
                         refused (run (PyStr prompt) (PyStr image_path)) w x)
              /\ (Path_is_file location (env w) = Ok false ->
                  refused (run (PyStr prompt) (PyStr image_path)) w
                          (ValueError ("Image path is not a file: " +:+ image_path)))
              /\ (Path_is_file location (env w) = Ok true ->
                  image_library_installed (env w) = false ->
                  refused (run (PyStr prompt) (PyStr image_path)) w
                    (OtherException "ImportError"
                       "PIL/Pillow is required for image-to-video. Install with: pip install Pillow"))))).
Proof.
  intros run location. subst run location. cbv beta.
  unfold refused, generate_video_with_image. cbn [truthy is_str py_str].
  rewrite strip_is_empty_all_space.
  split.
  - intros ->. rewrite orb_true_r. repeat split.
  - intros Hsp. rewrite Hsp.
    destruct prompt as [|c prompt]; [discriminate Hsp|].
    cbn [String.eqb negb orb].
    split; [repeat split|].
    intros Hi.
    destruct (String.eqb_spec image_path EmptyString) as [? | _]; [contradiction|].
    cbn [negb orb].
    unfold mbind, M_bind, exists_, is_file_, image_library_, raise.
    split; [|split].
    + intros x Hex. rewrite Hex. repeat split.
    + intros Hex. rewrite Hex. repeat split.
    + intros Hex. rewrite Hex. cbn [negb]. split; [|split].
      * intros x Hfile. rewrite Hfile. repeat split.
      * intros Hfile. rewrite Hfile. repeat split.
      * intros Hfile Hlib. rewrite Hfile. cbn [negb]. rewrite Hlib. repeat split.
Qed.

End ImageToVideo.

Lemma generate_video_with_image_run_witness :
  let w := Desk.start demo_desk in
  let e := OtherException "PermissionError"
             "[Errno 13] Permission denied: 'vault/first.png'" in
  four_classes e = true
  \/ Path_exists "vault/first.png" (env w) = Raise e
  \/ Path_is_file "vault/first.png" (env w) = Raise e
  \/ (image_library_installed (env w) = false
      /\ e = OtherException "ImportError"
               "PIL/Pillow is required for image-to-video. Install with: pip install Pillow").
Proof.
  intros w e.
  destruct (generate_video_with_image_run (PyStr lion) (PyStr "vault/first.png")
              PyNone PyNone PyNone PyNone None ∅ w) as [Hfail _].
  apply (Hfail e). reflexivity.
Defined.

Lemma generate_video_with_image_guards_witness :
  refused (generate_video_with_image (PyStr lion) (PyStr "frames") PyNone PyNone
             PyNone PyNone None ∅)
          (Desk.start demo_desk)
          (ValueError "Image path is not a file: frames")
  /\ refused (generate_video_with_image (PyStr lion) (PyStr "frames/none.png") PyNone
                PyNone PyNone PyNone None ∅)
             (Desk.start demo_desk)
             (FileNotFoundError "Image file not found: frames/none.png")
  /\ refused (generate_video_with_image (PyStr lion) (PyStr "vault/first.png") PyNone
                PyNone PyNone PyNone None ∅)
             (Desk.start demo_desk)
             (OtherException "PermissionError"
                "[Errno 13] Permission denied: 'vault/first.png'").
Proof.
  split; [|split].
  - destruct (generate_video_with_image_guards lion "frames" PyNone PyNone PyNone
                PyNone None ∅ (Desk.start demo_desk)) as [_ Hgood].
    destruct (Hgood eq_refl) as [_ Hpath].
    destruct (Hpath ltac:(discriminate)) as (_ & _ & Hthere).
    destruct (Hthere eq_refl) as (_ & Hdir & _).
    apply Hdir. reflexivity.
  - destruct (generate_video_with_image_guards lion "frames/none.png" PyNone PyNone
                PyNone PyNone None ∅ (Desk.start demo_desk)) as [_ Hgood].
    destruct (Hgood eq_refl) as [_ Hpath].
    destruct (Hpath ltac:(discriminate)) as (_ & Hmissing & _).
    apply Hmissing. reflexivity.
  - destruct (generate_video_with_image_guards lion "vault/first.png" PyNone PyNone
                PyNone PyNone None ∅ (Desk.start demo_desk)) as [_ Hgood].
    destruct (Hgood eq_refl) as [_ Hpath].
    destruct (Hpath ltac:(discriminate)) as (Hfault & _).
    apply Hfault. reflexivity.
Defined.

Example generate_video_with_image_end_to_end :
  let run := generate_video_with_image (PyStr lion) (PyStr "frames/first.png")
               PyNone PyNone PyNone PyNone None ∅ (Desk.start demo_desk) in
  (pathlib.to_str <$> match run.1 with Ok p => Some p | Raise _ => None end)
  = Some "output/20250309_120005_3_1_5ebf521d.mp4".
Proof. vm_compute. reflexivity. Qed.

(** ** Scene files *)

Section SceneFiles.
Context {E : Type} `{Environment E} `{LocalFiles E}.

Lemma path_exists_true (path : string) (e : E) :
  path_exists path e = true -> Path_exists path e = Ok true.
Proof.
  unfold path_exists. destruct (Path_exists path e) as [[|] | x]; congruence.
Qed.

Lemma path_is_file_true (path : string) (e : E) :
  path_is_file path e = true -> Path_is_file path e = Ok true.
Proof.
  unfold path_is_file. destruct (Path_is_file path e) as [[|] | x]; congruence.
Qed.

Lemma bind_exists_ {A} (path : string) (k : bool -> M E A) (w : World E) :
  (exists_ path ≫= k) w
  = match Path_exists path (env w) with
    | Ok found => k found w
    | Raise x => (Raise x, w)
    end.
Proof. reflexivity. Qed.

Lemma bind_is_file_ {A} (path : string) (k : bool -> M E A) (w : World E) :
  (is_file_ path ≫= k) w
  = match Path_is_file path (env w) with
    | Ok regular => k regular w
    | Raise x => (Raise x, w)
    end.
Proof. reflexivity. Qed.

Lemma bind_json_load {A} (path : string) (handler : exn -> M E JsonDocument)
      (k : JsonDocument -> M E A) (w : World E) :
  (try_except (quiet_call (json_load path)) handler ≫= k) w
  = match json_load path (env w) with
    | (Ok doc, e1) => k doc {| env := e1; trace := trace w; stdout := stdout w |}
    | (Raise x, e1) =>
        (handler x ≫= k) {| env := e1; trace := trace w; stdout := stdout w |}
    end.
Proof.
  unfold mbind, M_bind, try_except, quiet_call.
  destruct (json_load path (env w)) as [[doc | x] e1]; reflexivity.
Qed.

(** Once the file is read, only a dictionary holding a non-empty array
    under ["scenes"] starts a chain, which then runs exactly as
    [extend_from_scenes] on that array; every other content (no
    dictionary, no such key, an empty array, a scalar, a dictionary in
    its place) is a [ValueError] and no request is made. *)
Theorem extend_from_scenes_file_content
    (scenes_file : string) (output_filename : option string)
    (w : World E) (doc : JsonDocument) (e1 : E) :
  let location := pathlib.to_str (pathlib.Path scenes_file) in
  let w1 := {| env := e1; trace := trace w; stdout := stdout w |} in
  scenes_file <> EmptyString ->
  path_exists location (env w) = true ->
  path_is_file location (env w) = true ->
  json_load location (env w) = (Ok doc, e1) ->
  match usable_scenes doc with
  | Some scenes =>
      extend_from_scenes_file (PyStr scenes_file) output_filename w
      = extend_from_scenes scenes output_filename w1
  | None =>
      exists msg,
        extend_from_scenes_file (PyStr scenes_file) output_filename w
        = (Raise (ValueError msg), w1)
  end.
Proof.
  intros location w1 Hne Hex Hfile Hload. subst location.
  unfold extend_from_scenes_file. cbn [truthy is_str py_str].
  destruct (String.eqb_spec scenes_file EmptyString) as [? | _]; [contradiction|].
  cbn [negb orb].
  rewrite bind_exists_, (path_exists_true _ _ Hex). cbn [negb].
  rewrite bind_is_file_, (path_is_file_true _ _ Hfile). cbn [negb].
  rewrite bind_json_load, Hload. fold w1.
  destruct doc as [[[v | empty | [|scene rest]]|]|]; cbn [usable_scenes];
    [destruct (truthy v) eqn:Hv | destruct empty | | | |];
    first [reflexivity | eexists; simpl; try rewrite Hv; reflexivity].
Qed.

(** A scenes file that cannot be used fails before any request, the
    trace as it was: an empty path is a [ValueError]; what a lookup of
    the path raises is the failure of the run, unchanged; a missing file
    is a [FileNotFoundError]; a path that is not a regular file a
    [ValueError]; text that does not decode a [ValueError]; any other
    read fault a [RuntimeError]. *)
Theorem extend_from_scenes_file_unreadable
    (scenes_file : string) (output_filename : option string) (w : World E) :
  let location := pathlib.to_str (pathlib.Path scenes_file) in
  let run := extend_from_scenes_file (PyStr scenes_file) output_filename in
  (scenes_file = EmptyString ->
   refused run w (ValueError "Scenes file path must be a non-empty string"))
  /\ (scenes_file <> EmptyString ->
      (forall x, Path_exists location (env w) = Raise x -> refused run w x)
      /\ (Path_exists location (env w) = Ok false ->
          refused run w
                  (FileNotFoundError ("Scenes file not found: " +:+ scenes_file)))
      /\ (Path_exists location (env w) = Ok true ->
          (forall x, Path_is_file location (env w) = Raise x -> refused run w x)
          /\ (Path_is_file location (env w) = Ok false ->
              refused run w
                      (ValueError ("Scenes path is not a file: " +:+ scenes_file)))
          /\ (Path_is_file location (env w) = Ok true ->
              forall (x : exn) (e1 : E),
                json_load location (env w) = (Raise x, e1) ->
                (run w).1
                = Raise (if is_JSONDecodeError x
                         then ValueError ("Invalid JSON in scenes file: "
                                          +:+ exn_str x)
                         else RuntimeError ("Failed to read scenes file: "
                                            +:+ exn_str x))
                /\ trace (run w).2 = trace w
                /\ env (run w).2 = e1))).
Proof.
  intros location run. subst location run.
  unfold refused, extend_from_scenes_file. cbn [truthy is_str py_str].
  split.
  - intros ->. repeat split.
  - intros Hne.
    destruct (String.eqb_spec scenes_file EmptyString) as [? | _]; [contradiction|].
    cbn [negb orb].
    split; [|split].
    + intros x Hex. rewrite bind_exists_, Hex. repeat split.
    + intros Hex. rewrite bind_exists_, Hex. repeat split.
    + intros Hex. rewrite bind_exists_, Hex. cbn [negb]. split; [|split].
      * intros x Hfile. rewrite bind_is_file_, Hfile. repeat split.
      * intros Hfile. rewrite bind_is_file_, Hfile. repeat split.
      * intros Hfile x e1 Hload. rewrite bind_is_file_, Hfile. cbn [negb].
        rewrite bind_json_load, Hload.
        destruct (is_JSONDecodeError x); repeat split.
Qed.

Lemma extend_from_scenes_file_spec
    (scenes_file : PyVal) (output_filename : option string) (w : World E) :
  sat (extend_from_scenes_file scenes_file output_filename) w
      (fun r w' =>
         exists s d v, effects w w' s d v /\ (s <= 21)%nat /\ (v <= d <= 1)%nat).
Proof.
  assert (Hquit : forall (w0 : World E),
             trace w0 = trace w ->
             exists s d v, effects w w0 s d v /\ (s <= 21)%nat /\ (v <= d <= 1)%nat).
  { intros w0 Ht. exists 0%nat, 0%nat, 0%nat.
    split; [apply effects_same_trace, Ht|]. split; lia. }
  unfold extend_from_scenes_file.
  destruct (negb (truthy scenes_file) || negb (is_str scenes_file)).
  { apply sat_raise, Hquit. reflexivity. }
  apply sat_bind, sat_exists_.
  match goal with
  | |- context [Path_exists ?p ?e] => destruct (Path_exists p e) as [[|] | x]
  end; cbn [negb].
  2:{ apply sat_raise, Hquit. reflexivity. }
  2:{ apply Hquit. reflexivity. }
  apply sat_bind, sat_is_file_.
  match goal with
  | |- context [Path_is_file ?p ?e] => destruct (Path_is_file p e) as [[|] | x]
  end; cbn [negb].
  2:{ apply sat_raise, Hquit. reflexivity. }
  2:{ apply Hquit. reflexivity. }
  apply sat_bind, sat_try_except, sat_quiet_call.
  intros [doc | x] e1 _.
  2:{ destruct (is_JSONDecodeError x); apply sat_raise, Hquit;
        cbn [after trace]; apply app_nil_r. }
  set (w1 := after w e1 []).
  assert (H1 : effects w w1 0 0 0).
  { apply effects_same_trace. cbn [w1 after trace]. apply app_nil_r. }
  destruct doc as [entry|]; [|apply sat_raise, Hquit; cbn [after trace]; apply app_nil_r].
  destruct (negb (json_truthy (default (JsonArray []) entry)));
    [apply sat_raise, Hquit; cbn [after trace]; apply app_nil_r|].
  destruct (default (JsonArray []) entry) as [v | empty | items];
    try (apply sat_raise, Hquit; cbn [after trace]; apply app_nil_r).
  eapply sat_weaken; [apply extend_from_scenes_spec|].
  intros r w2 (s & d & v & Heff & Hlen & Hmax & Hdv & Hd & _).
  exists s, d, v.
  split; [eapply effects_eq; [eapply effects_trans; [exact H1 | exact Heff]|..];
          reflexivity|].
  split; [exact Hmax | exact Hdv].
Qed.

(** Whatever the file holds, a run from a scenes file makes at most 21
    generation requests and at most one download and one save. *)
Theorem extend_from_scenes_file_requests_bounded
    (scenes_file : PyVal) (output_filename : option string) (w : World E) :
  exists s d v,
    effects w (extend_from_scenes_file scenes_file output_filename w).2 s d v
    /\ (s <= 21)%nat /\ (v <= d <= 1)%nat.
Proof. exact (extend_from_scenes_file_spec scenes_file output_filename w). Qed.

End SceneFiles.

Lemma extend_from_scenes_file_content_witness :
  extend_from_scenes_file (PyStr "./scenes.json") None (Desk.start scenes_desk)
  = extend_from_scenes plain_scenes None (Desk.start scenes_desk)
  /\ exists msg,
       extend_from_scenes_file (PyStr "empty.json") None (Desk.start scenes_desk)
       = (Raise (ValueError msg), Desk.start scenes_desk).
Proof.
  split.
  - apply (extend_from_scenes_file_content "./scenes.json" None
             (Desk.start scenes_desk)
             (DocDict (Some (JsonArray plain_scenes))) scenes_desk);
      [discriminate | reflexivity ..].
  - apply (extend_from_scenes_file_content "empty.json" None
             (Desk.start scenes_desk)
             (DocDict (Some (JsonArray []))) scenes_desk);
      [discriminate | reflexivity ..].
Defined.

Lemma extend_from_scenes_file_unreadable_witness :
  refused (extend_from_scenes_file (PyStr "drafts") None) (Desk.start scenes_desk)
          (ValueError "Scenes path is not a file: drafts")
  /\ refused (extend_from_scenes_file (PyStr "vault/scenes.json") None)
             (Desk.start scenes_desk)
             (OtherException "PermissionError"
                "[Errno 13] Permission denied: 'vault/scenes.json'")
  /\ (extend_from_scenes_file (PyStr "notes.txt") None (Desk.start scenes_desk)).1
     = Raise (ValueError
                "Invalid JSON in scenes file: Expecting value: line 1 column 1 (char 0)").
Proof.
  split; [|split].
  - destruct (extend_from_scenes_file_unreadable "drafts" None (Desk.start scenes_desk))
      as [_ Hne].
    destruct (Hne ltac:(discriminate)) as (_ & _ & Hthere).
    destruct (Hthere eq_refl) as (_ & Hdir & _).
    apply Hdir. reflexivity.
  - destruct (extend_from_scenes_file_unreadable "vault/scenes.json" None
                (Desk.start scenes_desk)) as [_ Hne].
    destruct (Hne ltac:(discriminate)) as (Hfault & _).
    apply Hfault. reflexivity.
  - destruct (extend_from_scenes_file_unreadable "notes.txt" None
                (Desk.start scenes_desk)) as [_ Hne].
    destruct (Hne ltac:(discriminate)) as (_ & _ & Hthere).
    destruct (Hthere eq_refl) as (_ & _ & Hread).
    destruct (Hread eq_refl
                (OtherException "JSONDecodeError"
                   "Expecting value: line 1 column 1 (char 0)") scenes_desk eq_refl)
      as [Hrun _].
    exact Hrun.
Defined.

(** ** Model discovery *)

Lemma first_named_spec (model_name : string)
      (models : list model_discovery.ModelInfo) :
  match model_discovery.first_named model_name models with
  | Some info => model_discovery.name info = model_name /\ In info models
  | None => forall info, In info models -> model_discovery.name info <> model_name
  end.
Proof.
  induction models as [|model rest IH]; cbn [model_discovery.first_named].
  - intros info [].
  - destruct (String.eqb_spec (model_discovery.name model) model_name) as [Heq | Hne].
    + split; [exact Heq | left; reflexivity].
    + destruct (model_discovery.first_named model_name rest) as [info|].
      * destruct IH as [Hn Hin]. split; [exact Hn | right; exact Hin].
      * intros info [<- | Hin]; [exact Hne | apply IH, Hin].
Qed.

(** [get_model_info] returns a catalog entry of the requested name, and
    [None] only when no entry has that name; the key argument is ignored. *)
Theorem get_model_info_correct (model_name : string) (api_key : option string) :
  match model_discovery.get_model_info model_name api_key with
  | Some info =>
      model_discovery.name info = model_name
      /\ In info model_discovery.KNOWN_MODELS
  | None =>
      forall info, In info model_discovery.KNOWN_MODELS ->
                   model_discovery.name info <> model_name
  end
  /\ model_discovery.get_model_info model_name api_key
     = model_discovery.get_model_info model_name None.
Proof.
  split; [apply first_named_spec | reflexivity].
Qed.

Lemma first_named_is_Some (model_name : string)
      (models : list model_discovery.ModelInfo) :
  is_Some (model_discovery.first_named model_name models)
  <-> py_in (PyStr model_name)
            (map (fun info => PyStr (model_discovery.name info)) models) = true.
Proof.
  unfold py_in.
  induction models as [|model rest IH];
    cbn [model_discovery.first_named map existsb py_eq].
  - split; [intros [? ?]; discriminate | discriminate].
  - rewrite (String.eqb_sym model_name).
    destruct (String.eqb (model_discovery.name model) model_name).
    + split; [reflexivity | intros _; eexists; reflexivity].
    + exact IH.
Qed.

Lemma supported_models_are_known_names :
  SUPPORTED_MODELS
  = map (fun info => PyStr (model_discovery.name info)) model_discovery.KNOWN_MODELS.
Proof. reflexivity. Qed.

Lemma known_models_known (info : model_discovery.ModelInfo) :
  In info model_discovery.KNOWN_MODELS ->
  py_in (PyStr (model_discovery.name info)) SUPPORTED_MODELS = true.
Proof.
  intros Hin. rewrite supported_models_are_known_names.
  unfold py_in. apply existsb_exists.
  exists (PyStr (model_discovery.name info)).
  split; [|apply String.eqb_refl].
  exact (List.in_map (fun i => PyStr (model_discovery.name i)) _ _ Hin).
Qed.

(** The catalog of model descriptions and the table the validator checks
    hold the same names: a model has a description exactly when
    [validate_parameters] accepts it without a warning. *)
Theorem known_models_are_the_supported_models (model_name : string) :
  is_Some (model_discovery.get_model_info model_name None)
  <-> py_in (PyStr model_name) SUPPORTED_MODELS = true.
Proof.
  rewrite supported_models_are_known_names. apply first_named_is_Some.
Qed.

Lemma recommendations_are_known :
  map_Forall (fun _ model_name =>
                is_Some (model_discovery.get_model_info model_name None))
             model_discovery.recommendations.
Proof.
  unfold model_discovery.recommendations.
  repeat (apply map_Forall_insert_2; [eexists; reflexivity|]).
  apply map_Forall_empty.
Qed.

Lemma default_model_is_known :
  is_Some (model_discovery.get_model_info DEFAULT_MODEL None).
Proof. eexists. reflexivity. Qed.

(** For every use case, known or not, [get_recommended_model] returns a
    model of the catalog whose name the validator supports; an unknown use
    case gets the default model. *)
Theorem get_recommended_model_total (use_case : string) :
  exists info,
    model_discovery.get_recommended_model use_case = Some info
    /\ In info model_discovery.KNOWN_MODELS
    /\ py_in (PyStr (model_discovery.name info)) SUPPORTED_MODELS = true
    /\ (model_discovery.recommendations !! use_case = None ->
        model_discovery.name info = DEFAULT_MODEL).
Proof.
  unfold model_discovery.get_recommended_model.
  assert (Hknown : is_Some (model_discovery.get_model_info
                              (default "veo-3.1-generate-preview"
                                 (model_discovery.recommendations !! use_case)) None)).
  { destruct (model_discovery.recommendations !! use_case) as [n|] eqn:Hrec.
    - exact (recommendations_are_known use_case n Hrec).
    - exact default_model_is_known. }
  destruct Hknown as [info Hinfo]. exists info. split; [exact Hinfo|].
  pose proof (first_named_spec
                (default "veo-3.1-generate-preview"
                   (model_discovery.recommendations !! use_case))
                model_discovery.KNOWN_MODELS) as Hspec.
  unfold model_discovery.get_model_info, model_discovery.list_available_models
    in Hinfo.
  rewrite Hinfo in Hspec. destruct Hspec as [Hname Hin].
  split; [exact Hin|]. split.
  - apply known_models_known. exact Hin.
  - intros Hnone. rewrite Hname, Hnone. reflexivity.
Qed.

(** ** Witnesses on the scripted environment *)

Lemma generate_filename_structure_witness :
  exists tag hash ext : string,
    generate_filename (PyStr "Sunset beach") (PyStr "veo-2.0-generate-001") "..mov"
      (Scripted.start (Scripted.script 0 Scripted.NoResponse))
    = (Ok (strftime_stamp
             (datetime_now (env (Scripted.start (Scripted.script 0 Scripted.NoResponse))))
           +:+ "_" +:+ tag +:+ "_" +:+ hash +:+ "." +:+ ext),
       Scripted.start (Scripted.script 0 Scripted.NoResponse))
    /\ Str.has_char "." tag = false
    /\ String.length hash = 8%nat
    /\ all_chars is_lower_hex hash = true
    /\ String.prefix "." ext = false
    /\ exists k, "..mov" = dots k +:+ ext.
Proof.
  apply (generate_filename_structure "Sunset beach" "veo-2.0-generate-001" "..mov");
    discriminate.
Defined.

Example generate_filename_sunset :
  (generate_filename (PyStr "Sunset beach") (PyStr "veo-2.0-generate-001") "..mov"
     (Scripted.start (Scripted.script 0 Scripted.NoResponse))).1
  = Ok "20250309_120005_2_0-001_87a0b8db.mov".
Proof. vm_compute. reflexivity. Qed.

Lemma generate_video_requires_artifact_witness :
  (generate_video (PyStr lion) PyNone PyNone PyNone PyNone PyNone PyNone None ∅
     (Scripted.start (Scripted.script 1 (Scripted.Videos (Some 0%nat))))).1
  = Raise (RuntimeError "API did not return any generated videos").
Proof.
  erewrite (generate_video_requires_artifact (PyStr lion) PyNone PyNone PyNone PyNone
              PyNone PyNone None ∅
              (Scripted.start (Scripted.script 1 (Scripted.Videos (Some 0%nat)))));
    [reflexivity | reflexivity | reflexivity | reflexivity | reflexivity
     | reflexivity | vm_compute; reflexivity | right; reflexivity].
Defined.

(** ** Generated names and the output directory *)

Lemma append_assoc (a b c : string) : (a +:+ b) +:+ c = a +:+ (b +:+ c).
Proof.
  induction a as [|x a IH]; [reflexivity|].
  change (String x ((a +:+ b) +:+ c) = String x (a +:+ (b +:+ c))).
  rewrite IH. reflexivity.
Qed.

Lemma length_append (a b : string) :
  String.length (a +:+ b) = (String.length a + String.length b)%nat.
Proof.
  induction a as [|x a IH]; [reflexivity|].
  change (S (String.length (a +:+ b)) = S (String.length a + String.length b)).
  rewrite IH. reflexivity.
Qed.

Lemma has_char_append (c : ascii) (a b : string) :
  Str.has_char c (a +:+ b) = Str.has_char c a || Str.has_char c b.
Proof.
  induction a as [|x a IH]; [reflexivity|].
  change (Ascii.eqb x c || Str.has_char c (a +:+ b)
          = Ascii.eqb x c || Str.has_char c a || Str.has_char c b).
  rewrite IH. apply orb_assoc.
Qed.

Lemma lower_hex_no_slash (s : string) :
  all_chars is_lower_hex s = true -> Str.has_char "/" s = false.
Proof.
  induction s as [|c s IH]; [reflexivity|]. simpl.
  intros [Hc Hs]%andb_true_iff. rewrite (IH Hs), orb_false_r.
  destruct (Ascii.eqb_spec c "/") as [-> | _]; [discriminate Hc | reflexivity].
Qed.

Lemma lstrip_no_char (c : ascii) (chars : list ascii) (s : string) :
  Str.has_char c s = false -> Str.has_char c (Str.lstrip chars s) = false.
Proof.
  induction s as [|x s IH]; [reflexivity|]. intros Hs. cbn [Str.lstrip].
  destruct (bool_decide (x ∈ chars)); [|exact Hs].
  apply IH. simpl in Hs. apply orb_false_iff in Hs as [_ Hs]. exact Hs.
Qed.

(** Appending text without separator changes the last field only. *)
Lemma split_append_tail (sep : ascii) (a t : string) :
  Str.has_char sep t = false ->
  exists l x, Str.split sep a = l ++ [x]
              /\ Str.split sep (a +:+ t) = l ++ [x +:+ t].
Proof.
  intros Ht. induction a as [|c a (l & x & Ha & Hat)].
  - exists [], EmptyString. split; [reflexivity|]. apply split_no_sep, Ht.
  - change (String c a +:+ t) with (String c (a +:+ t)).
    cbn [Str.split]. rewrite Ha, Hat.
    destruct (Ascii.eqb c sep).
    + exists (EmptyString :: l), x. split; reflexivity.
    + destruct l as [|y l].
      * exists [], (String c x). split; reflexivity.
      * exists (String c y :: l), x. split; reflexivity.
Qed.

Lemma long_component (s : string) :
  (3 <= String.length s)%nat ->
  pathlib.keep_part s = true /\ String.eqb s ".." = false.
Proof.
  destruct s as [|a [|b [|c s]]]; simpl; try lia. intros _.
  split.
  - unfold pathlib.keep_part. cbn [String.eqb].
    destruct (Ascii.eqb a "."); reflexivity.
  - destruct (Ascii.eqb a "."); [|reflexivity].
    destruct (Ascii.eqb b "."); reflexivity.
Qed.

(** The final component of a name that ends in three or more characters
    without separator ends in them too. *)
Lemma name_of_tail (a t : string) :
  Str.has_char "/" t = false -> (3 <= String.length t)%nat ->
  exists x, pathlib.name (pathlib.Path (a +:+ t)) = x +:+ t.
Proof.
  intros Ht Hlen.
  destruct (split_append_tail "/" a t Ht) as (l & x & _ & Hat).
  exists x. unfold pathlib.name, pathlib.Path. cbn [pathlib.parts].
  rewrite Hat, List.filter_app. cbn [List.filter].
  destruct (long_component (x +:+ t)) as [Hk _].
  { rewrite length_append. lia. }
  rewrite Hk. apply last_app_singleton.
Qed.

(** A generated name always lands inside the output directory: whatever
    the prompt and the model name are (a model name may hold separators
    and dots), when the extension holds no separator, [get_output_path]
    maps the name [generate_filename] returns to a file directly below
    the output directory. *)
Theorem generated_name_stays_inside
    {E} `{Environment E} (prompt model : PyVal) (extension name : string)
    (w w' : World E) :
  Str.has_char "/" extension = false ->
  generate_filename prompt model extension w = (Ok name, w') ->
  exists n,
    get_output_path name
    = Ok {| pathlib.root := EmptyString; pathlib.parts := [OUTPUT_DIR; n] |}
    /\ pathlib.inside (pathlib.Path OUTPUT_DIR)
         {| pathlib.root := EmptyString; pathlib.parts := [OUTPUT_DIR; n] |}
       = true.
Proof.
  intros Hext Hname. unfold generate_filename in Hname.
  destruct (negb (truthy prompt) || negb (is_str prompt)); [discriminate Hname|].
  destruct (negb (truthy model) || negb (is_str model)); [discriminate Hname|].
  destruct (md5_hexdigest_shape (Str.encode_utf8 (py_str prompt))) as [Hlen Hhex].
  set (hash := Str.take 8 (hashlib.md5_hexdigest (Str.encode_utf8 (py_str prompt))))
    in Hname.
  set (ext := Str.lstrip ["."%char] extension) in Hname.
  set (tag := Str.replace "." "_" _) in Hname.
  set (stamp := strftime_stamp (datetime_now (env w))).
  assert (Hname' : stamp +:+ "_" +:+ tag +:+ "_" +:+ hash +:+ "." +:+ ext = name).
  { pose proof (f_equal fst Hname) as H1.
    change (Ok (stamp +:+ "_" +:+ tag +:+ "_" +:+ hash +:+ "." +:+ ext) = Ok name) in H1.
    congruence. }
  clear Hname. rename Hname' into Hname.
  assert (Hgroup : name = (stamp +:+ "_" +:+ tag +:+ "_") +:+ (hash +:+ "." +:+ ext)).
  { rewrite <- Hname, !append_assoc. reflexivity. }
  assert (Ht : Str.has_char "/" (hash +:+ "." +:+ ext) = false).
  { rewrite !has_char_append.
    rewrite (lower_hex_no_slash hash) by (apply all_chars_take, Hhex).
    subst ext. rewrite (lstrip_no_char _ _ _ Hext). reflexivity. }
  assert (Hl : (3 <= String.length (hash +:+ "." +:+ ext))%nat).
  { rewrite length_append. subst hash. rewrite length_take, Hlen. simpl. lia. }
  destruct (name_of_tail (stamp +:+ "_" +:+ tag +:+ "_") _ Ht Hl) as [x Hx].
  rewrite <- Hgroup in Hx.
  destruct (long_component (x +:+ hash +:+ "." +:+ ext)) as [Hk Hdd].
  { rewrite length_append. lia. }
  assert (Hne : name <> EmptyString).
  { rewrite Hgroup. apply append_nonempty_r. intros Hempty.
    rewrite Hempty in Hl. simpl in Hl. lia. }
  exists (x +:+ hash +:+ "." +:+ ext).
  rewrite (get_output_path_shape _ Hne). cbv zeta. rewrite Hx.
  destruct (String.eqb_spec (x +:+ hash +:+ "." +:+ ext) EmptyString) as [He | _].
  { rewrite He in Hk. discriminate Hk. }
  split; [reflexivity|].
  unfold pathlib.inside. simpl. rewrite Hdd. reflexivity.
Qed.

Lemma generated_name_stays_inside_witness :
  exists n,
    get_output_path "20250309_120005_studio/__/3_1_7404b88c.mp4"
    = Ok {| pathlib.root := EmptyString; pathlib.parts := [OUTPUT_DIR; n] |}
    /\ pathlib.inside (pathlib.Path OUTPUT_DIR)
         {| pathlib.root := EmptyString; pathlib.parts := [OUTPUT_DIR; n] |}
       = true.
Proof.
  apply (generated_name_stays_inside (PyStr lion) (PyStr "studio/../veo-3.1") ".mp4"
           "20250309_120005_studio/__/3_1_7404b88c.mp4"
           (Scripted.start (Scripted.script 0 Scripted.NoResponse))
           (Scripted.start (Scripted.script 0 Scripted.NoResponse)));
    [reflexivity | vm_compute; reflexivity].
Defined.
